(** * CourseScheduler: the timetable engine of [scheduler.py]

    A shallow embedding of the class [ScheduleGenerator] and a
    verification of the properties its specification states about it.

    Conventions of the embedding.
    - Python [int] values that are measured in minutes, seats or students
      are [Z]; a course's weekly frequency is a session count and is a
      [nat] (it is the bound of [range(required_sessions)]).
    - Python [str] is [string]; [dict] is an insertion-ordered association
      list (module [Dict]), because the iteration order of the ledgers and
      of the session tally decides the order of the output.
    - A raised exception is the [Raise] branch of [result]; the only
      exception the engine can raise is [KeyError].
    - The global generator of the [random] module is an explicit stream of
      draws, threaded through the run. *)

From Stdlib Require Import List String Ascii ZArith Arith Bool Lia.
From Stdlib Require Import Permutation Sorted DecimalString Decimal.
Import ListNotations.

Local Open Scope string_scope.
Local Open Scope list_scope.
Local Open Scope Z_scope.

(** ** The time grid *)

(** [datetime.time]: the two attributes the grid builder reads. *)
Record time := mkTime { hour : Z; minute : Z }.

(** The schedule options passed to [ScheduleGenerator.__init__]. *)
Record GridConfig := mkGrid {
  start_time : time;
  end_time : time;
  period_length : Z;
  break_length : Z;
  lunch_period : string;
  lunch_duration : Z
}.

(** [f"{n:02d}"]: decimal, sign first, zero-padded to two characters. *)
Definition fmt02 (n : Z) : string :=
  let s := NilZero.string_of_int (Z.to_int n) in
  if (String.length s <? 2)%nat then ("0" ++ s)%string else s.

(** [f"{m // 60:02d}:{m % 60:02d}"]; Python's [//] and [%] round towards
    minus infinity, as [Z.div] and [Z.modulo] do. *)
Definition fmt_clock (m : Z) : string :=
  (fmt02 (m / 60) ++ ":" ++ fmt02 (m mod 60))%string.

(** The label appended to [time_slots]: ["HH:MM-HH:MM"]. *)
Definition slot_label (current period_end : Z) : string :=
  (fmt_clock current ++ "-" ++ fmt_clock period_end)%string.

Definition start_minutes (g : GridConfig) : Z :=
  hour (start_time g) * 60 + minute (start_time g).

Definition end_minutes (g : GridConfig) : Z :=
  hour (end_time g) * 60 + minute (end_time g).

(** The test of lines 87-88: is [period_counter] the lunch period? *)
Definition is_lunch_period (g : GridConfig) (period_counter : Z) : bool :=
  (String.eqb (lunch_period g) "After period 3" && (period_counter =? 3))
  || (String.eqb (lunch_period g) "After period 4" && (period_counter =? 4)).

(** The cursor after one period: lines 87-91. *)
Definition next_minutes (g : GridConfig) (current period_counter : Z) : Z :=
  let period_end := current + period_length g in
  if is_lunch_period g period_counter
  then period_end + lunch_duration g
  else period_end + break_length g.

(** The [while] loop of [_generate_time_slots].  [fuel] bounds the number
    of iterations; [None] means the bound was reached with the loop
    condition still true. *)
Fixpoint time_slots_loop (fuel : nat) (g : GridConfig)
    (current_minutes period_counter : Z) : option (list string) :=
  match fuel with
  | O => None
  | S fuel' =>
      if current_minutes + period_length g <=? end_minutes g then
        let period_end := current_minutes + period_length g in
        match time_slots_loop fuel' g
                (next_minutes g current_minutes period_counter)
                (period_counter + 1) with
        | Some rest => Some (slot_label current_minutes period_end :: rest)
        | None => None
        end
      else Some []
  end.

Definition _generate_time_slots (fuel : nat) (g : GridConfig)
  : option (list string) :=
  time_slots_loop fuel g (start_minutes g) 1.

(** The same loop, recording each period as the pair of its first minute
    and its end minute instead of the formatted label. *)
Fixpoint slot_bounds_loop (fuel : nat) (g : GridConfig)
    (current_minutes period_counter : Z) : option (list (Z * Z)) :=
  match fuel with
  | O => None
  | S fuel' =>
      if current_minutes + period_length g <=? end_minutes g then
        let period_end := current_minutes + period_length g in
        match slot_bounds_loop fuel' g
                (next_minutes g current_minutes period_counter)
                (period_counter + 1) with
        | Some rest => Some ((current_minutes, period_end) :: rest)
        | None => None
        end
      else Some []
  end.

Definition slot_bounds (fuel : nat) (g : GridConfig) : option (list (Z * Z)) :=
  slot_bounds_loop fuel g (start_minutes g) 1.


(** ** Exceptions and dictionaries *)

(** The engine indexes its dictionaries with [d[k]]; a missing key raises
    [KeyError].  No other exception is raised anywhere in [scheduler.py]. *)
Inductive exn := KeyError.

Inductive result (A : Type) :=
| Ok (a : A)
| Raise (e : exn).
Arguments Ok {A} a.
Arguments Raise {A} e.

(** Keys of a dictionary: a type with an equality test ([__eq__]). *)
Class EqKey (K : Type) := { key_eqb : K -> K -> bool }.

#[export] Instance string_EqKey : EqKey string := {| key_eqb := String.eqb |}.

#[export] Instance pair_EqKey {A B} `{EqKey A} `{EqKey B} : EqKey (A * B) :=
  {| key_eqb := fun p q =>
       key_eqb (fst p) (fst q) && key_eqb (snd p) (snd q) |}.

(** A Python [dict]: keys in order of first insertion. *)
Module Dict.
Section Ops.
Context {K V : Type} `{EqKey K}.

Definition t := list (K * V).

(** [d.get(k)]: [None] when [k] is not a key. *)
Fixpoint get (k : K) (d : t) : option V :=
  match d with
  | [] => None
  | (k', v) :: d' => if key_eqb k k' then Some v else get k d'
  end.

(** [d[k] = v]: overwrite in place, or append a new key. *)
Fixpoint set (k : K) (v : V) (d : t) : t :=
  match d with
  | [] => [(k, v)]
  | (k', v') :: d' =>
      if key_eqb k k' then (k', v) :: d' else (k', v') :: set k v d'
  end.

(** Iteration order of [for k in d]. *)
Definition keys (d : t) : list K := map fst d.

(** [d.items()]. *)
Definition items (d : t) : list (K * V) := d.

(** A dict comprehension [{k: v for ...}] over the listed pairs. *)
Definition of_list (kvs : list (K * V)) : t :=
  fold_left (fun d kv => set (fst kv) (snd kv) d) kvs [].
End Ops.
Arguments t : clear implicits.
End Dict.

(** ** Entities *)

(** The dictionaries of the four input lists, with the keys the engine
    reads (a teacher's subjects and the identifiers added by the data
    manager are never read).  ['frequency'] is the "number of times per
    week" of [add_course], chosen from 1 to 5 in the form. *)
Record Teacher := mkTeacher { t_name : string }.
Record Room := mkRoom { r_name : string; r_capacity : Z }.
Record SchoolClass := mkClass { cl_name : string; cl_size : Z }.
Record Course := mkCourse {
  c_name : string;
  c_teacher : string;
  c_class : string;
  c_duration : Z;
  c_frequency : nat
}.

(** The dictionary built by [_assign_time_slot]. *)
Record Assignment := mkAssignment {
  a_course : string;
  a_teacher : string;
  a_room : string;
  a_class : string;
  a_day : string;
  a_time : string
}.

(** An entry of the list [conflicts]. *)
Record Conflict := mkConflict {
  k_type : string;
  k_day : string;
  k_time : string;
  k_description : string
}.

(** ** Ledgers *)

(** [{name: {day: {time: None-or-assignment}}}] *)
Definition Ledger : Type :=
  Dict.t string (Dict.t string (Dict.t string (option Assignment))).

(** [ledger[name][day][time_slot]] *)
Definition ledger_get (l : Ledger) (name day time_slot : string)
  : result (option Assignment) :=
  match Dict.get name l with
  | None => Raise KeyError
  | Some by_day =>
      match Dict.get day by_day with
      | None => Raise KeyError
      | Some by_time =>
          match Dict.get time_slot by_time with
          | None => Raise KeyError
          | Some cell => Ok cell
          end
      end
  end.

(** [ledger[name][day][time_slot] = assignment]: two subscriptions, which
    may raise, then a store into the innermost dictionary. *)
Definition ledger_set (l : Ledger) (name day time_slot : string)
    (a : Assignment) : result Ledger :=
  match Dict.get name l with
  | None => Raise KeyError
  | Some by_day =>
      match Dict.get day by_day with
      | None => Raise KeyError
      | Some by_time =>
          Ok (Dict.set name
                (Dict.set day (Dict.set time_slot (Some a) by_time) by_day) l)
      end
  end.

(** The comprehension of lines 47-57, for one list of entity names. *)
Definition new_ledger (names days time_slots : list string) : Ledger :=
  Dict.of_list
    (map (fun name =>
            (name,
             Dict.of_list
               (map (fun day =>
                       (day, Dict.of_list
                               (map (fun t => (t, @None Assignment))
                                    time_slots)))
                    days)))
         names).

(** ** The generator object *)

(** The attributes bound once by [__init__]. *)
Record ScheduleGenerator := mkGenerator {
  teachers : list Teacher;
  rooms : list Room;
  classes : list SchoolClass;
  courses : list Course;
  grid : GridConfig;
  days : list string;
  time_slots : list string
}.

Definition weekdays : list string :=
  ["Monday"; "Tuesday"; "Wednesday"; "Thursday"; "Friday"].

(** [__init__], up to line 44.  The three ledgers of lines 47-57 are the
    initial value of the mutable state below ([initial_state]).  [None]
    means that the loop of [_generate_time_slots] did not end within
    [fuel] iterations; [__init__] raises nothing. *)
Definition __init__ (fuel : nat) (teachers : list Teacher)
    (rooms : list Room) (classes : list SchoolClass) (courses : list Course)
    (g : GridConfig) : option ScheduleGenerator :=
  match _generate_time_slots fuel g with
  | Some slots => Some (mkGenerator teachers rooms classes courses g weekdays slots)
  | None => None
  end.

(** ** The random source *)

(** The draws of the generator behind [random.shuffle], in the order they
    are consumed; an exhausted stream keeps answering [0]. *)
Definition Rng := list nat.

(** [randbelow(n)]: a value in [range(n)]. *)
Definition randbelow (n : nat) (rng : Rng) : nat * Rng :=
  match rng with
  | [] => (O, [])
  | r :: rng' => (Nat.modulo r n, rng')
  end.

Fixpoint list_set {A} (i : nat) (v : A) (x : list A) : list A :=
  match x, i with
  | [], _ => []
  | _ :: x', O => v :: x'
  | a :: x', S i' => a :: list_set i' v x'
  end.

(** [x[i], x[j] = x[j], x[i]] *)
Definition swap {A} (i j : nat) (x : list A) : list A :=
  match nth_error x i, nth_error x j with
  | Some xi, Some xj => list_set j xi (list_set i xj x)
  | _, _ => x
  end.

(** [for i in reversed(range(1, len(x))): j = randbelow(i + 1); swap] *)
Fixpoint shuffle_loop {A} (i : nat) (x : list A) (rng : Rng) : list A * Rng :=
  match i with
  | O => (x, rng)
  | S i' =>
      let (j, rng') := randbelow (S i) rng in
      shuffle_loop i' (swap i j x) rng'
  end.

(** [random.shuffle(x)] *)
Definition shuffle {A} (x : list A) (rng : Rng) : list A * Rng :=
  shuffle_loop (List.length x - 1) x rng.

(** ** The state of one run *)

(** What [generate_schedule] mutates: the three ledgers of the object, its
    locals [course_sessions] and [conflicts], and the random generator. *)
Record State := mkState {
  class_schedule : Ledger;
  teacher_schedule : Ledger;
  room_schedule : Ledger;
  course_sessions : Dict.t (string * string) nat;
  conflicts : list Conflict;
  random : Rng
}.

Definition M (A : Type) : Type := State -> result (A * State).

Definition ret {A} (a : A) : M A := fun st => Ok (a, st).

Definition bind {A B} (m : M A) (f : A -> M B) : M B :=
  fun st =>
    match m st with
    | Ok (a, st') => f a st'
    | Raise e => Raise e
    end.

Definition lift {A} (r : State -> result A) : M A :=
  fun st => match r st with Ok a => Ok (a, st) | Raise e => Raise e end.

Declare Scope sched_scope.
Delimit Scope sched_scope with sched.
Notation "x <- m ;; k" := (bind m (fun x => k))
  (at level 61, m at next level, right associativity) : sched_scope.
Notation "m ;;; k" := (bind m (fun _ => k))
  (at level 61, right associativity) : sched_scope.
Local Open Scope sched_scope.

(** The generator of [random] after some draws. *)
Definition set_random (rng : Rng) (st : State) : State :=
  mkState (class_schedule st) (teacher_schedule st) (room_schedule st)
    (course_sessions st) (conflicts st) rng.

(** [random.shuffle(x)] on a copy [x] of a list. *)
Definition shuffle_m {A} (x : list A) : M (list A) :=
  fun st =>
    let (x', rng') := shuffle x (random st) in Ok (x', set_random rng' st).

(** [conflicts.append(k)] *)
Definition append_conflict (k : Conflict) : M unit :=
  fun st =>
    Ok (tt, mkState (class_schedule st) (teacher_schedule st)
              (room_schedule st) (course_sessions st)
              (conflicts st ++ [k]) (random st)).

(** ** The engine *)

(** Loops over a list whose body may raise. *)
Fixpoint flat_mapR {A B} (f : A -> result (list B)) (l : list A)
  : result (list B) :=
  match l with
  | [] => Ok []
  | x :: l' =>
      match f x with
      | Raise e => Raise e
      | Ok ys =>
          match flat_mapR f l' with
          | Raise e => Raise e
          | Ok zs => Ok (ys ++ zs)
          end
      end
  end.

Fixpoint filterR {A} (f : A -> result bool) (l : list A) : result (list A) :=
  match l with
  | [] => Ok []
  | x :: l' =>
      match f x with
      | Raise e => Raise e
      | Ok b =>
          match filterR f l' with
          | Raise e => Raise e
          | Ok zs => Ok (if b then x :: zs else zs)
          end
      end
  end.

(** Truth value of a Python [str]: the empty string is false. *)
Definition str_truthy (s : string) : bool :=
  match s with
  | EmptyString => false
  | String _ _ => true
  end.

(** [str(n)] for a non-negative [int]. *)
Definition str_of_nat (n : nat) : string :=
  NilZero.string_of_uint (Nat.to_uint n).

(** [_is_slot_available] *)
Definition _is_slot_available (class_name teacher_name room_name day
    time_slot : string) : M bool :=
  lift (fun st =>
    match ledger_get (class_schedule st) class_name day time_slot with
    | Raise e => Raise e
    | Ok (Some _) => Ok false
    | Ok None =>
        match ledger_get (teacher_schedule st) teacher_name day time_slot with
        | Raise e => Raise e
        | Ok (Some _) => Ok false
        | Ok None =>
            match ledger_get (room_schedule st) room_name day time_slot with
            | Raise e => Raise e
            | Ok (Some _) => Ok false
            | Ok None => Ok true
            end
        end
    end).

(** [_assign_time_slot] *)
Definition _assign_time_slot (course : Course) (class_name teacher_name
    room_name day time_slot : string) : M unit :=
  fun st =>
    let assignment :=
      mkAssignment (c_name course) teacher_name room_name class_name day
        time_slot in
    match ledger_set (class_schedule st) class_name day time_slot assignment with
    | Raise e => Raise e
    | Ok cs =>
        match ledger_set (teacher_schedule st) teacher_name day time_slot
                assignment with
        | Raise e => Raise e
        | Ok ts =>
            match ledger_set (room_schedule st) room_name day time_slot
                    assignment with
            | Raise e => Raise e
            | Ok rs =>
                Ok (tt, mkState cs ts rs (course_sessions st) (conflicts st)
                          (random st))
            end
        end
    end.

(** The [for room in suitable_rooms] loop of [_find_available_room]. *)
Fixpoint first_free_room (l : Ledger) (day time_slot : string)
    (suitable_rooms : list Room) : result (option string) :=
  match suitable_rooms with
  | [] => Ok None
  | room :: rest =>
      match ledger_get l (r_name room) day time_slot with
      | Raise e => Raise e
      | Ok None => Ok (Some (r_name room))
      | Ok (Some _) => first_free_room l day time_slot rest
      end
  end.

(** [_find_available_room] *)
Definition _find_available_room (self : ScheduleGenerator) (class_size : Z)
    (day time_slot : string) : M (option string) :=
  suitable_rooms <-
    shuffle_m (filter (fun room => class_size <=? r_capacity room) (rooms self)) ;;
  lift (fun st => first_free_room (room_schedule st) day time_slot suitable_rooms).

(** [_get_class_size] *)
Fixpoint class_size_in (classes : list SchoolClass) (class_name : string) : Z :=
  match classes with
  | [] => 0
  | cls :: rest =>
      if String.eqb (cl_name cls) class_name then cl_size cls
      else class_size_in rest class_name
  end.

Definition _get_class_size (self : ScheduleGenerator) (class_name : string) : Z :=
  class_size_in (classes self) class_name.

(** The key of a course in [course_sessions]. *)
Definition course_key (course : Course) : string * string :=
  (c_name course, c_class course).

(** [course_sessions[(course['name'], course['class'])] += 1] *)
Definition count_session (course : Course) : M unit :=
  fun st =>
    match Dict.get (course_key course) (course_sessions st) with
    | None => Raise KeyError
    | Some n =>
        Ok (tt, mkState (class_schedule st) (teacher_schedule st)
                  (room_schedule st)
                  (Dict.set (course_key course) (S n) (course_sessions st))
                  (conflicts st) (random st))
    end.

(** [assigned_days.add(day)] on a [set] kept as a duplicate-free list. *)
Definition days_add (day : string) (assigned_days : list string) : list string :=
  if existsb (String.eqb day) assigned_days then assigned_days
  else assigned_days ++ [day].

(** The test of line 227. *)
Definition skip_day (self : ScheduleGenerator) (day : string)
    (assigned_days : list string) : bool :=
  existsb (String.eqb day) assigned_days
  && (List.length assigned_days <? List.length (days self))%nat.

(** The [for time_slot in time_slots] loop, lines 233-243.  The result is
    the flag [session_scheduled] and the set [assigned_days]. *)
Fixpoint try_time_slots (self : ScheduleGenerator) (course : Course)
    (class_size : Z) (day : string) (assigned_days : list string)
    (slots : list string) : M (bool * list string) :=
  match slots with
  | [] => ret (false, assigned_days)
  | time_slot :: rest =>
      room_name <- _find_available_room self class_size day time_slot ;;
      ok <- match room_name with
            | Some name =>
                if str_truthy name
                then _is_slot_available (c_class course) (c_teacher course)
                       name day time_slot
                else ret false
            | None => ret false
            end ;;
      match room_name, ok with
      | Some name, true =>
          _assign_time_slot course (c_class course) (c_teacher course) name
            day time_slot ;;;
          count_session course ;;;
          ret (true, days_add day assigned_days)
      | _, _ => try_time_slots self course class_size day assigned_days rest
      end
  end.

(** The [for day in days] loop, lines 225-246. *)
Fixpoint try_days (self : ScheduleGenerator) (course : Course)
    (class_size : Z) (assigned_days : list string) (candidates : list string)
  : M (bool * list string) :=
  match candidates with
  | [] => ret (false, assigned_days)
  | day :: rest =>
      if skip_day self day assigned_days
      then try_days self course class_size assigned_days rest
      else
        slots <- shuffle_m (time_slots self) ;;
        r <- try_time_slots self course class_size day assigned_days slots ;;
        if fst r then ret r
        else try_days self course class_size (snd r) rest
  end.

Definition unscheduled_conflict (course : Course) : Conflict :=
  mkConflict "Unscheduled Session" "N/A" "N/A"
    ("Could not schedule a session for " ++ c_name course ++ " (Class: "
     ++ c_class course ++ ", Teacher: " ++ c_teacher course ++ ")")%string.

(** The [for _ in range(required_sessions)] loop, lines 218-255. *)
Fixpoint schedule_sessions (self : ScheduleGenerator) (course : Course)
    (class_size : Z) (assigned_days : list string) (required_sessions : nat)
  : M unit :=
  match required_sessions with
  | O => ret tt
  | S remaining =>
      candidates <- shuffle_m (days self) ;;
      r <- try_days self course class_size assigned_days candidates ;;
      (if fst r then ret tt
       else append_conflict (unscheduled_conflict course)) ;;;
      schedule_sessions self course class_size (snd r) remaining
  end.

(** The [for course in sorted_courses] loop, lines 208-255. *)
Fixpoint first_pass (self : ScheduleGenerator) (sorted_courses : list Course)
  : M unit :=
  match sorted_courses with
  | [] => ret tt
  | course :: rest =>
      schedule_sessions self course
        (_get_class_size self (c_class course)) [] (c_frequency course) ;;;
      first_pass self rest
  end.

(** The sort key [(-frequency, name)] compared as tuples: a higher
    frequency first, then the name in the order of [str], which on UTF-8
    bytes is the lexicographic order [String.leb]. *)
Definition course_key_le (c d : Course) : bool :=
  (c_frequency d <? c_frequency c)%nat
  || ((c_frequency c =? c_frequency d)%nat && String.leb (c_name c) (c_name d)).

Fixpoint insert_course (c : Course) (l : list Course) : list Course :=
  match l with
  | [] => [c]
  | d :: l' => if course_key_le c d then c :: l else d :: insert_course c l'
  end.

(** [sorted(self.courses, key=...)]: the stable sort, as an insertion
    sort that puts a course before the first later course whose key is
    not smaller. *)
Definition sorted_courses (cs : list Course) : list Course :=
  fold_right insert_course [] cs.

(** The body of the innermost loop of lines 258-264: what one cell of the
    class ledger adds to [schedule]. *)
Definition cell_assignments (st : State) (class_name day time_slot : string)
  : result (list Assignment) :=
  match ledger_get (class_schedule st) class_name day time_slot with
  | Raise e => Raise e
  | Ok (Some assignment) => Ok [assignment]
  | Ok None => Ok []
  end.

(** Lines 258-264. *)
Definition collect_schedule (self : ScheduleGenerator) (st : State)
  : result (list Assignment) :=
  flat_mapR (fun class_name =>
    flat_mapR (fun day =>
      flat_mapR (fun time_slot => cell_assignments st class_name day time_slot)
        (time_slots self)) (days self))
    (Dict.keys (class_schedule st)).

(** The list [classes_at_time] of lines 270-275 and 289-294; [field] is
    ['teacher'] or ['room']. *)
Definition classes_at_time (st : State) (field : Assignment -> string)
    (name day time_slot : string) : result (list string) :=
  filterR (fun class_name =>
    match ledger_get (class_schedule st) class_name day time_slot with
    | Raise e => Raise e
    | Ok (Some assignment) => Ok (String.eqb (field assignment) name)
    | Ok None => Ok false
    end) (Dict.keys (class_schedule st)).

Definition teacher_conflict (teacher_name day time_slot : string)
    (cs : list string) : Conflict :=
  mkConflict "Teacher Conflict" day time_slot
    ("Teacher " ++ teacher_name ++ " is scheduled for multiple classes: "
     ++ String.concat ", " cs)%string.

Definition room_conflict (room_name day time_slot : string)
    (cs : list string) : Conflict :=
  mkConflict "Room Conflict" day time_slot
    ("Room " ++ room_name ++ " is scheduled for multiple classes: "
     ++ String.concat ", " cs)%string.

(** One of the two scans of lines 266-302. *)
Definition conflict_scan (self : ScheduleGenerator) (st : State)
    (names : list string) (field : Assignment -> string)
    (report : string -> string -> string -> list string -> Conflict)
  : result (list Conflict) :=
  flat_mapR (fun name =>
    flat_mapR (fun day =>
      flat_mapR (fun time_slot =>
        match classes_at_time st field name day time_slot with
        | Raise e => Raise e
        | Ok cs =>
            Ok (if (1 <? List.length cs)%nat
                then [report name day time_slot cs] else [])
        end) (time_slots self)) (days self)) names.

(** [next((c['frequency'] for c in self.courses if ...), 0)] *)
Fixpoint required_frequency (cs : list Course) (key : string * string) : nat :=
  match cs with
  | [] => O
  | c :: rest =>
      if String.eqb (c_name c) (fst key) && String.eqb (c_class c) (snd key)
      then c_frequency c
      else required_frequency rest key
  end.

Definition frequency_conflict (key : string * string)
    (assigned_sessions required_sessions : nat) : Conflict :=
  mkConflict "Frequency Not Met" "N/A" "N/A"
    ("Course " ++ fst key ++ " (Class: " ++ snd key
     ++ ") was scheduled for " ++ str_of_nat assigned_sessions ++ "/"
     ++ str_of_nat required_sessions ++ " required sessions")%string.

(** Lines 304-315. *)
Definition frequency_scan (self : ScheduleGenerator) (st : State)
  : list Conflict :=
  flat_map (fun item =>
    let required_sessions := required_frequency (courses self) (fst item) in
    if (snd item <? required_sessions)%nat
    then [frequency_conflict (fst item) (snd item) required_sessions]
    else []) (Dict.items (course_sessions st)).

(** The state at the entry of [generate_schedule] on a fresh object. *)
Definition initial_state (self : ScheduleGenerator) (rng : Rng) : State :=
  mkState
    (new_ledger (map cl_name (classes self)) (days self) (time_slots self))
    (new_ledger (map t_name (teachers self)) (days self) (time_slots self))
    (new_ledger (map r_name (rooms self)) (days self) (time_slots self))
    (Dict.of_list (map (fun course => (course_key course, O)) (courses self)))
    [] rng.

(** The audit of lines 257-315 on the state the first pass leaves. *)
Definition audit (self : ScheduleGenerator) (st : State)
  : result (list Assignment * list Conflict) :=
  match collect_schedule self st with
  | Raise e => Raise e
  | Ok schedule =>
      match conflict_scan self st (Dict.keys (teacher_schedule st)) a_teacher
              teacher_conflict with
      | Raise e => Raise e
      | Ok tcs =>
          match conflict_scan self st (Dict.keys (room_schedule st)) a_room
                  room_conflict with
          | Raise e => Raise e
          | Ok rcs =>
              Ok (schedule,
                  conflicts st ++ tcs ++ rcs ++ frequency_scan self st)
          end
      end
  end.

(** The first pass of [generate_schedule]: the state it reaches. *)
Definition run_first_pass (self : ScheduleGenerator) (rng : Rng)
  : result State :=
  match first_pass self (sorted_courses (courses self))
          (initial_state self rng) with
  | Raise e => Raise e
  | Ok (_, st) => Ok st
  end.

(** [generate_schedule] *)
Definition generate_schedule (self : ScheduleGenerator) (rng : Rng)
  : result (list Assignment * list Conflict) :=
  match run_first_pass self rng with
  | Raise e => Raise e
  | Ok st => audit self st
  end.

(** The tally [course_sessions] at the end of [generate_schedule]. *)
Definition fulfilled_sessions (self : ScheduleGenerator) (rng : Rng)
    (course : Course) : option nat :=
  match run_first_pass self rng with
  | Raise _ => None
  | Ok st => Dict.get (course_key course) (course_sessions st)
  end.

(** ** Vocabulary of the specification *)

(** The range of the attributes of a [datetime.time]. *)
Definition valid_time (t : time) : Prop :=
  0 <= hour t < 24 /\ 0 <= minute t < 60.

(** The two values of [lunch_period] that insert a lunch break. *)
Definition lunch_enabled (g : GridConfig) : Prop :=
  lunch_period g = "After period 3" \/ lunch_period g = "After period 4".

(** The loop advances: the period is positive, the break is non-negative
    and, when a lunch is inserted, the lunch is positive. *)
Definition steps_positive (g : GridConfig) : Prop :=
  0 < period_length g /\ 0 <= break_length g /\
  (lunch_enabled g -> 0 < lunch_duration g).

(** A valid grid configuration: start before end, and steps as above. *)
Definition valid_grid (g : GridConfig) : Prop :=
  start_minutes g < end_minutes g /\ steps_positive g.

(** The options are in range: both times are times of day, and steps as
    above. *)
Definition grid_in_range (g : GridConfig) : Prop :=
  valid_time (start_time g) /\ valid_time (end_time g) /\ steps_positive g.

(** Iterations that are enough for the loop of a valid grid. *)
Definition grid_fuel (g : GridConfig) : nat :=
  S (Z.to_nat (end_minutes g - start_minutes g)).

(** The label of a period given by its bounds. *)
Definition label_of (p : Z * Z) : string := slot_label (fst p) (snd p).

(** The character of the decimal digit [d]. *)
Definition digit_char (d : Z) : ascii := ascii_of_nat (48 + Z.to_nat d).

(** The text ["HH:MM"] of the minute [m] of a day: two decimal digits for
    the hour, a colon and two decimal digits for the minute. *)
Definition hhmm_text (m : Z) : string :=
  String (digit_char (m / 60 / 10)) (String (digit_char ((m / 60) mod 10))
    (String ":" (String (digit_char (m mod 60 / 10))
      (String (digit_char ((m mod 60) mod 10)) EmptyString)))).

(** The text ["HH:MM-HH:MM"] of a period given by its bounds. *)
Definition period_text (p : Z * Z) : string :=
  (hhmm_text (fst p) ++ "-" ++ hhmm_text (snd p))%string.

(** The lunch rule names period [n]. *)
Definition lunch_after (g : GridConfig) (n : Z) : Prop :=
  (lunch_period g = "After period 3" /\ n = 3) \/
  (lunch_period g = "After period 4" /\ n = 4).

(** [l] is what the loop emits from cursor [c] at period number [k]. *)
Fixpoint follows_grid (g : GridConfig) (c k : Z) (l : list (Z * Z)) : Prop :=
  match l with
  | [] => end_minutes g < c + period_length g
  | p :: l' =>
      fst p = c /\ snd p = c + period_length g /\ snd p <= end_minutes g /\
      follows_grid g (next_minutes g c k) (k + 1) l'
  end.


(** The invariant of the three ledgers during a run: every assignment in a
    cell of the class ledger names that cell, sits in the cells of the
    teacher and room ledgers it names, and names a room large enough for
    the class; the conflicts recorded so far are unscheduled sessions. *)
Record ledgers_ok (self : ScheduleGenerator) (st : State) : Prop := {
  ok_cell : forall c d t a,
    ledger_get (class_schedule st) c d t = Ok (Some a) ->
    a_class a = c /\ a_day a = d /\ a_time a = t /\
    ledger_get (teacher_schedule st) (a_teacher a) d t = Ok (Some a) /\
    ledger_get (room_schedule st) (a_room a) d t = Ok (Some a);
  ok_room : forall c d t a,
    ledger_get (class_schedule st) c d t = Ok (Some a) ->
    exists room, In room (rooms self) /\ r_name room = a_room a /\
                 _get_class_size self c <= r_capacity room;
  ok_keys : NoDup (Dict.keys (class_schedule st));
  ok_classes : forall c, In c (Dict.keys (class_schedule st)) ->
                         In c (map cl_name (classes self));
  ok_conflicts : Forall (fun k => k_type k = "Unscheduled Session")
                   (conflicts st)
}.

(** Between two states, the tally of [key] grew by at most [n] and no
    other tally changed. *)
Definition tally_le (key : string * string) (n : nat) (st st' : State) : Prop :=
  (forall k, k <> key ->
     Dict.get k (course_sessions st') = Dict.get k (course_sessions st)) /\
  (forall m, Dict.get key (course_sessions st) = Some m ->
     exists m', Dict.get key (course_sessions st') = Some m' /\
                (m <= m' <= m + n)%nat).

(** The value of a decimal digit character. *)
Definition digit_value (a : ascii) : Z := Z.of_nat (nat_of_ascii a) - 48.

(** The cell of the class ledger an assignment occupies. *)
Definition booking (a : Assignment) : string * string * string :=
  (a_class a, a_day a, a_time a).

(** The equality test of a key type decides equality. *)
Class EqKeyOk (K : Type) `{EqKey K} :=
  key_eqb_eq : forall x y : K, key_eqb x y = true <-> x = y.

(** Every course names a class of the classes list and a teacher of the
    teachers list. *)
Definition references_ok (self : ScheduleGenerator) : Prop :=
  forall c, In c (courses self) ->
    In (c_class c) (map cl_name (classes self)) /\
    In (c_teacher c) (map t_name (teachers self)).

(** Every subscription the engine can make finds its key: the ledgers
    have a cell for each listed entity, day and slot, and the tally has
    an entry for each course. *)
Record ledgers_defined (self : ScheduleGenerator) (st : State) : Prop := {
  def_class : forall n d t,
    In n (map cl_name (classes self)) -> In d (days self) ->
    In t (time_slots self) ->
    exists v, ledger_get (class_schedule st) n d t = Ok v;
  def_teacher : forall n d t,
    In n (map t_name (teachers self)) -> In d (days self) ->
    In t (time_slots self) ->
    exists v, ledger_get (teacher_schedule st) n d t = Ok v;
  def_room : forall n d t,
    In n (map r_name (rooms self)) -> In d (days self) ->
    In t (time_slots self) ->
    exists v, ledger_get (room_schedule st) n d t = Ok v;
  def_tally : forall c, In c (courses self) ->
    exists n, Dict.get (course_key c) (course_sessions st) = Some n
}.

(** ** Sample inputs *)


(** A lunch rule that names period 2. *)
Definition lunch_after_two : GridConfig :=
  mkGrid (mkTime 8 0) (mkTime 12 0) 50 10 "After period 2" 30.

(** A morning of four periods with lunch after the third. *)
Definition morning : GridConfig :=
  mkGrid (mkTime 8 0) (mkTime 12 30) 50 10 "After period 3" 30.

(** One teacher, one room, one class and one course of five sessions. *)
Definition math : Course := mkCourse "Math" "Ms. Wilson" "Class 9A" 50 5.

Definition one_course (g : GridConfig) (fuel : nat) : option ScheduleGenerator :=
  __init__ fuel [mkTeacher "Ms. Wilson"] [mkRoom "Room 101" 30]
    [mkClass "Class 9A" 25] [math] g.

(** The generator [one_course morning 300] returns. *)
Definition morning_school : ScheduleGenerator :=
  mkGenerator [mkTeacher "Ms. Wilson"] [mkRoom "Room 101" 30]
    [mkClass "Class 9A" 25] [math] morning weekdays
    ["08:00-08:50"; "09:00-09:50"; "10:00-10:50"; "11:20-12:10"].

(** A second course of the same class, teacher and room. *)
Definition art : Course := mkCourse "Art" "Ms. Wilson" "Class 9A" 50 2.


(** The commit of [course] into Monday's first slot of [morning_school]. *)
Definition commit_monday (course : Course) : M unit :=
  _assign_time_slot course "Class 9A" "Ms. Wilson" "Room 101" "Monday"
    "08:00-08:50".


(** A school day of seven periods, the default options of the form. *)
Definition school_day : GridConfig :=
  mkGrid (mkTime 8 0) (mkTime 15 15) 50 10 "After period 3" 30.

(** The invariant of a run whose only course is [course], taught in the
    only room [room_name]: [assigned_days] is the set of used days,
    [committed] the assignments made so far, one per used day; the cells
    of the class ledger hold exactly the committed assignments, every
    cell of the three ledgers exists, the cells of the unused days are
    empty, the tally counts the used days and no conflict is recorded. *)
Record single_course_inv (self : ScheduleGenerator) (course : Course)
    (room_name : string) (assigned_days : list string)
    (committed : list Assignment) (st : State) : Prop := {
  sc_ok : ledgers_ok self st;
  sc_days : NoDup assigned_days /\ incl assigned_days (days self);
  sc_committed_days : map a_day committed = assigned_days;
  sc_committed_slots :
    forall a, In a committed -> In (a_time a) (time_slots self);
  sc_sound : forall c d t a,
    ledger_get (class_schedule st) c d t = Ok (Some a) -> In a committed;
  sc_complete : forall a, In a committed ->
    ledger_get (class_schedule st) (a_class a) (a_day a) (a_time a)
    = Ok (Some a);
  sc_defined : forall d t, In d (days self) -> In t (time_slots self) ->
    (exists v, ledger_get (class_schedule st) (c_class course) d t = Ok v) /\
    (exists v, ledger_get (teacher_schedule st) (c_teacher course) d t = Ok v) /\
    (exists v, ledger_get (room_schedule st) room_name d t = Ok v);
  sc_free : forall d t, In d (days self) -> In t (time_slots self) ->
    ~ In d assigned_days ->
    ledger_get (class_schedule st) (c_class course) d t = Ok None /\
    ledger_get (teacher_schedule st) (c_teacher course) d t = Ok None /\
    ledger_get (room_schedule st) room_name d t = Ok None;
  sc_tally :
    course_sessions st = [(course_key course, List.length assigned_days)];
  sc_conflicts : conflicts st = [];
  sc_keys : Dict.keys (class_schedule st) = [c_class course]
}.

(** The generator [one_course school_day 300] returns. *)
Definition full_school : ScheduleGenerator :=
  mkGenerator [mkTeacher "Ms. Wilson"] [mkRoom "Room 101" 30]
    [mkClass "Class 9A" 25] [math] school_day weekdays
    ["08:00-08:50"; "09:00-09:50"; "10:00-10:50"; "11:20-12:10";
     "12:20-13:10"; "13:20-14:10"; "14:20-15:10"].

(** Two teachers, two rooms, two classes and three courses. *)
Definition small_teachers : list Teacher :=
  [mkTeacher "Ms. Wilson"; mkTeacher "Dr. Brown"].
Definition small_rooms : list Room :=
  [mkRoom "Room 101" 30; mkRoom "Science Lab" 20].
Definition small_classes : list SchoolClass :=
  [mkClass "Class 9A" 25; mkClass "Class 9B" 15].
Definition biology : Course := mkCourse "Biology" "Dr. Brown" "Class 9B" 50 3.
Definition english : Course := mkCourse "English" "Ms. Wilson" "Class 9B" 50 4.
Definition small_courses : list Course := [math; biology; english].

Definition small_school : ScheduleGenerator :=
  mkGenerator small_teachers small_rooms small_classes small_courses morning
    weekdays ["08:00-08:50"; "09:00-09:50"; "10:00-10:50"; "11:20-12:10"].

(** Some draws of the random generator. *)
Definition draws : Rng :=
  [3; 1; 4; 1; 5; 9; 2; 6; 5; 3; 5; 8; 9; 7; 9; 3; 2; 3; 8; 4; 6; 2; 6; 4;
   3; 3; 8; 3; 2; 7; 9; 5; 0; 2; 8; 8; 4; 1; 9; 7]%nat.

(** The course of [full_school] with six sessions a week. *)
Definition math_six : Course := mkCourse "Math" "Ms. Wilson" "Class 9A" 50 6.

Definition six_school : ScheduleGenerator :=
  mkGenerator [mkTeacher "Ms. Wilson"] [mkRoom "Room 101" 30]
    [mkClass "Class 9A" 25] [math_six] school_day weekdays
    ["08:00-08:50"; "09:00-09:50"; "10:00-10:50"; "11:20-12:10";
     "12:20-13:10"; "13:20-14:10"; "14:20-15:10"].

(** ** Vocabulary of the further properties *)

(** The minutes by which the lunch break moves the slot of index [i]
    (counted from 0): the lunch replaces the break after period 3 or 4. *)
Definition lunch_shift (g : GridConfig) (i : nat) : Z :=
  if String.eqb (lunch_period g) "After period 3" && (3 <=? i)%nat
  then lunch_duration g - break_length g
  else if String.eqb (lunch_period g) "After period 4" && (4 <=? i)%nat
  then lunch_duration g - break_length g
  else 0.

(** The first minute of the slot of index [i] in closed form. *)
Definition slot_start (g : GridConfig) (i : nat) : Z :=
  start_minutes g + Z.of_nat i * (period_length g + break_length g)
  + lunch_shift g i.

(** The number of slots of a day without lunch. *)
Definition slot_count (g : GridConfig) : nat :=
  Z.to_nat ((end_minutes g - start_minutes g + break_length g)
            / (period_length g + break_length g)).

(** Two courses have the same sort key. *)
Definition same_sort_key (c d : Course) : bool :=
  (c_frequency c =? c_frequency d)%nat && String.eqb (c_name c) (c_name d).

(** The key in [course_sessions] of the course an assignment records. *)
Definition assignment_key (a : Assignment) : string * string :=
  (a_course a, a_class a).

(** The entries of a schedule for the course with key [k]. *)
Definition sessions_of (k : string * string) (schedule : list Assignment)
  : list Assignment :=
  filter (fun a => key_eqb (assignment_key a) k) schedule.

(** The 'Unscheduled Session' records of a list of conflicts. *)
Definition unscheduled (cfs : list Conflict) : list Conflict :=
  filter (fun k => String.eqb (k_type k) "Unscheduled Session") cfs.

(** The number of sessions the course list asks for. *)
Definition total_frequency (cs : list Course) : nat :=
  list_sum (map c_frequency cs).

(** The assignment [_assign_time_slot] records for a session of [course]. *)
Definition assignment_of (course : Course) (room_name day time_slot : string)
  : Assignment :=
  mkAssignment (c_name course) (c_teacher course) room_name (c_class course)
    day time_slot.

(** One successful iteration of the slot loop: the random generator has
    advanced, the cells of the class, the teacher and a large enough room
    [room_name] were free at [day] and [time_slot], and the session was
    committed and counted. *)
Definition commits (self : ScheduleGenerator) (course : Course)
    (day time_slot room_name : string) (st st' : State) : Prop :=
  exists rng st2,
    (exists room, In room (rooms self) /\ r_name room = room_name /\
                  _get_class_size self (c_class course) <= r_capacity room) /\
    ledger_get (class_schedule st) (c_class course) day time_slot = Ok None /\
    ledger_get (teacher_schedule st) (c_teacher course) day time_slot
    = Ok None /\
    ledger_get (room_schedule st) room_name day time_slot = Ok None /\
    _assign_time_slot course (c_class course) (c_teacher course) room_name day
      time_slot (set_random rng st) = Ok (tt, st2) /\
    count_session course st2 = Ok (tt, st').

(** Why an iteration of the slot loop commits nothing: the class or the
    teacher is occupied, or every large enough room is, or the room found
    has the empty name, which is false as a condition. *)
Definition cell_blocked (self : ScheduleGenerator) (course : Course)
    (day time_slot : string) (st : State) : Prop :=
  (exists a, ledger_get (class_schedule st) (c_class course) day time_slot
             = Ok (Some a)) \/
  (exists a, ledger_get (teacher_schedule st) (c_teacher course) day time_slot
             = Ok (Some a)) \/
  (forall room, In room (rooms self) ->
     _get_class_size self (c_class course) <= r_capacity room ->
     exists a, ledger_get (room_schedule st) (r_name room) day time_slot
               = Ok (Some a)) \/
  (exists room, In room (rooms self) /\ r_name room = EmptyString).

(** The same, read off a schedule: at [day] and [time_slot] the class or
    the teacher of [course] has a session, or every room large enough for
    the class is in use. *)
Definition cell_taken (self : ScheduleGenerator) (course : Course)
    (day time_slot : string) (schedule : list Assignment) : Prop :=
  (exists a, In a schedule /\ a_day a = day /\ a_time a = time_slot /\
             (a_class a = c_class course \/ a_teacher a = c_teacher course)) \/
  (forall room, In room (rooms self) ->
     _get_class_size self (c_class course) <= r_capacity room ->
     exists a, In a schedule /\ a_day a = day /\ a_time a = time_slot /\
               a_room a = r_name room).

(** The invariant that ties the state of a run to the list [committed] of
    the assignments made so far: the three ledgers hold exactly the
    committed assignments, each in the cells it names; every committed
    assignment records a listed course at a day and slot of the grid; the
    tally of a course key counts the committed assignments of that key. *)
Record committed_inv (self : ScheduleGenerator) (committed : list Assignment)
    (st : State) : Prop := {
  ci_ok : ledgers_ok self st;
  ci_nodup : NoDup (map booking committed);
  ci_sound : forall c d t a,
    ledger_get (class_schedule st) c d t = Ok (Some a) -> In a committed;
  ci_complete : forall a, In a committed ->
    ledger_get (class_schedule st) (a_class a) (a_day a) (a_time a)
    = Ok (Some a);
  ci_teacher : forall n d t a,
    ledger_get (teacher_schedule st) n d t = Ok (Some a) ->
    In a committed /\ a_teacher a = n /\ a_day a = d /\ a_time a = t;
  ci_room : forall n d t a,
    ledger_get (room_schedule st) n d t = Ok (Some a) ->
    In a committed /\ a_room a = n /\ a_day a = d /\ a_time a = t;
  ci_wf : forall a, In a committed ->
    In (a_day a) (days self) /\ In (a_time a) (time_slots self) /\
    exists course, In course (courses self) /\
      a_course a = c_name course /\ a_class a = c_class course /\
      a_teacher a = c_teacher course;
  ci_tally : forall k n, Dict.get k (course_sessions st) = Some n ->
    List.length (sessions_of k committed) = n;
  ci_keys : NoDup (Dict.keys (course_sessions st));
  ci_teachers : forall n, In n (Dict.keys (teacher_schedule st)) ->
    In n (map t_name (teachers self))
}.

(** What the first pass leaves for one course [c]: its sessions fall on
    distinct days when the week has room for them, and a missing session
    means that the week is blocked. *)
Definition course_outcome (self : ScheduleGenerator) (c : Course)
    (committed : list Assignment) : Prop :=
  ((c_frequency c <= List.length (days self))%nat ->
   NoDup (map a_day (sessions_of (course_key c) committed))) /\
  ((List.length (sessions_of (course_key c) committed) < c_frequency c)%nat ->
   forall d t, In d (days self) -> In t (time_slots self) ->
     (exists a, In a committed /\ assignment_key a = course_key c /\
                a_day a = d) \/
     cell_taken self c d t committed \/
     (exists room, In room (rooms self) /\ r_name room = EmptyString)).


(** A day of one period, and a school whose two courses compete for it. *)
Definition one_slot : GridConfig :=
  mkGrid (mkTime 8 0) (mkTime 9 0) 50 10 "No lunch" 30.

Definition crowded_school : ScheduleGenerator :=
  mkGenerator [mkTeacher "Ms. Wilson"] [mkRoom "Room 101" 30]
    [mkClass "Class 9A" 25] [math; art] one_slot weekdays ["08:00-08:50"].


(** ** The data manager of [data_manager.py] *)

(** The dictionaries the data manager stores.  The identifier is the text
    of a fresh [uuid.uuid4()], an input of the model.  The teacher and the
    class of a course are what the two select boxes of the course form
    returned: a name, or [None] (see [App.selectbox]). *)
Record TeacherRow := mkTeacherRow {
  tr_id : string; tr_name : string; tr_subjects : list string
}.
Record RoomRow := mkRoomRow {
  rr_id : string; rr_name : string; rr_capacity : Z
}.
Record ClassRow := mkClassRow {
  cr_id : string; cr_name : string; cr_size : Z
}.
Record CourseRow := mkCourseRow {
  co_id : string;
  co_name : string;
  co_teacher : option string;
  co_class : option string;
  co_duration : Z;
  co_frequency : nat
}.

(** [v == s] for a value [v] that is [None] or a [str], and a [str] [s]:
    [None] equals no text. *)
Definition py_eq (v : option string) (s : string) : bool :=
  match v with
  | Some x => String.eqb x s
  | None => false
  end.

(** [str(v)], as an f-string formats [v]: [None] reads ["None"]. *)
Definition py_str (v : option string) : string :=
  match v with
  | Some x => x
  | None => "None"
  end.

(** The list objects of one kind of entity.  [objects] holds the lists
    created so far, by address; [data] is the address bound to the
    attribute [<kind>_data] of [st.session_state], which the data manager
    reads and writes; [view] is the address bound to the attribute
    [<kind>], which the pages read. *)
Record Table (A : Type) := mkTable {
  objects : list (list A);
  data : nat;
  view : nat
}.
Arguments mkTable {A} objects data view.
Arguments objects {A} t.
Arguments data {A} t.
Arguments view {A} t.

Section TableOps.
Context {A : Type}.

Definition deref (t : Table A) (address : nat) : list A :=
  nth address (objects t) [].

(** The list bound to [<kind>_data], returned by [get_<kind>s()]. *)
Definition get_data (t : Table A) : list A := deref t (data t).

(** The list bound to [<kind>]. *)
Definition get_view (t : Table A) : list A := deref t (view t).

(** [<kind>_data.append(x)]: the object is changed in place. *)
Definition append_data (x : A) (t : Table A) : Table A :=
  mkTable (list_set (data t) (get_data t ++ [x]) (objects t)) (data t) (view t).

(** [<kind>_data = [x for x in <kind>_data if keep x]]: a new object. *)
Definition rebind_data (keep : A -> bool) (t : Table A) : Table A :=
  mkTable (objects t ++ [filter keep (get_data t)]) (List.length (objects t))
    (view t).

(** [<kind>_data = []] *)
Definition clear_data (t : Table A) : Table A :=
  mkTable (objects t ++ [[]]) (List.length (objects t)) (view t).

(** [st.session_state.<kind> = data_manager.get_<kind>s()] *)
Definition refresh_view (t : Table A) : Table A :=
  mkTable (objects t) (data t) (data t).

(** The two attributes after the first run of the script: the page binds
    [<kind>] to an empty list, then [DataManager.__init__] binds
    [<kind>_data] to another one. *)
Definition new_table : Table A := mkTable [[]; []] 1 0.
End TableOps.

(** The attributes of [st.session_state]. *)
Record SessionState := mkSession {
  ss_teachers : Table TeacherRow;
  ss_rooms : Table RoomRow;
  ss_classes : Table ClassRow;
  ss_courses : Table CourseRow;
  ss_schedule : option (list Assignment);
  ss_conflicts : list Conflict
}.

Definition with_teachers (f : Table TeacherRow -> Table TeacherRow)
    (s : SessionState) : SessionState :=
  mkSession (f (ss_teachers s)) (ss_rooms s) (ss_classes s) (ss_courses s)
    (ss_schedule s) (ss_conflicts s).

Definition with_rooms (f : Table RoomRow -> Table RoomRow)
    (s : SessionState) : SessionState :=
  mkSession (ss_teachers s) (f (ss_rooms s)) (ss_classes s) (ss_courses s)
    (ss_schedule s) (ss_conflicts s).

Definition with_classes (f : Table ClassRow -> Table ClassRow)
    (s : SessionState) : SessionState :=
  mkSession (ss_teachers s) (ss_rooms s) (f (ss_classes s)) (ss_courses s)
    (ss_schedule s) (ss_conflicts s).

Definition with_courses (f : Table CourseRow -> Table CourseRow)
    (s : SessionState) : SessionState :=
  mkSession (ss_teachers s) (ss_rooms s) (ss_classes s) (f (ss_courses s))
    (ss_schedule s) (ss_conflicts s).

Module DataManager.

Definition add_teacher (teacher_id name : string) (subjects : list string)
    (s : SessionState) : string * SessionState :=
  (teacher_id,
   with_teachers (append_data (mkTeacherRow teacher_id name subjects)) s).

Definition remove_teacher (teacher_name : string) (s : SessionState)
  : SessionState :=
  with_teachers
    (rebind_data (fun t => negb (String.eqb (tr_name t) teacher_name))) s.

Definition get_teachers (s : SessionState) : list TeacherRow :=
  get_data (ss_teachers s).

Definition add_room (room_id name : string) (capacity : Z) (s : SessionState)
  : string * SessionState :=
  (room_id, with_rooms (append_data (mkRoomRow room_id name capacity)) s).

Definition remove_room (room_name : string) (s : SessionState) : SessionState :=
  with_rooms (rebind_data (fun r => negb (String.eqb (rr_name r) room_name))) s.

Definition get_rooms (s : SessionState) : list RoomRow :=
  get_data (ss_rooms s).

Definition add_class (class_id name : string) (size : Z) (s : SessionState)
  : string * SessionState :=
  (class_id, with_classes (append_data (mkClassRow class_id name size)) s).

(** The classes are filtered first, then the courses of the class. *)
Definition remove_class (class_name : string) (s : SessionState)
  : SessionState :=
  with_courses
    (rebind_data (fun c => negb (py_eq (co_class c) class_name)))
    (with_classes
       (rebind_data (fun c => negb (String.eqb (cr_name c) class_name))) s).

Definition get_classes (s : SessionState) : list ClassRow :=
  get_data (ss_classes s).

Definition add_course (course_id name : string)
    (teacher assigned_class : option string)
    (duration : Z) (frequency : nat) (s : SessionState)
  : string * SessionState :=
  (course_id,
   with_courses
     (append_data
        (mkCourseRow course_id name teacher assigned_class duration frequency))
     s).

Definition remove_course (course_name class_name : string) (s : SessionState)
  : SessionState :=
  with_courses
    (rebind_data
       (fun c => negb (String.eqb (co_name c) course_name
                       && py_eq (co_class c) class_name))) s.

Definition get_courses (s : SessionState) : list CourseRow :=
  get_data (ss_courses s).

Definition clear_all_data (s : SessionState) : SessionState :=
  with_courses clear_data
    (with_classes clear_data
       (with_rooms clear_data (with_teachers clear_data s))).

End DataManager.

(** ** The input and generation pages of [app.py] *)

(** [s.split(sep)] for a non-empty separator: the text is scanned from the
    left; where [sep] starts the current part ends and the scan resumes
    after the separator.  [skip] counts the characters of a separator
    still to pass, [cur] is the part read so far. *)
Fixpoint split_scan (sep : string) (skip : nat) (cur s : string) : list string :=
  match s with
  | EmptyString => [cur]
  | String a s' =>
      match skip with
      | S k => split_scan sep k cur s'
      | O =>
          if String.prefix sep s
          then cur :: split_scan sep (String.length sep - 1) EmptyString s'
          else split_scan sep O (cur ++ String a EmptyString)%string s'
      end
  end.

Definition str_split (s sep : string) : list string :=
  split_scan sep O EmptyString s.

(** [s.replace(old, new)] for a non-empty [old]. *)
Fixpoint replace_scan (old new : string) (skip : nat) (s : string) : string :=
  match s with
  | EmptyString => EmptyString
  | String a s' =>
      match skip with
      | S k => replace_scan old new k s'
      | O =>
          if String.prefix old s
          then (new ++ replace_scan old new (String.length old - 1) s')%string
          else String a (replace_scan old new O s')
      end
  end.

Definition str_replace (s old new : string) : string :=
  replace_scan old new O s.

(** How a run of the script ends: normally, or with an exception that no
    handler catches. *)
Inductive page_exn := IndexError | SchedulerError (e : exn).

Inductive outcome :=
| Done (s : SessionState)
| Failed (e : page_exn).

(** What [ScheduleGenerator] reads of the stored dictionaries. *)
Definition teacher_of (t : TeacherRow) : Teacher := mkTeacher (tr_name t).
Definition room_of (r : RoomRow) : Room := mkRoom (rr_name r) (rr_capacity r).
Definition class_of (c : ClassRow) : SchoolClass :=
  mkClass (cr_name c) (cr_size c).

(** The engine subscripts its ledgers with the teacher and the class of a
    course, and the ledgers of the model are keyed by texts: a course
    dictionary is a [Course] of the model when both are texts. *)
Definition course_of (c : CourseRow) : option Course :=
  match co_teacher c, co_class c with
  | Some teacher, Some cls =>
      Some (mkCourse (co_name c) teacher cls (co_duration c) (co_frequency c))
  | _, _ => None
  end.

Fixpoint courses_of (rows : list CourseRow) : option (list Course) :=
  match rows with
  | [] => Some []
  | row :: rest =>
      match course_of row, courses_of rest with
      | Some c, Some cs => Some (c :: cs)
      | _, _ => None
      end
  end.

(** The sample data of the button "Load Sample Data". *)
Definition sample_teachers : list (string * list string) :=
  [("Dr. Smith", ["Physics"]); ("Mrs. Johnson", ["Chemistry"]);
   ("Mr. Davis", ["Mathematics"]); ("Ms. Wilson", ["English"]);
   ("Mr. Martinez", ["PE"]); ("Dr. Brown", ["Biology"]);
   ("Ms. Lee", ["Chinese"]); ("Mr. Harris", ["History"]);
   ("Mrs. Clark", ["Electives"])].

Definition sample_rooms : list (string * Z) :=
  [("Room 101", 30); ("Room 102", 30); ("Room 103", 30); ("Science Lab", 25);
   ("Gym", 50); ("Library", 40); ("Room 201", 30); ("Room 202", 30)].

Definition sample_classes : list (string * Z) :=
  [("Class 9A", 25); ("Class 9B", 27); ("Class 10A", 23); ("Class 10B", 26)].

(** [sample_courses]: name, teacher, class, duration, frequency. *)
Definition sample_courses : list (string * string * string * Z * nat) :=
  [("Physics", "Dr. Smith", "Class 9A", 50, 3%nat);
   ("Chemistry", "Mrs. Johnson", "Class 9A", 50, 3%nat);
   ("Algebra", "Mr. Davis", "Class 9A", 50, 5%nat);
   ("English", "Ms. Wilson", "Class 9A", 50, 5%nat);
   ("PE", "Mr. Martinez", "Class 9A", 50, 3%nat);
   ("Biology", "Dr. Brown", "Class 9A", 50, 3%nat);
   ("Chinese", "Ms. Lee", "Class 9A", 50, 5%nat);
   ("World History", "Mr. Harris", "Class 9A", 50, 3%nat);
   ("Electives", "Mrs. Clark", "Class 9A", 50, 3%nat);
   ("Physics", "Dr. Smith", "Class 9B", 50, 3%nat);
   ("Chemistry", "Mrs. Johnson", "Class 9B", 50, 3%nat);
   ("Algebra", "Mr. Davis", "Class 9B", 50, 5%nat);
   ("English", "Ms. Wilson", "Class 9B", 50, 5%nat);
   ("PE", "Mr. Martinez", "Class 9B", 50, 3%nat);
   ("Biology", "Dr. Brown", "Class 9B", 50, 3%nat);
   ("Chinese", "Ms. Lee", "Class 9B", 50, 5%nat);
   ("World History", "Mr. Harris", "Class 9B", 50, 3%nat);
   ("Electives", "Mrs. Clark", "Class 9B", 50, 3%nat)].

(** The fields of a sample course as [add_course] stores them. *)
Definition sample_course_fields (r : string * string * string * Z * nat)
  : string * option string * option string * Z * nat :=
  let '(name, teacher, cls, duration, frequency) := r in
  (name, Some teacher, Some cls, duration, frequency).

Module App.

(** The attributes after the first run of the script (lines 18-36). *)
Definition initial_session : SessionState :=
  mkSession new_table new_table new_table new_table None [].

(** The form "add_teacher_form", submitted; [subjects] is the list that
    line 80 computes from the text of the second field. *)
Definition on_add_teacher (teacher_id new_teacher_name : string)
    (subjects : list string) (s : SessionState) : SessionState :=
  if str_truthy new_teacher_name
  then with_teachers refresh_view
         (snd (DataManager.add_teacher teacher_id new_teacher_name subjects s))
  else s.

(** The button "Remove Teacher", with the name selected. *)
Definition on_remove_teacher (teacher_to_remove : string) (s : SessionState)
  : SessionState :=
  if str_truthy teacher_to_remove
  then with_teachers refresh_view
         (DataManager.remove_teacher teacher_to_remove s)
  else s.

Definition on_add_room (room_id new_room_name : string) (new_room_capacity : Z)
    (s : SessionState) : SessionState :=
  if str_truthy new_room_name
  then with_rooms refresh_view
         (snd (DataManager.add_room room_id new_room_name new_room_capacity s))
  else s.

Definition on_remove_room (room_to_remove : string) (s : SessionState)
  : SessionState :=
  if str_truthy room_to_remove
  then with_rooms refresh_view (DataManager.remove_room room_to_remove s)
  else s.

Definition on_add_class (class_id new_class_name : string) (new_class_size : Z)
    (s : SessionState) : SessionState :=
  if str_truthy new_class_name
  then with_classes refresh_view
         (snd (DataManager.add_class class_id new_class_name new_class_size s))
  else s.

(** Only the attribute [classes] is bound again after the removal. *)
Definition on_remove_class (class_to_remove : string) (s : SessionState)
  : SessionState :=
  if str_truthy class_to_remove
  then with_classes refresh_view (DataManager.remove_class class_to_remove s)
  else s.

(** The values [st.selectbox(options=..., index=..., disabled=...)] can
    return.  With [index=None] no option is selected until the user
    selects one, and the widget returns [None]; a disabled widget keeps
    its initial selection; otherwise the user selects any option. *)
Definition selectbox (options : list string) (index : option nat)
    (disabled : bool) : list (option string) :=
  match index with
  | None => None :: (if disabled then [] else map Some options)
  | Some i => if disabled then [nth_error options i] else map Some options
  end.

(** The options of the two select boxes of "add_course_form". *)
Definition teacher_options (s : SessionState) : list string :=
  match get_view (ss_teachers s) with
  | [] => ["No teachers available"]
  | ts => map tr_name ts
  end.

Definition class_options (s : SessionState) : list string :=
  match get_view (ss_classes s) with
  | [] => ["No classes available"]
  | cs => map cr_name cs
  end.

(** [not x] for a list. *)
Definition is_empty {A} (l : list A) : bool :=
  match l with [] => true | _ => false end.

(** What the two select boxes can return (lines 182-193): with teachers
    the index is 0 and the widget is enabled; without, the index is
    [None] and the widget is disabled. *)
Definition teacher_choices (s : SessionState) : list (option string) :=
  selectbox (teacher_options s)
    (if is_empty (get_view (ss_teachers s)) then None else Some O)
    (is_empty (get_view (ss_teachers s))).

Definition class_choices (s : SessionState) : list (option string) :=
  selectbox (class_options s)
    (if is_empty (get_view (ss_classes s)) then None else Some O)
    (is_empty (get_view (ss_classes s))).

(** The test of line 198 compares the two selections with the
    placeholder texts; [None != text] is true. *)
Definition on_add_course (course_id new_course_name : string)
    (new_course_teacher assigned_class : option string) (course_duration : Z)
    (course_frequency : nat)
    (s : SessionState) : SessionState :=
  if str_truthy new_course_name
     && negb (py_eq new_course_teacher "No teachers available")
     && negb (py_eq assigned_class "No classes available")
  then with_courses refresh_view
         (snd (DataManager.add_course course_id new_course_name
                 new_course_teacher assigned_class course_duration
                 course_frequency s))
  else s.

(** An option of the select box "Select course to remove". *)
Definition course_label (c : CourseRow) : string :=
  (co_name c ++ " (" ++ py_str (co_class c) ++ ")")%string.

(** The button "Remove Course": the name and the class are read back from
    the selected label; the subscript [1] raises [IndexError] when the
    label has no parenthesis. *)
Definition on_remove_course (course_to_remove : string) (s : SessionState)
  : outcome :=
  if str_truthy course_to_remove then
    let course_name := nth 0 (str_split course_to_remove " (") EmptyString in
    match str_split course_to_remove "(" with
    | _ :: part :: _ =>
        let class_name := str_replace part ")" EmptyString in
        Done (with_courses refresh_view
                (DataManager.remove_course course_name class_name s))
    | _ => Failed IndexError
    end
  else Done s.

(** The three loops of lines 290-306; [ids] are the identifiers drawn. *)
Fixpoint load_teachers (ids : list string) (rows : list (string * list string))
    (s : SessionState) : list string * SessionState :=
  match rows with
  | [] => (ids, s)
  | teacher :: rest =>
      load_teachers (tl ids) rest
        (snd (DataManager.add_teacher (hd EmptyString ids) (fst teacher)
                (snd teacher) s))
  end.

Fixpoint load_rooms (ids : list string) (rows : list (string * Z))
    (s : SessionState) : list string * SessionState :=
  match rows with
  | [] => (ids, s)
  | room :: rest =>
      load_rooms (tl ids) rest
        (snd (DataManager.add_room (hd EmptyString ids) (fst room) (snd room) s))
  end.

Fixpoint load_classes (ids : list string) (rows : list (string * Z))
    (s : SessionState) : list string * SessionState :=
  match rows with
  | [] => (ids, s)
  | cls :: rest =>
      load_classes (tl ids) rest
        (snd (DataManager.add_class (hd EmptyString ids) (fst cls) (snd cls) s))
  end.

Fixpoint load_courses (ids : list string)
    (rows : list (string * string * string * Z * nat)) (s : SessionState)
  : list string * SessionState :=
  match rows with
  | [] => (ids, s)
  | (name, teacher, cls, duration, frequency) :: rest =>
      load_courses (tl ids) rest
        (snd (DataManager.add_course (hd EmptyString ids) name (Some teacher)
                (Some cls) duration frequency s))
  end.

(** The button "Load Sample Data". *)
Definition on_load_sample (ids : list string) (s : SessionState)
  : SessionState :=
  let s0 := DataManager.clear_all_data s in
  let (ids1, s1) := load_teachers ids sample_teachers s0 in
  let (ids2, s2) := load_rooms ids1 sample_rooms s1 in
  let (ids3, s3) := load_classes ids2 sample_classes s2 in
  let (_, s4) := load_courses ids3 sample_courses s3 in
  with_courses refresh_view
    (with_classes refresh_view
       (with_rooms refresh_view (with_teachers refresh_view s4))).

(** The form "schedule_options_form", submitted.  [None] means that the
    run is not one of the model: the loop of the grid builder did not end
    within [fuel] iterations, or a course has no teacher or no class (the
    engine then subscripts a ledger with [None]).  An exception of the
    generator ends the run before the attributes [schedule] and
    [conflicts] are bound. *)
Definition on_generate (fuel : nat) (g : GridConfig) (rng : Rng)
    (s : SessionState) : option outcome :=
  if is_empty (get_view (ss_courses s)) || is_empty (get_view (ss_rooms s))
     || is_empty (get_view (ss_teachers s))
     || is_empty (get_view (ss_classes s))
  then Some (Done s)
  else
    match courses_of (get_view (ss_courses s)) with
    | None => None
    | Some courses =>
        match __init__ fuel (map teacher_of (get_view (ss_teachers s)))
                (map room_of (get_view (ss_rooms s)))
                (map class_of (get_view (ss_classes s))) courses g with
        | None => None
        | Some scheduler =>
            match generate_schedule scheduler rng with
            | Raise e => Some (Failed (SchedulerError e))
            | Ok (schedule, conflicts) =>
                Some (Done (mkSession (ss_teachers s) (ss_rooms s)
                              (ss_classes s) (ss_courses s) (Some schedule)
                              conflicts))
            end
        end
    end.

End App.

(** One interaction of the user with the two pages. *)
Inductive Event :=
| AddTeacher (teacher_id name : string) (subjects : list string)
| RemoveTeacher (name : string)
| AddRoom (room_id name : string) (capacity : Z)
| RemoveRoom (name : string)
| AddClass (class_id name : string) (size : Z)
| RemoveClass (name : string)
| AddCourse (course_id name : string) (teacher assigned_class : option string)
    (duration : Z) (frequency : nat)
| RemoveCourse (label : string)
| LoadSample (ids : list string)
| Generate (fuel : nat) (g : GridConfig) (rng : Rng).

Definition handle (e : Event) (s : SessionState) : option outcome :=
  match e with
  | AddTeacher i n subjects => Some (Done (App.on_add_teacher i n subjects s))
  | RemoveTeacher n => Some (Done (App.on_remove_teacher n s))
  | AddRoom i n capacity => Some (Done (App.on_add_room i n capacity s))
  | RemoveRoom n => Some (Done (App.on_remove_room n s))
  | AddClass i n size => Some (Done (App.on_add_class i n size s))
  | RemoveClass n => Some (Done (App.on_remove_class n s))
  | AddCourse i n t c duration frequency =>
      Some (Done (App.on_add_course i n t c duration frequency s))
  | RemoveCourse label => Some (App.on_remove_course label s)
  | LoadSample ids => Some (Done (App.on_load_sample ids s))
  | Generate fuel g rng => App.on_generate fuel g rng s
  end.

(** The values the widgets of the page can produce in session [s]: a
    select box yields one of the values it can return, a number input
    respects its minimum, a slider its range.  The select boxes of the
    three removals also return [None], with which the button does
    nothing; the events carry the names they return. *)
Definition offered (e : Event) (s : SessionState) : Prop :=
  match e with
  | RemoveTeacher n => In n (map tr_name (get_view (ss_teachers s)))
  | AddRoom _ _ capacity => 1 <= capacity
  | RemoveRoom n => In n (map rr_name (get_view (ss_rooms s)))
  | AddClass _ _ size => 1 <= size
  | RemoveClass n => In n (map cr_name (get_view (ss_classes s)))
  | AddCourse _ _ t c duration frequency =>
      In t (App.teacher_choices s) /\ In c (App.class_choices s) /\
      In duration [50; 60; 90] /\ (1 <= frequency <= 5)%nat
  | RemoveCourse label =>
      In label (map App.course_label (get_view (ss_courses s)))
  | Generate _ g _ =>
      valid_time (start_time g) /\ valid_time (end_time g) /\
      30 <= period_length g <= 120 /\ 5 <= break_length g <= 30 /\
      In (lunch_period g) ["No lunch"; "After period 3"; "After period 4"] /\
      20 <= lunch_duration g <= 60
  | _ => True
  end.

(** The sessions a user can reach with events that satisfy [allowed]. *)
Inductive reachable (allowed : Event -> Prop) : SessionState -> Prop :=
| reach_initial : reachable allowed App.initial_session
| reach_event e s s' :
    reachable allowed s -> allowed e -> offered e s ->
    handle e s = Some (Done s') -> reachable allowed s'.

(** Events that remove neither a teacher nor a class. *)
Definition keeps_references (e : Event) : Prop :=
  match e with
  | RemoveTeacher _ | RemoveClass _ => False
  | _ => True
  end.

(** The addresses of a table are addresses of objects. *)
Definition table_ok {A} (t : Table A) : Prop :=
  (data t < List.length (objects t))%nat /\
  (view t < List.length (objects t))%nat.

(** What every reachable session satisfies: the teachers, rooms and
    classes shown are those stored; the stored courses are among the
    courses shown; the class of a stored course, when the course has one,
    is a stored class; names are not empty, capacities and sizes are at
    least 1, frequencies lie between 1 and 5. *)
Record page_inv (s : SessionState) : Prop := {
  pi_tables : table_ok (ss_teachers s) /\ table_ok (ss_rooms s) /\
              table_ok (ss_classes s) /\ table_ok (ss_courses s);
  pi_teachers : get_view (ss_teachers s) = DataManager.get_teachers s;
  pi_rooms : get_view (ss_rooms s) = DataManager.get_rooms s;
  pi_classes : get_view (ss_classes s) = DataManager.get_classes s;
  pi_courses : incl (DataManager.get_courses s) (get_view (ss_courses s));
  pi_class_refs : forall c n, In c (DataManager.get_courses s) ->
    co_class c = Some n -> In n (map cr_name (DataManager.get_classes s));
  pi_teacher_rows : forall t, In t (DataManager.get_teachers s) ->
    tr_name t <> EmptyString;
  pi_room_rows : forall r, In r (DataManager.get_rooms s) ->
    rr_name r <> EmptyString /\ 1 <= rr_capacity r;
  pi_class_rows : forall c, In c (DataManager.get_classes s) ->
    cr_name c <> EmptyString /\ 1 <= cr_size c;
  pi_course_rows : forall c, In c (get_view (ss_courses s)) ->
    co_name c <> EmptyString /\ (1 <= co_frequency c <= 5)%nat
}.

(** The stronger property of sessions reached without removing a teacher
    or a class: the courses shown are the courses stored, and the class
    and the teacher of each, when it has them, are shown. *)
Record references_inv (s : SessionState) : Prop := {
  ri_page : page_inv s;
  ri_courses : get_view (ss_courses s) = DataManager.get_courses s;
  ri_refs : forall c, In c (get_view (ss_courses s)) ->
    (forall n, co_class c = Some n ->
       In n (map cr_name (get_view (ss_classes s)))) /\
    (forall n, co_teacher c = Some n ->
       In n (map tr_name (get_view (ss_teachers s))))
}.

(** The character [c] occurs in [s]. *)
Fixpoint has_char (c : ascii) (s : string) : bool :=
  match s with
  | EmptyString => false
  | String a s' => Ascii.eqb a c || has_char c s'
  end.

(** The session after "Load Sample Data" on a fresh page (the identifiers
    drawn are left empty), and the first sample course as it is stored. *)
Definition sample_session : SessionState :=
  App.on_load_sample [] App.initial_session.

Definition physics_9a : CourseRow :=
  mkCourseRow "" "Physics" (Some "Dr. Smith") (Some "Class 9A") 50 3.

(** A course whose name has a parenthesis, as the form accepts it. *)
Definition algebra_honors : CourseRow :=
  mkCourseRow "" "Algebra (honors)" (Some "Mr. Davis") (Some "Class 9A") 50 5.

(** A course entered on a fresh page, before any teacher or class: both
    select boxes are disabled and return [None]. *)
Definition latin_unassigned : CourseRow :=
  mkCourseRow "" "Latin" None None 50 3.

Definition unassigned_session : SessionState :=
  App.on_add_course "" "Latin" None None 50 3 App.initial_session.

(** The same course, and then a teacher, a room and a class. *)
Definition unassigned_school : SessionState :=
  App.on_add_class "" "Class 9A" 25
    (App.on_add_room "" "Room 101" 30
       (App.on_add_teacher "" "Ms. Lee" ["Latin"] unassigned_session)).

(** ** The time parser of [visualizations.py] *)

(** The parser raises [ValueError] when a text does not split in two or a
    part is not a number. *)
Inductive parse_result (A : Type) :=
| Parsed (a : A)
| ValueError.
Arguments Parsed {A} a.
Arguments ValueError {A}.

Section Visualizer.
(** The builtin [int] applied to a text; [None] stands for [ValueError]. *)
Variable int : string -> option Z.
(** Today's midnight.  A [datetime] at a whole minute is the number of
    minutes since an origin. *)
Variable base_date : Z.

(** [x, y = map(int, text.split(':'))] *)
Definition int_pair (text : string) : parse_result (Z * Z) :=
  match str_split text ":" with
  | [a; b] =>
      match int a, int b with
      | Some x, Some y => Parsed (x, y)
      | _, _ => ValueError
      end
  | _ => ValueError
  end.

(** [_parse_time_slot]; [timedelta(hours=h, minutes=m)] is [h * 60 + m]
    minutes. *)
Definition _parse_time_slot (time_slot : string) : parse_result (Z * Z) :=
  match str_split time_slot "-" with
  | [start_time_str; end_time_str] =>
      match int_pair start_time_str with
      | ValueError => ValueError
      | Parsed (start_hour, start_minute) =>
          match int_pair end_time_str with
          | ValueError => ValueError
          | Parsed (end_hour, end_minute) =>
              Parsed (base_date + (start_hour * 60 + start_minute),
                      base_date + (end_hour * 60 + end_minute))
          end
      end
  | _ => ValueError
  end.
End Visualizer.

(** A decimal digit character. *)
Definition is_digit (a : ascii) : bool :=
  (48 <=? nat_of_ascii a)%nat && (nat_of_ascii a <=? 57)%nat.

(** What the properties below use of the builtin [int]: a text of two
    decimal digits is read as the number it writes. *)
Definition int_reads_two_digits (int : string -> option Z) : Prop :=
  forall a b, is_digit a = true -> is_digit b = true ->
    int (String a (String b EmptyString))
    = Some (10 * digit_value a + digit_value b).

(** A reader of decimal digits, for the samples. *)
Fixpoint digits_value (acc : Z) (s : string) : option Z :=
  match s with
  | EmptyString => Some acc
  | String a s' =>
      if is_digit a then digits_value (10 * acc + digit_value a) s' else None
  end.

Definition int_of_digits (s : string) : option Z :=
  match s with
  | EmptyString => None
  | _ => digits_value 0 s
  end.

(** ** The summary of the generation page *)

(** The elements of [set(l)], each once. *)
Fixpoint distinct {K} `{EqKey K} (l : list K) : list K :=
  match l with
  | [] => []
  | x :: l' => if existsb (key_eqb x) l' then distinct l' else x :: distinct l'
  end.

(** The three numbers shown under "Generated Schedule Summary". *)
Definition n_classes (schedule : list Assignment) : nat :=
  List.length (distinct (map a_class schedule)).

Definition n_courses (schedule : list Assignment) : nat :=
  List.length
    (distinct (map (fun item => (a_class item, a_course item)) schedule)).

Definition n_slots (schedule : list Assignment) : nat := List.length schedule.

(** ** The days a course uses *)


(** * Verification *)

(** ** The time grid *)

Lemma time_slots_loop_labels fuel g : forall c k,
  time_slots_loop fuel g c k =
  option_map (map label_of) (slot_bounds_loop fuel g c k).
Proof.
  induction fuel as [|fuel IH]; intros c k; simpl; [reflexivity|].
  destruct (c + period_length g <=? end_minutes g); [|reflexivity].
  rewrite IH.
  destruct (slot_bounds_loop fuel g _ _); reflexivity.
Qed.

Lemma generate_time_slots_labels fuel g :
  _generate_time_slots fuel g = option_map (map label_of) (slot_bounds fuel g).
Proof. apply time_slots_loop_labels. Qed.

Lemma is_lunch_period_iff g n : is_lunch_period g n = true <-> lunch_after g n.
Proof.
  unfold is_lunch_period, lunch_after.
  rewrite orb_true_iff, !andb_true_iff, !String.eqb_eq, !Z.eqb_eq.
  reflexivity.
Qed.

Lemma lunch_after_enabled g n : lunch_after g n -> lunch_enabled g.
Proof. unfold lunch_after, lunch_enabled; tauto. Qed.

Lemma valid_grid_steps g : valid_grid g -> steps_positive g.
Proof. intros [_ H]. exact H. Qed.

Lemma grid_in_range_steps g : grid_in_range g -> steps_positive g.
Proof. intros (_ & _ & H). exact H. Qed.

Lemma steps_positive_period g : steps_positive g -> 0 < period_length g.
Proof. intros (HP & _). exact HP. Qed.

Lemma next_minutes_progress g c k :
  steps_positive g -> c + period_length g <= next_minutes g c k.
Proof.
  intros (HP & HB & HL). unfold next_minutes.
  destruct (is_lunch_period g k) eqn:E.
  - apply is_lunch_period_iff, lunch_after_enabled, HL in E. lia.
  - lia.
Qed.

Lemma slot_bounds_loop_follows fuel g : forall c k l,
  slot_bounds_loop fuel g c k = Some l -> follows_grid g c k l.
Proof.
  induction fuel as [|fuel IH]; intros c k l; simpl; [discriminate|].
  destruct (Z.leb_spec (c + period_length g) (end_minutes g)) as [Hle|Hgt].
  - destruct (slot_bounds_loop fuel g _ _) as [rest|] eqn:E; [|discriminate].
    intros [= <-]. simpl. repeat split; auto.
  - intros [= <-]. simpl. lia.
Qed.

Lemma slot_bounds_loop_total g (Hv : steps_positive g) fuel : forall c k,
  (Z.to_nat (end_minutes g - c) < fuel)%nat ->
  exists l, slot_bounds_loop fuel g c k = Some l.
Proof.
  induction fuel as [|fuel IH]; intros c k Hf; [lia|]. simpl.
  destruct (Z.leb_spec (c + period_length g) (end_minutes g)) as [Hle|Hgt].
  - pose proof (next_minutes_progress g c k Hv) as Hn.
    pose proof (steps_positive_period g Hv) as HP.
    destruct (IH (next_minutes g c k) (k + 1)) as [l Hl]; [lia|].
    rewrite Hl. eauto.
  - eauto.
Qed.

Lemma slot_bounds_total g fuel :
  steps_positive g -> (grid_fuel g <= fuel)%nat ->
  exists l, slot_bounds fuel g = Some l.
Proof.
  intros Hv Hf. apply slot_bounds_loop_total; [assumption|].
  unfold grid_fuel in Hf. lia.
Qed.

(** What every emitted period satisfies: it starts at or after the cursor,
    lasts one period length and ends by the end of the day. *)
Lemma follows_grid_Forall g (Hv : steps_positive g) : forall l c k,
  follows_grid g c k l ->
  Forall (fun p => c <= fst p /\ snd p = fst p + period_length g /\
                   snd p <= end_minutes g) l.
Proof.
  induction l as [|p l IH]; intros c k H; [constructor|].
  destruct H as (H1 & H2 & H3 & H4). constructor.
  - lia.
  - apply IH in H4. eapply Forall_impl; [|exact H4].
    pose proof (next_minutes_progress g c k Hv).
    pose proof (steps_positive_period g Hv).
    simpl; intros q ?; lia.
Qed.

Lemma follows_grid_sorted g (Hv : steps_positive g) : forall l c k,
  follows_grid g c k l ->
  StronglySorted (fun p q => fst p < fst q /\ snd p <= fst q) l.
Proof.
  induction l as [|p l IH]; intros c k H; [constructor|].
  destruct H as (H1 & H2 & H3 & H4). constructor.
  - eapply IH; eassumption.
  - apply (follows_grid_Forall g Hv) in H4.
    eapply Forall_impl; [|exact H4].
    pose proof (next_minutes_progress g c k Hv).
    pose proof (steps_positive_period g Hv).
    simpl; intros q ?; lia.
Qed.


(** *** Labels of distinct periods are distinct *)

Lemma fmt02_two_digits n :
  0 <= n < 100 ->
  exists a b, fmt02 n = String a (String b EmptyString) /\
              n = 10 * digit_value a + digit_value b.
Proof.
  intros Hn.
  assert (Hk : exists k, (k < 100)%nat /\ n = Z.of_nat k)
    by (exists (Z.to_nat n); lia).
  destruct Hk as (k & Hk & ->). clear Hn.
  do 100 (destruct k as [|k];
          [do 2 eexists; split; vm_compute; reflexivity|]).
  lia.
Qed.

Lemma fmt_clock_inj m1 m2 r1 r2 :
  0 <= m1 < 1440 -> 0 <= m2 < 1440 ->
  (fmt_clock m1 ++ r1)%string = (fmt_clock m2 ++ r2)%string -> m1 = m2.
Proof.
  intros H1 H2. unfold fmt_clock.
  destruct (fmt02_two_digits (m1 / 60)) as (a1 & b1 & -> & Ea1);
    [split; [apply Z.div_pos; lia | apply Z.div_lt_upper_bound; lia]|].
  destruct (fmt02_two_digits (m2 / 60)) as (a2 & b2 & -> & Ea2);
    [split; [apply Z.div_pos; lia | apply Z.div_lt_upper_bound; lia]|].
  destruct (fmt02_two_digits (m1 mod 60)) as (c1 & d1 & -> & Ec1);
    [pose proof (Z.mod_pos_bound m1 60); lia|].
  destruct (fmt02_two_digits (m2 mod 60)) as (c2 & d2 & -> & Ec2);
    [pose proof (Z.mod_pos_bound m2 60); lia|].
  simpl. intros [= -> -> -> ->].
  rewrite (Z.div_mod m1 60), (Z.div_mod m2 60) by lia. lia.
Qed.

Lemma slot_label_inj s1 e1 s2 e2 :
  0 <= s1 < 1440 -> 0 <= s2 < 1440 ->
  slot_label s1 e1 = slot_label s2 e2 -> s1 = s2.
Proof. unfold slot_label. apply fmt_clock_inj. Qed.

Lemma labels_NoDup (l : list (Z * Z)) :
  StronglySorted (fun p q => fst p < fst q /\ snd p <= fst q) l ->
  Forall (fun p => 0 <= fst p < 1440) l ->
  NoDup (map label_of l).
Proof.
  induction 1 as [|p l Hs IH Hp]; intros Hr; simpl; constructor.
  - intros Hin. apply in_map_iff in Hin. destruct Hin as (q & Hq & Hin).
    inversion Hr as [|? ? Hrp Hrl]; subst.
    rewrite Forall_forall in Hp, Hrl.
    apply slot_label_inj in Hq; auto.
    specialize (Hp q Hin). lia.
  - apply IH. inversion Hr; assumption.
Qed.

Lemma grid_in_range_minutes g :
  grid_in_range g -> 0 <= start_minutes g /\ end_minutes g < 1440.
Proof.
  intros ((? & ?) & (? & ?) & _). unfold start_minutes, end_minutes. lia.
Qed.

(** When the loop advances it ends within [grid_fuel] iterations. *)
Lemma steps_positive_slots g fuel :
  steps_positive g -> (grid_fuel g <= fuel)%nat ->
  exists bounds,
    slot_bounds fuel g = Some bounds /\
    _generate_time_slots fuel g = Some (map label_of bounds) /\
    follows_grid g (start_minutes g) 1 bounds.
Proof.
  intros Hv Hf.
  destruct (slot_bounds_total g fuel Hv Hf) as [l Hl].
  exists l. split; [assumption|].
  rewrite generate_time_slots_labels, Hl. split; [reflexivity|].
  exact (slot_bounds_loop_follows _ _ _ _ _ Hl).
Qed.

Lemma slot_bounds_loop_mono fuel g : forall c k l fuel',
  slot_bounds_loop fuel g c k = Some l -> (fuel <= fuel')%nat ->
  slot_bounds_loop fuel' g c k = Some l.
Proof.
  induction fuel as [|fuel IH]; intros c k l fuel'; simpl; [discriminate|].
  intros H Hle. destruct fuel' as [|fuel']; [lia|]. simpl.
  destruct (c + period_length g <=? end_minutes g); [|assumption].
  destruct (slot_bounds_loop fuel g _ _) as [rest|] eqn:E; [|discriminate].
  rewrite (IH _ _ _ fuel' E) by lia. assumption.
Qed.

(** ** Dictionaries *)

#[export] Instance string_EqKeyOk : EqKeyOk string.
Proof. intros x y. apply String.eqb_eq. Qed.

#[export] Instance pair_EqKeyOk {A B} `{EqKeyOk A} `{EqKeyOk B} :
  EqKeyOk (A * B).
Proof.
  intros [a b] [a' b']. simpl. rewrite andb_true_iff, !key_eqb_eq.
  split; [intros [-> ->]; reflexivity | intros [= -> ->]; auto].
Qed.

Lemma key_eqb_refl {K} `{EqKeyOk K} (x : K) : key_eqb x x = true.
Proof. apply key_eqb_eq. reflexivity. Qed.

Lemma key_eqb_neq {K} `{EqKeyOk K} (x y : K) : x <> y -> key_eqb x y = false.
Proof.
  intros Hn. destruct (key_eqb x y) eqn:E; [|reflexivity].
  apply key_eqb_eq in E. contradiction.
Qed.

Section DictFacts.
Context {K V : Type} `{EqKeyOk K}.
Implicit Types (d : Dict.t K V) (k : K) (v : V).

Lemma get_set_eq d k v : Dict.get k (Dict.set k v d) = Some v.
Proof.
  induction d as [|[k' v'] d IH]; simpl.
  - rewrite key_eqb_refl. reflexivity.
  - destruct (key_eqb k k') eqn:E; simpl; rewrite E; auto.
Qed.

Lemma get_set_ne d k k' v :
  k <> k' -> Dict.get k' (Dict.set k v d) = Dict.get k' d.
Proof.
  intros Hn. induction d as [|[k0 v0] d IH]; simpl.
  - rewrite key_eqb_neq by congruence. reflexivity.
  - destruct (key_eqb k k0) eqn:E; simpl.
    + apply key_eqb_eq in E. subst k0.
      rewrite key_eqb_neq by congruence. reflexivity.
    + rewrite IH. reflexivity.
Qed.

Lemma get_None_iff d k : Dict.get k d = None <-> ~ In k (Dict.keys d).
Proof.
  induction d as [|[k' v'] d IH]; simpl; [tauto|].
  destruct (key_eqb k k') eqn:E.
  - apply key_eqb_eq in E. subst. split; [discriminate | tauto].
  - rewrite IH. split; [|tauto].
    intros Hn [->|Hi]; [|tauto].
    rewrite key_eqb_refl in E. discriminate.
Qed.

Lemma get_Some_In d k v : Dict.get k d = Some v -> In k (Dict.keys d).
Proof.
  induction d as [|[k' v'] d IH]; simpl; [discriminate|].
  destruct (key_eqb k k') eqn:E; [|auto].
  apply key_eqb_eq in E. auto.
Qed.

Lemma keys_set_present d k v :
  In k (Dict.keys d) -> Dict.keys (Dict.set k v d) = Dict.keys d.
Proof.
  induction d as [|[k' v'] d IH]; simpl; [tauto|].
  intros Hi. destruct (key_eqb k k') eqn:E; simpl; [reflexivity|].
  f_equal. apply IH. destruct Hi as [->|Hi]; [|assumption].
  rewrite key_eqb_refl in E. discriminate.
Qed.

Lemma set_absent d k v :
  ~ In k (Dict.keys d) -> Dict.set k v d = d ++ [(k, v)].
Proof.
  induction d as [|[k' v'] d IH]; simpl; [reflexivity|].
  intros Hn. rewrite key_eqb_neq by (intros ->; tauto).
  rewrite IH by tauto. reflexivity.
Qed.

Lemma get_In_items d k v : Dict.get k d = Some v -> In (k, v) (Dict.items d).
Proof.
  induction d as [|[k' v'] d IH]; simpl; [discriminate|].
  destruct (key_eqb k k') eqn:E.
  - apply key_eqb_eq in E. subst. intros [= ->]. auto.
  - auto.
Qed.

Lemma In_items_get d k v :
  NoDup (Dict.keys d) -> In (k, v) (Dict.items d) -> Dict.get k d = Some v.
Proof.
  induction d as [|[k' v'] d IH]; simpl; [tauto|].
  intros Hnd [[= -> ->]|Hi].
  - rewrite key_eqb_refl. reflexivity.
  - inversion Hnd as [|? ? Hk Hd]; subst.
    rewrite key_eqb_neq; [auto|].
    intros ->. apply Hk. change (In k' (map fst d)).
    apply in_map_iff. exists (k', v). auto.
Qed.

(** The comprehension [{k: f(k) for k in ks}]. *)
Lemma fold_set_get (f : K -> V) ks : forall d k,
  Dict.get k (fold_left (fun d kv => Dict.set (fst kv) (snd kv) d)
                (map (fun k => (k, f k)) ks) d)
  = if existsb (key_eqb k) ks then Some (f k) else Dict.get k d.
Proof.
  induction ks as [|k0 ks IH]; intros d k; simpl; [reflexivity|].
  rewrite IH. destruct (existsb (key_eqb k) ks);
    [rewrite orb_true_r; reflexivity|].
  rewrite orb_false_r. destruct (key_eqb k k0) eqn:E.
  - apply key_eqb_eq in E. subst. apply get_set_eq.
  - apply get_set_ne. intros ->. rewrite key_eqb_refl in E. discriminate.
Qed.

Lemma of_list_get (f : K -> V) ks k :
  Dict.get k (Dict.of_list (map (fun k => (k, f k)) ks))
  = if existsb (key_eqb k) ks then Some (f k) else None.
Proof. unfold Dict.of_list. rewrite fold_set_get. reflexivity. Qed.



Lemma keys_set_NoDup d k v :
  NoDup (Dict.keys d) -> NoDup (Dict.keys (Dict.set k v d)).
Proof.
  intros Hnd. destruct (Dict.get k d) eqn:E.
  - rewrite keys_set_present; [assumption|]. eapply get_Some_In; eauto.
  - apply get_None_iff in E. rewrite set_absent by assumption.
    unfold Dict.keys in *. rewrite map_app. simpl.
    apply NoDup_app; [assumption | repeat constructor; simpl; tauto |].
    intros x Hx [<-|[]]. contradiction.
Qed.

Lemma fold_set_keys_NoDup (kvs : list (K * V)) : forall d,
  NoDup (Dict.keys d) ->
  NoDup (Dict.keys (fold_left (fun d kv => Dict.set (fst kv) (snd kv) d)
                      kvs d)).
Proof.
  induction kvs as [|kv kvs IH]; intros d Hd; simpl; [assumption|].
  apply IH, keys_set_NoDup, Hd.
Qed.

Lemma of_list_keys_NoDup (kvs : list (K * V)) :
  NoDup (Dict.keys (Dict.of_list kvs)).
Proof. apply fold_set_keys_NoDup. constructor. Qed.
End DictFacts.

(** ** Ledgers *)

Lemma existsb_eqb_In (x : string) (l : list string) :
  existsb (String.eqb x) l = true <-> In x l.
Proof.
  rewrite existsb_exists. split.
  - intros (y & Hy & E). apply String.eqb_eq in E. subst. assumption.
  - intros Hi. exists x. split; [assumption | apply String.eqb_refl].
Qed.

(** A fresh ledger has exactly the cells [names x days x time_slots], all
    of them empty. *)
Lemma new_ledger_get names ds slots n d t :
  ledger_get (new_ledger names ds slots) n d t =
  if existsb (String.eqb n) names && existsb (String.eqb d) ds
     && existsb (String.eqb t) slots
  then Ok None else Raise KeyError.
Proof.
  unfold ledger_get, new_ledger.
  rewrite (of_list_get (fun _ => Dict.of_list _) names n). simpl.
  destruct (existsb (String.eqb n) names); simpl; [|reflexivity].
  rewrite (of_list_get (fun _ => Dict.of_list _) ds d). simpl.
  destruct (existsb (String.eqb d) ds); simpl; [|reflexivity].
  rewrite (of_list_get (fun _ => @None Assignment) slots t). simpl.
  destruct (existsb (String.eqb t) slots); reflexivity.
Qed.

Lemma new_ledger_keys_NoDup names ds slots :
  NoDup (Dict.keys (new_ledger names ds slots)).
Proof. apply of_list_keys_NoDup. Qed.

Lemma new_ledger_keys names ds slots n :
  In n (Dict.keys (new_ledger names ds slots)) <-> In n names.
Proof.
  unfold new_ledger.
  pose proof (of_list_get (fun _ : string => Dict.of_list
    (map (fun day => (day, Dict.of_list (map (fun t => (t, @None Assignment))
       slots))) ds)) names n) as Hg.
  simpl in Hg. split.
  - intros Hi. apply existsb_eqb_In.
    destruct (existsb (String.eqb n) names); [reflexivity|].
    apply get_None_iff in Hg. contradiction.
  - intros He. apply existsb_eqb_In in He. rewrite He in Hg.
    eapply get_Some_In; eassumption.
Qed.

Lemma ledger_get_key l n d t v :
  ledger_get l n d t = Ok v -> In n (Dict.keys l).
Proof.
  unfold ledger_get. destruct (Dict.get n l) eqn:E; [|discriminate].
  intros _. eapply get_Some_In; eassumption.
Qed.

Lemma ledger_set_defined l n d t v a :
  ledger_get l n d t = Ok v -> exists l', ledger_set l n d t a = Ok l'.
Proof.
  unfold ledger_get, ledger_set.
  destruct (Dict.get n l); [|discriminate].
  destruct (Dict.get d _); [|discriminate]. eauto.
Qed.

Lemma ledger_set_get_eq l n d t a l' :
  ledger_set l n d t a = Ok l' -> ledger_get l' n d t = Ok (Some a).
Proof.
  unfold ledger_get, ledger_set.
  destruct (Dict.get n l) as [by_day|]; [|discriminate].
  destruct (Dict.get d by_day) as [by_time|]; [|discriminate].
  intros [= <-]. rewrite !get_set_eq. reflexivity.
Qed.

Lemma ledger_set_get_ne l n d t a l' n' d' t' :
  ledger_set l n d t a = Ok l' -> (n', d', t') <> (n, d, t) ->
  ledger_get l' n' d' t' = ledger_get l n' d' t'.
Proof.
  unfold ledger_get, ledger_set.
  destruct (Dict.get n l) as [by_day|] eqn:En; [|discriminate].
  destruct (Dict.get d by_day) as [by_time|] eqn:Ed; [|discriminate].
  intros [= <-] Hne.
  destruct (String.eqb_spec n n') as [<-|Hn].
  - rewrite get_set_eq, En.
    destruct (String.eqb_spec d d') as [<-|Hd].
    + rewrite get_set_eq, Ed.
      rewrite get_set_ne by congruence. reflexivity.
    + rewrite get_set_ne by assumption. reflexivity.
  - rewrite get_set_ne by assumption. reflexivity.
Qed.

Lemma ledger_set_keys l n d t a l' :
  ledger_set l n d t a = Ok l' -> Dict.keys l' = Dict.keys l.
Proof.
  unfold ledger_set.
  destruct (Dict.get n l) as [by_day|] eqn:En; [|discriminate].
  destruct (Dict.get d by_day) as [by_time|]; [|discriminate].
  intros [= <-]. apply keys_set_present. eapply get_Some_In; eassumption.
Qed.

(** ** Shuffling *)

Lemma list_set_perm {A} (v d : A) : forall x i,
  (i < List.length x)%nat ->
  Permutation (nth i x d :: list_set i v x) (v :: x).
Proof.
  induction x as [|a x IH]; intros i Hi; simpl in Hi; [lia|].
  destruct i as [|i]; simpl.
  - apply perm_swap.
  - eapply perm_trans; [apply perm_swap|].
    eapply perm_trans; [|apply perm_swap].
    apply perm_skip, IH. lia.
Qed.

Lemma swap_perm {A} : forall (x : list A) i j, Permutation (swap i j x) x.
Proof.
  intros x i j. unfold swap.
  destruct (nth_error x i) as [xi|] eqn:Ei; [|reflexivity].
  destruct (nth_error x j) as [xj|] eqn:Ej; [|reflexivity].
  revert i j Ei Ej. induction x as [|a x IH]; intros i j Ei Ej.
  - destruct i; discriminate.
  - destruct i as [|i], j as [|j]; simpl in *.
    + injection Ei as <-. injection Ej as <-. reflexivity.
    + injection Ei as <-.
      assert (Hj : (j < List.length x)%nat)
        by (apply nth_error_Some; congruence).
      rewrite <- (list_set_perm a xj x j Hj).
      rewrite (nth_error_nth x j xj Ej). reflexivity.
    + injection Ej as <-.
      assert (Hi : (i < List.length x)%nat)
        by (apply nth_error_Some; congruence).
      rewrite <- (list_set_perm a xi x i Hi).
      rewrite (nth_error_nth x i xi Ei). reflexivity.
    + apply perm_skip. apply IH; assumption.
Qed.

Lemma shuffle_loop_perm {A} : forall i (x : list A) rng,
  Permutation (fst (shuffle_loop i x rng)) x.
Proof.
  induction i as [|i IH]; intros x rng; [reflexivity|].
  cbn [shuffle_loop]. destruct (randbelow (S (S i)) rng) as [j rng'].
  rewrite IH. apply swap_perm.
Qed.

(** [random.shuffle] rearranges its argument and nothing else. *)
Lemma shuffle_perm {A} (x : list A) rng : Permutation (fst (shuffle x rng)) x.
Proof. apply shuffle_loop_perm. Qed.

(** ** The first pass keeps the ledgers consistent *)

Ltac inv_bind H :=
  unfold bind in H;
  match type of H with
  | match ?m ?st with _ => _ end = _ =>
      let E := fresh "E" in
      destruct (m st) as [[? ?]|?] eqn:E; [|discriminate H]
  end.

Lemma set_random_ok self rng st :
  ledgers_ok self st -> ledgers_ok self (set_random rng st).
Proof. intros [H1 H2 H3 H4 H5]. constructor; assumption. Qed.

Lemma shuffle_m_inv {A} (x : list A) st x' st' :
  shuffle_m x st = Ok (x', st') ->
  Permutation x' x /\ exists rng, st' = set_random rng st.
Proof.
  unfold shuffle_m. pose proof (shuffle_perm x (random st)) as Hp.
  destruct (shuffle x (random st)) as [y rng]. intros [= <- <-].
  split; [assumption | eauto].
Qed.

Lemma first_free_room_inv l d t : forall rs name,
  first_free_room l d t rs = Ok (Some name) ->
  exists room, In room rs /\ r_name room = name /\
               ledger_get l name d t = Ok None.
Proof.
  induction rs as [|room rs IH]; intros name; simpl; [discriminate|].
  destruct (ledger_get l (r_name room) d t) as [[a|]|] eqn:E;
    [|intros [= <-]; eauto|discriminate].
  intros H. destruct (IH _ H) as (r & ? & ? & ?). eauto.
Qed.

Lemma find_available_room_inv self size d t st r st' :
  _find_available_room self size d t st = Ok (r, st') ->
  (exists rng, st' = set_random rng st) /\
  forall name, r = Some name ->
    exists room, In room (rooms self) /\ r_name room = name /\
                 size <= r_capacity room /\
                 ledger_get (room_schedule st') name d t = Ok None.
Proof.
  unfold _find_available_room. intros H. inv_bind H.
  apply shuffle_m_inv in E. destruct E as (Hp & rng & ->).
  unfold lift in H.
  destruct (first_free_room _ d t l) as [o|] eqn:Ef; [|discriminate].
  injection H as <- <-. split; [eauto|].
  intros name ->. apply first_free_room_inv in Ef.
  destruct Ef as (room & Hin & Hn & Hg). exists room.
  apply (Permutation_in _ Hp), filter_In in Hin. destruct Hin as [Hin Hc].
  apply Z.leb_le in Hc. auto.
Qed.

Lemma is_slot_available_inv c tn rn d t st b st' :
  _is_slot_available c tn rn d t st = Ok (b, st') ->
  st' = st /\
  (b = true ->
   ledger_get (class_schedule st) c d t = Ok None /\
   ledger_get (teacher_schedule st) tn d t = Ok None /\
   ledger_get (room_schedule st) rn d t = Ok None).
Proof.
  unfold _is_slot_available, lift.
  destruct (ledger_get (class_schedule st) c d t) as [[?|]|];
    [intros [= <- <-]; split; [reflexivity|discriminate]| |discriminate].
  destruct (ledger_get (teacher_schedule st) tn d t) as [[?|]|];
    [intros [= <- <-]; split; [reflexivity|discriminate]| |discriminate].
  destruct (ledger_get (room_schedule st) rn d t) as [[?|]|];
    [intros [= <- <-]; split; [reflexivity|discriminate]| |discriminate].
  intros [= <- <-]. auto.
Qed.

(** A commit into three free cells keeps the invariant, when the room is
    one of the rooms and is large enough. *)
Lemma assign_time_slot_ok self course c tn rn d t st st' :
  ledgers_ok self st ->
  ledger_get (class_schedule st) c d t = Ok None ->
  ledger_get (teacher_schedule st) tn d t = Ok None ->
  ledger_get (room_schedule st) rn d t = Ok None ->
  (exists room, In room (rooms self) /\ r_name room = rn /\
                _get_class_size self c <= r_capacity room) ->
  _assign_time_slot course c tn rn d t st = Ok (tt, st') ->
  ledgers_ok self st' /\ course_sessions st' = course_sessions st /\
  conflicts st' = conflicts st.
Proof.
  intros [Hcell Hroom Hkeys Hcls Hcf] Hc Ht Hr Hcap. unfold _assign_time_slot.
  set (a := mkAssignment (c_name course) tn rn c d t).
  destruct (ledger_set (class_schedule st) c d t a) as [cs|] eqn:Ec;
    [|discriminate].
  destruct (ledger_set (teacher_schedule st) tn d t a) as [ts|] eqn:Et;
    [|discriminate].
  destruct (ledger_set (room_schedule st) rn d t a) as [rs|] eqn:Er;
    [|discriminate].
  intros [= <-]. split; [|split; reflexivity].
  assert (Hold : forall c' d' t' a',
    ledger_get cs c' d' t' = Ok (Some a') ->
    (c', d', t') = (c, d, t) /\ a' = a \/
    (c', d', t') <> (c, d, t) /\
    ledger_get (class_schedule st) c' d' t' = Ok (Some a')).
  { intros c' d' t' a' Hg.
    destruct (String.eqb_spec c' c) as [->|Hn1];
      [destruct (String.eqb_spec d' d) as [->|Hn2];
       [destruct (String.eqb_spec t' t) as [->|Hn3]|]|].
    - left. rewrite (ledger_set_get_eq _ _ _ _ _ _ Ec) in Hg.
      injection Hg as <-. auto.
    - right. rewrite (ledger_set_get_ne _ _ _ _ _ _ _ _ _ Ec) in Hg
        by congruence. split; [congruence | assumption].
    - right. rewrite (ledger_set_get_ne _ _ _ _ _ _ _ _ _ Ec) in Hg
        by congruence. split; [congruence | assumption].
    - right. rewrite (ledger_set_get_ne _ _ _ _ _ _ _ _ _ Ec) in Hg
        by congruence. split; [congruence | assumption]. }
  constructor; simpl.
  - intros c' d' t' a' Hg.
    destruct (Hold _ _ _ _ Hg) as [[[= -> -> ->] ->]|[Hne Hg']].
    + simpl. repeat split; auto.
      * eapply ledger_set_get_eq; eassumption.
      * eapply ledger_set_get_eq; eassumption.
    + destruct (Hcell _ _ _ _ Hg') as (H1 & H2 & H3 & H4 & H5).
      repeat split; auto.
      * rewrite (ledger_set_get_ne _ _ _ _ _ _ _ _ _ Et); [assumption|].
        intros [= E1 E2 E3]. subst. congruence.
      * rewrite (ledger_set_get_ne _ _ _ _ _ _ _ _ _ Er); [assumption|].
        intros [= E1 E2 E3]. subst. congruence.
  - intros c' d' t' a' Hg.
    destruct (Hold _ _ _ _ Hg) as [[[= -> -> ->] ->]|[Hne Hg']].
    + simpl. assumption.
    + eapply Hroom; eassumption.
  - rewrite (ledger_set_keys _ _ _ _ _ _ Ec). assumption.
  - rewrite (ledger_set_keys _ _ _ _ _ _ Ec). assumption.
  - assumption.
Qed.

Lemma tally_le_same key n st st' :
  course_sessions st' = course_sessions st -> tally_le key n st st'.
Proof.
  intros E. unfold tally_le. rewrite E. split; [reflexivity|].
  intros m Hm. exists m. split; [assumption | lia].
Qed.

Lemma tally_le_trans key n1 n2 st1 st2 st3 :
  tally_le key n1 st1 st2 -> tally_le key n2 st2 st3 ->
  tally_le key (n1 + n2) st1 st3.
Proof.
  intros [Ha Hb] [Hc Hd]. split.
  - intros k Hk. rewrite Hc, Ha by assumption. reflexivity.
  - intros m Hm. destruct (Hb m Hm) as (m1 & Hm1 & ?).
    destruct (Hd m1 Hm1) as (m2 & Hm2 & ?). exists m2. split; [assumption|lia].
Qed.

Lemma tally_le_weaken key n n' st st' :
  (n <= n')%nat -> tally_le key n st st' -> tally_le key n' st st'.
Proof.
  intros Hle [Ha Hb]. split; [assumption|].
  intros m Hm. destruct (Hb m Hm) as (m' & ? & ?). exists m'. split; [assumption|lia].
Qed.

Lemma count_session_inv self course st st' :
  count_session course st = Ok (tt, st') ->
  (ledgers_ok self st -> ledgers_ok self st') /\
  tally_le (course_key course) 1 st st'.
Proof.
  unfold count_session.
  destruct (Dict.get (course_key course) (course_sessions st)) as [n|] eqn:E;
    [|discriminate].
  intros [= <-]. split.
  - intros [H1 H2 H3 H4 H5]. constructor; assumption.
  - split; simpl.
    + intros k Hk. apply get_set_ne. congruence.
    + intros m Hm. rewrite get_set_eq. exists (S n).
      split; [reflexivity|]. assert (m = n) by congruence. lia.
Qed.

Section FirstPass.
Variable self : ScheduleGenerator.
Variable course : Course.

Local Abbreviation size := (_get_class_size self (c_class course)).
Local Abbreviation key := (course_key course).

Lemma try_time_slots_ok day : forall slots assigned_days st r st',
  ledgers_ok self st ->
  try_time_slots self course size day assigned_days slots st = Ok (r, st') ->
  ledgers_ok self st' /\
  tally_le key (if fst r then 1 else 0) st st'.
Proof.
  induction slots as [|t slots IH]; intros ad st r st' Hok H.
  - injection H as <- <-. split; [assumption|]. apply tally_le_same; reflexivity.
  - cbn [try_time_slots] in H. inv_bind H.
    apply find_available_room_inv in E. destruct E as ((rng & ->) & Hroom).
    apply (set_random_ok self rng) in Hok.
    assert (Hrec : forall st1 r1,
      try_time_slots self course size day ad slots (set_random rng st) = Ok (r1, st1) ->
      ledgers_ok self st1 /\ tally_le key (if fst r1 then 1 else 0) st st1).
    { intros st1 r1 H1. destruct (IH _ _ _ _ Hok H1) as [? Ht].
      split; [assumption|].
      destruct Ht as [Ha Hb]. split; [exact Ha | exact Hb]. }
    destruct o as [name|].
    + destruct (str_truthy name).
      * inv_bind H. apply is_slot_available_inv in E.
        destruct E as [-> Hfree]. destruct b.
        -- destruct (Hfree eq_refl) as (Hc & Ht & Hr).
           inv_bind H. destruct u. inv_bind H. destruct u.
           injection H as <- <-.
           destruct (Hroom name eq_refl) as (room & Hin & Hn & Hcap & _).
           eapply assign_time_slot_ok in E; eauto.
           destruct E as (Hok1 & Hcs & _).
           apply (count_session_inv self) in E0. destruct E0 as [Hp Ht1].
           split; [auto|]. simpl.
           destruct Ht1 as [Ha Hb]. rewrite Hcs in Ha, Hb. split; assumption.
        -- apply Hrec. assumption.
      * unfold bind, ret in H. apply Hrec. assumption.
    + unfold bind, ret in H. apply Hrec. assumption.
Qed.

Lemma try_days_ok : forall candidates assigned_days st r st',
  ledgers_ok self st ->
  try_days self course size assigned_days candidates st = Ok (r, st') ->
  ledgers_ok self st' /\
  tally_le key (if fst r then 1 else 0) st st'.
Proof.
  induction candidates as [|day rest IH]; intros ad st r st' Hok H.
  - injection H as <- <-. split; [assumption|]. apply tally_le_same; reflexivity.
  - cbn [try_days] in H. destruct (skip_day self day ad); [eauto|].
    inv_bind H. apply shuffle_m_inv in E. destruct E as (_ & rng & ->).
    apply (set_random_ok self rng) in Hok.
    inv_bind H. apply try_time_slots_ok in E; [|assumption].
    destruct E as [Hok1 Ht1]. destruct p as [b ad1]. simpl in *.
    destruct b.
    + injection H as <- <-. simpl. split; [assumption|].
      destruct Ht1 as [Ha Hb]. split; assumption.
    + apply IH in H; [|assumption]. destruct H as [Hok2 Ht2].
      split; [assumption|].
      pose proof (tally_le_trans _ _ _ _ _ _ Ht1 Ht2) as Ht. simpl in Ht.
      destruct Ht as [Ha Hb]. split; assumption.
Qed.

Lemma append_conflict_unscheduled_ok st st' :
  ledgers_ok self st ->
  append_conflict (unscheduled_conflict course) st = Ok (tt, st') ->
  ledgers_ok self st' /\ course_sessions st' = course_sessions st.
Proof.
  intros [H1 H2 H3 H4 H5] [= <-]. split; [|reflexivity].
  constructor; simpl; try assumption.
  apply Forall_app. split; [assumption|]. repeat constructor.
Qed.

Lemma schedule_sessions_ok : forall n assigned_days st st',
  ledgers_ok self st ->
  schedule_sessions self course size assigned_days n st = Ok (tt, st') ->
  ledgers_ok self st' /\ tally_le key n st st'.
Proof.
  induction n as [|n IH]; intros ad st st' Hok H.
  - injection H as <-. split; [assumption|]. apply tally_le_same; reflexivity.
  - cbn [schedule_sessions] in H.
    inv_bind H. apply shuffle_m_inv in E. destruct E as (_ & rng & ->).
    apply (set_random_ok self rng) in Hok.
    inv_bind H. apply try_days_ok in E; [|assumption].
    destruct E as [Hok1 Ht1]. destruct p as [b ad1]. simpl in *.
    inv_bind H. destruct u.
    assert (Hmid : ledgers_ok self s0 /\ tally_le key 1 st s0).
    { destruct b.
      - injection E as <-. split; [assumption|].
        destruct Ht1 as [Ha Hb]. split; assumption.
      - apply append_conflict_unscheduled_ok in E; [|assumption].
        destruct E as [Hok2 Hcs]. split; [assumption|].
        apply (tally_le_weaken key 0); [lia|].
        destruct Ht1 as [Ha Hb]. rewrite <- Hcs in Ha, Hb. split; assumption. }
    destruct Hmid as [Hok2 Ht2].
    apply IH in H; [|assumption]. destruct H as [Hok3 Ht3].
    split; [assumption|].
    exact (tally_le_trans _ _ _ _ _ _ Ht2 Ht3).
Qed.
End FirstPass.

Lemma first_pass_ok self : forall cs st st',
  ledgers_ok self st -> first_pass self cs st = Ok (tt, st') ->
  ledgers_ok self st' /\
  (forall k, ~ In k (map course_key cs) ->
     Dict.get k (course_sessions st') = Dict.get k (course_sessions st)) /\
  (NoDup (map course_key cs) ->
   forall c m, In c cs ->
     Dict.get (course_key c) (course_sessions st) = Some m ->
     exists m', Dict.get (course_key c) (course_sessions st') = Some m' /\
                (m <= m' <= m + c_frequency c)%nat).
Proof.
  induction cs as [|c0 cs IH]; intros st st' Hok H.
  - injection H as <-. split; [assumption|]. split; [reflexivity|].
    intros _ c m [].
  - cbn [first_pass] in H. inv_bind H. destruct u.
    apply schedule_sessions_ok in E; [|assumption].
    destruct E as [Hok1 [Ha Hb]].
    apply IH in H; [|assumption]. destruct H as (Hok2 & Hc & Hd).
    split; [assumption|]. split.
    + intros k Hk. simpl in Hk. rewrite Hc by tauto.
      apply Ha. intros ->. tauto.
    + intros Hnd c m Hin Hm. simpl in Hnd.
      inversion Hnd as [|? ? Hfresh Hnd']; subst.
      destruct Hin as [->|Hin].
      * destruct (Hb m Hm) as (m' & Hm' & ?). exists m'.
        rewrite Hc by assumption. split; [assumption|lia].
      * assert (Hne : course_key c <> course_key c0).
        { intros E. apply Hfresh. rewrite <- E. apply in_map. assumption. }
        rewrite <- (Ha _ Hne) in Hm. exact (Hd Hnd' c m Hin Hm).
Qed.

Lemma initial_state_ok self rng : ledgers_ok self (initial_state self rng).
Proof.
  constructor; simpl.
  - intros c d t a. rewrite new_ledger_get.
    destruct (_ && _); discriminate.
  - intros c d t a. rewrite new_ledger_get.
    destruct (_ && _); discriminate.
  - apply new_ledger_keys_NoDup.
  - intros c. apply new_ledger_keys.
  - constructor.
Qed.

Lemma insert_course_perm c l : Permutation (insert_course c l) (c :: l).
Proof.
  induction l as [|d l IH]; simpl; [reflexivity|].
  destruct (course_key_le c d); [reflexivity|].
  rewrite IH. apply perm_swap.
Qed.

(** [sorted] returns a rearrangement of its argument. *)
Lemma sorted_courses_perm cs : Permutation (sorted_courses cs) cs.
Proof.
  induction cs as [|c cs IH]; simpl; [reflexivity|].
  rewrite insert_course_perm. apply perm_skip, IH.
Qed.

(** ** Loops whose body may raise *)

Lemma flat_mapR_In {A B} (f : A -> result (list B)) : forall l r,
  flat_mapR f l = Ok r ->
  forall y, In y r <-> exists x ys, In x l /\ f x = Ok ys /\ In y ys.
Proof.
  induction l as [|x l IH]; intros r; simpl.
  - intros [= <-] y. split; [intros [] | intros (? & ? & [] & _)].
  - destruct (f x) as [ys|] eqn:Ex; [|discriminate].
    destruct (flat_mapR f l) as [zs|] eqn:El; [|discriminate].
    intros [= <-] y. rewrite in_app_iff, (IH zs eq_refl). split.
    + intros [Hy|(x' & ys' & ? & ? & ?)]; [exists x, ys; auto|].
      exists x', ys'. auto.
    + intros (x' & ys' & [<-|Hin] & Hf & Hy).
      * left. congruence.
      * right. eauto.
Qed.

Lemma flat_mapR_nil {A B} (f : A -> result (list B)) : forall l r,
  flat_mapR f l = Ok r ->
  (forall x ys, In x l -> f x = Ok ys -> ys = []) -> r = [].
Proof.
  intros l r H Hall. destruct r as [|y r]; [reflexivity|].
  destruct (proj1 (flat_mapR_In f l _ H y) (or_introl eq_refl))
    as (x & ys & Hin & Hf & Hy).
  rewrite (Hall x ys Hin Hf) in Hy. destruct Hy.
Qed.

Lemma flat_mapR_NoDup {A B C} (f : A -> result (list B)) (g : B -> C)
    (tag : C -> A) : forall l r,
  NoDup l -> flat_mapR f l = Ok r ->
  (forall x ys, In x l -> f x = Ok ys ->
     NoDup (map g ys) /\ forall y, In y ys -> tag (g y) = x) ->
  NoDup (map g r).
Proof.
  induction l as [|x l IH]; intros r Hnd; simpl.
  - intros [= <-] _. constructor.
  - destruct (f x) as [ys|] eqn:Ex; [|discriminate].
    destruct (flat_mapR f l) as [zs|] eqn:El; [|discriminate].
    intros [= <-] Hall. inversion Hnd as [|? ? Hx Hl]; subst.
    rewrite map_app. apply NoDup_app.
    + apply (Hall x ys); auto.
    + apply IH; auto.
    + intros c Hc1 Hc2.
      apply in_map_iff in Hc1. destruct Hc1 as (y1 & <- & Hy1).
      apply in_map_iff in Hc2. destruct Hc2 as (y2 & E & Hy2).
      destruct (proj1 (flat_mapR_In f l zs El y2) Hy2)
        as (x' & ys' & Hin' & Hf' & Hy').
      apply Hx.
      assert (tag (g y1) = x) by (apply (Hall x ys); auto).
      assert (tag (g y2) = x') by (apply (Hall x' ys'); auto).
      congruence.
Qed.

Lemma filterR_inv {A} (f : A -> result bool) : forall l r,
  filterR f l = Ok r ->
  (forall x, In x r -> In x l /\ f x = Ok true) /\ (NoDup l -> NoDup r).
Proof.
  induction l as [|x l IH]; intros r; simpl.
  - intros [= <-]. split; [intros ? [] | auto].
  - destruct (f x) as [b|] eqn:Ex; [|discriminate].
    destruct (filterR f l) as [zs|] eqn:El; [|discriminate].
    destruct (IH zs eq_refl) as [Hin Hnd].
    intros [= <-]. split.
    + destruct b.
      * intros y [<-|Hy]; [auto|]. destruct (Hin y Hy). auto.
      * intros y Hy. destruct (Hin y Hy). auto.
    + intros Hl. inversion Hl as [|? ? Hx Hl']; subst.
      destruct b; [|auto]. constructor; [|auto].
      intros Hc. apply Hx. apply Hin. assumption.
Qed.

Lemma NoDup_map_inj_on {A B} (g : A -> B) (l : list A) :
  NoDup l -> (forall x y, In x l -> In y l -> g x = g y -> x = y) ->
  NoDup (map g l).
Proof.
  induction 1 as [|x l Hx Hl IH]; intros Hinj; simpl; constructor.
  - intros Hc. apply in_map_iff in Hc. destruct Hc as (y & E & Hy).
    apply Hx. rewrite (Hinj x y); simpl; auto.
  - apply IH. intros; apply Hinj; simpl; auto.
Qed.

Lemma NoDup_all_equal {A} (l : list A) :
  NoDup l -> (forall x y, In x l -> In y l -> x = y) ->
  (List.length l <= 1)%nat.
Proof.
  intros Hnd Heq. destruct l as [|x [|y l]]; simpl; try lia.
  inversion Hnd as [|? ? Hx _]; subst. exfalso. apply Hx.
  rewrite (Heq x y); simpl; auto.
Qed.

(** ** The generator built by [__init__] *)

Lemma generate_time_slots_NoDup g fuel slots :
  grid_in_range g -> _generate_time_slots fuel g = Some slots -> NoDup slots.
Proof.
  intros Hv. rewrite generate_time_slots_labels.
  destruct (slot_bounds fuel g) as [bounds|] eqn:E; [|discriminate].
  intros [= <-]. pose proof (slot_bounds_loop_follows _ _ _ _ _ E) as Hfol.
  apply labels_NoDup.
  - eapply follows_grid_sorted; [apply grid_in_range_steps|]; eassumption.
  - eapply Forall_impl;
      [|eapply follows_grid_Forall; [apply grid_in_range_steps|]; eassumption].
    pose proof (grid_in_range_minutes g Hv).
    pose proof (steps_positive_period g (grid_in_range_steps g Hv)).
    simpl; intros; lia.
Qed.

Lemma weekdays_NoDup : NoDup weekdays.
Proof.
  unfold weekdays.
  repeat (constructor; [simpl; intros H;
    repeat (destruct H as [H|H]; [discriminate H|]); exact H|]).
  constructor.
Qed.

Lemma init_inv fuel ts rs cls cs g self :
  __init__ fuel ts rs cls cs g = Some self ->
  self = mkGenerator ts rs cls cs g weekdays (time_slots self) /\
  _generate_time_slots fuel g = Some (time_slots self).
Proof.
  unfold __init__. destruct (_generate_time_slots fuel g); [|discriminate].
  intros [= <-]. auto.
Qed.

Lemma init_NoDup fuel ts rs cls cs g self :
  grid_in_range g -> __init__ fuel ts rs cls cs g = Some self ->
  NoDup (days self) /\ NoDup (time_slots self).
Proof.
  intros Hv H. apply init_inv in H. destruct H as [E Hs]. split.
  - rewrite E. apply weekdays_NoDup.
  - eapply generate_time_slots_NoDup; eassumption.
Qed.

(** ** The audit *)

Section Audit.
Variable self : ScheduleGenerator.
Variable st : State.
Hypothesis Hok : ledgers_ok self st.

Lemma cell_inv c d t ys a :
  cell_assignments st c d t = Ok ys -> In a ys ->
  ys = [a] /\ ledger_get (class_schedule st) c d t = Ok (Some a).
Proof.
  unfold cell_assignments. destruct (ledger_get (class_schedule st) c d t) as [[b|]|];
    [|intros [= <-] []|discriminate].
  intros [= <-] [<-|[]]. auto.
Qed.

Lemma collect_schedule_In schedule a :
  collect_schedule self st = Ok schedule -> In a schedule ->
  exists c d t, ledger_get (class_schedule st) c d t = Ok (Some a).
Proof.
  intros H Hin. unfold collect_schedule in H.
  apply (flat_mapR_In _ _ _ H) in Hin. destruct Hin as (c & ys & _ & H1 & Hin).
  apply (flat_mapR_In _ _ _ H1) in Hin. destruct Hin as (d & zs & _ & H2 & Hin).
  apply (flat_mapR_In _ _ _ H2) in Hin. destruct Hin as (t & ws & _ & H3 & Hin).
  exists c, d, t. eapply (cell_inv c d t); eassumption.
Qed.

Lemma collect_schedule_NoDup schedule :
  NoDup (days self) -> NoDup (time_slots self) ->
  collect_schedule self st = Ok schedule -> NoDup (map booking schedule).
Proof.
  intros Hd Ht H. unfold collect_schedule in H.
  refine (flat_mapR_NoDup _ booking (fun b => fst (fst b)) _ _
            (ok_keys _ _ Hok) H _).
  intros c ys _ H1. split.
  - refine (flat_mapR_NoDup _ booking (fun b => snd (fst b)) _ _ Hd H1 _).
    intros d zs _ H2. split.
    + refine (flat_mapR_NoDup _ booking (fun b => snd b) _ _ Ht H2 _).
      intros t ws _ H3. split.
      * destruct ws as [|w ws]; [constructor|].
        destruct (cell_inv c d t _ w H3 (or_introl eq_refl)) as [-> _].
        repeat constructor. simpl. tauto.
      * intros a Ha. destruct (cell_inv c d t _ a H3 Ha) as [_ Hg].
        apply (ok_cell _ _ Hok) in Hg. simpl. tauto.
    + intros a Ha.
      apply (flat_mapR_In _ _ _ H2) in Ha. destruct Ha as (t & ws & _ & H3 & Ha).
      destruct (cell_inv c d t _ a H3 Ha) as [_ Hg].
      apply (ok_cell _ _ Hok) in Hg. simpl. tauto.
  - intros a Ha.
    apply (flat_mapR_In _ _ _ H1) in Ha. destruct Ha as (d & zs & _ & H2 & Ha).
    apply (flat_mapR_In _ _ _ H2) in Ha. destruct Ha as (t & ws & _ & H3 & Ha).
    destruct (cell_inv c d t _ a H3 Ha) as [_ Hg].
    apply (ok_cell _ _ Hok) in Hg. simpl. tauto.
Qed.

(** Two classes whose assignments at one (day, slot) agree on [field]
    are one class, when [field] names a ledger cell holding the
    assignment. *)
Lemma conflict_scan_nil (field : Assignment -> string) ledger report names r :
  (forall c d t a, ledger_get (class_schedule st) c d t = Ok (Some a) ->
     ledger_get ledger (field a) d t = Ok (Some a)) ->
  conflict_scan self st names field report = Ok r -> r = [].
Proof.
  intros Hfield H. unfold conflict_scan in H.
  apply (flat_mapR_nil _ _ _ H). intros name ys _ H1.
  apply (flat_mapR_nil _ _ _ H1). intros d zs _ H2.
  apply (flat_mapR_nil _ _ _ H2). intros t ws _ H3.
  destruct (classes_at_time st field name d t) as [cs|] eqn:Ec; [|discriminate].
  injection H3 as <-. unfold classes_at_time in Ec.
  apply filterR_inv in Ec. destruct Ec as [Hin Hnd].
  assert (Hlen : (List.length cs <= 1)%nat).
  { apply NoDup_all_equal; [apply Hnd, (ok_keys _ _ Hok)|].
    intros c1 c2 H1' H2'.
    destruct (Hin c1 H1') as [_ E1]. destruct (Hin c2 H2') as [_ E2].
    destruct (ledger_get (class_schedule st) c1 d t) as [[a1|]|] eqn:G1;
      try discriminate.
    destruct (ledger_get (class_schedule st) c2 d t) as [[a2|]|] eqn:G2;
      try discriminate.
    injection E1 as E1. injection E2 as E2.
    apply String.eqb_eq in E1, E2.
    pose proof (Hfield _ _ _ _ G1) as F1. pose proof (Hfield _ _ _ _ G2) as F2.
    rewrite E1 in F1. rewrite E2 in F2.
    assert (a1 = a2) by congruence. subst a2.
    destruct (ok_cell _ _ Hok _ _ _ _ G1) as (<- & _).
    destruct (ok_cell _ _ Hok _ _ _ _ G2) as (<- & _). reflexivity. }
  destruct (Nat.ltb_spec 1 (List.length cs)); [lia | reflexivity].
Qed.

(** What [audit] returns on a consistent state. *)
Lemma audit_inv schedule cfs :
  audit self st = Ok (schedule, cfs) ->
  collect_schedule self st = Ok schedule /\
  cfs = conflicts st ++ frequency_scan self st.
Proof.
  unfold audit.
  destruct (collect_schedule self st) as [sch|]; [|discriminate].
  destruct (conflict_scan self st _ a_teacher _) as [tcs|] eqn:Et;
    [|discriminate].
  destruct (conflict_scan self st _ a_room _) as [rcs|] eqn:Er;
    [|discriminate].
  intros [= <- <-]. split; [reflexivity|].
  apply (conflict_scan_nil a_teacher (teacher_schedule st)) in Et;
    [|intros c d t a Hg; apply (ok_cell _ _ Hok) in Hg; tauto].
  apply (conflict_scan_nil a_room (room_schedule st)) in Er;
    [|intros c d t a Hg; apply (ok_cell _ _ Hok) in Hg; tauto].
  subst. reflexivity.
Qed.
End Audit.

Lemma frequency_scan_types self st k :
  In k (frequency_scan self st) -> k_type k = "Frequency Not Met".
Proof.
  unfold frequency_scan. rewrite in_flat_map. intros (item & _ & Hk).
  destruct (_ <? _)%nat; [|destruct Hk].
  destruct Hk as [<-|[]]. reflexivity.
Qed.

(** The state [generate_schedule] audits is consistent. *)
Lemma generate_schedule_inv self rng schedule cfs :
  generate_schedule self rng = Ok (schedule, cfs) ->
  exists st, run_first_pass self rng = Ok st /\ ledgers_ok self st /\
             collect_schedule self st = Ok schedule /\
             cfs = conflicts st ++ frequency_scan self st.
Proof.
  unfold generate_schedule.
  destruct (run_first_pass self rng) as [st|] eqn:E; [|discriminate].
  intros H. exists st. split; [reflexivity|].
  assert (Hok : ledgers_ok self st).
  { unfold run_first_pass in E.
    destruct (first_pass self _ _) as [[[] st1]|] eqn:E1; [|discriminate].
    injection E as <-.
    eapply first_pass_ok; [apply initial_state_ok | eassumption]. }
  split; [assumption|]. eapply audit_inv; eassumption.
Qed.

(** ** The session tally *)

Lemma existsb_key_eqb_In {K} `{EqKeyOk K} (k : K) (l : list K) :
  In k l -> existsb (key_eqb k) l = true.
Proof.
  intros Hi. apply existsb_exists. exists k. split; [assumption|].
  apply key_eqb_refl.
Qed.

Lemma initial_tally (cs : list Course) c :
  In c cs ->
  Dict.get (course_key c)
    (Dict.of_list (map (fun course => (course_key course, O)) cs)) = Some O.
Proof.
  intros Hin.
  replace (map (fun course => (course_key course, O)) cs)
    with (map (fun k : string * string => (k, O)) (map course_key cs))
    by (rewrite map_map; reflexivity).
  rewrite (of_list_get (fun _ => O)).
  rewrite existsb_key_eqb_In; [reflexivity|]. apply in_map. assumption.
Qed.

Lemma required_frequency_unique (cs : list Course) c :
  NoDup (map course_key cs) -> In c cs ->
  required_frequency cs (course_key c) = c_frequency c.
Proof.
  induction cs as [|c0 cs IH]; simpl; [tauto|].
  intros Hnd Hin. inversion Hnd as [|? ? Hfresh Hnd']; subst.
  destruct Hin as [->|Hin].
  - rewrite !String.eqb_refl. reflexivity.
  - destruct (String.eqb_spec (c_name c0) (c_name c)) as [E1|];
      [|apply IH; assumption].
    destruct (String.eqb_spec (c_class c0) (c_class c)) as [E2|];
      [|apply IH; assumption].
    exfalso. apply Hfresh.
    replace (course_key c0) with (course_key c)
      by (unfold course_key; congruence).
    apply in_map. assumption.
Qed.

Lemma class_size_in_first (cls : list SchoolClass) name :
  In name (map cl_name cls) ->
  exists cl, In cl cls /\ cl_name cl = name /\
             class_size_in cls name = cl_size cl.
Proof.
  induction cls as [|c0 cls IH]; simpl; [tauto|].
  intros Hin. destruct (String.eqb_spec (cl_name c0) name) as [E|Hn].
  - exists c0. auto.
  - destruct Hin as [?|Hin]; [contradiction|].
    destruct (IH Hin) as (cl & ? & ? & ?). exists cl. auto.
Qed.

Lemma run_first_pass_tally self rng st c :
  NoDup (map course_key (courses self)) -> In c (courses self) ->
  run_first_pass self rng = Ok st ->
  exists n, Dict.get (course_key c) (course_sessions st) = Some n /\
            (n <= c_frequency c)%nat.
Proof.
  intros Hnd Hin H. unfold run_first_pass in H.
  destruct (first_pass self _ _) as [[[] st1]|] eqn:E; [|discriminate].
  injection H as <-.
  pose proof (sorted_courses_perm (courses self)) as Hp.
  apply first_pass_ok in E; [|apply initial_state_ok].
  destruct E as (_ & _ & Ht).
  destruct (Ht (Permutation_NoDup (Permutation_map _ (Permutation_sym Hp)) Hnd)
              c O (Permutation_in _ (Permutation_sym Hp) Hin)
              (initial_tally _ _ Hin)) as (n & Hn & ?).
  exists n. split; [assumption | lia].
Qed.

(** ** The properties of the specification *)

(** C1.  A schedule returned by [generate_schedule] on a generator built
    from grid options in range holds, for each day and time slot, at most one
    assignment of a given class, at most one of a given teacher and at
    most one of a given room: two entries of the returned list that share
    the day, the slot and the class, the teacher or the room are the same
    entry.  The conflict list of the same run holds no 'Teacher Conflict'
    and no 'Room Conflict' record. *)
Theorem generate_schedule_no_double_booking :
  forall fuel ts rs cls cs g self rng schedule cfs,
    grid_in_range g ->
    __init__ fuel ts rs cls cs g = Some self ->
    generate_schedule self rng = Ok (schedule, cfs) ->
    (forall i j a b,
       nth_error schedule i = Some a -> nth_error schedule j = Some b ->
       a_day a = a_day b -> a_time a = a_time b ->
       a_class a = a_class b \/ a_teacher a = a_teacher b \/
       a_room a = a_room b ->
       i = j) /\
    (forall k, In k cfs ->
       k_type k <> "Teacher Conflict" /\ k_type k <> "Room Conflict").
Proof.
  intros fuel ts rs cls cs g self rng schedule cfs Hv Hinit Hrun.
  destruct (init_NoDup _ _ _ _ _ _ _ Hv Hinit) as [Hd Ht].
  apply generate_schedule_inv in Hrun.
  destruct Hrun as (st & _ & Hok & Hcol & ->). split.
  - pose proof (collect_schedule_NoDup self st Hok schedule Hd Ht Hcol) as Hnd.
    assert (Hnd' : NoDup schedule) by (eapply NoDup_map_inv; eassumption).
    intros i j a b Hi Hj Hday Htime Hshare.
    assert (Hab : a = b).
    { apply nth_error_In in Hi, Hj.
      destruct (collect_schedule_In self st schedule a Hcol Hi)
        as (c1 & d1 & t1 & G1).
      destruct (collect_schedule_In self st schedule b Hcol Hj)
        as (c2 & d2 & t2 & G2).
      destruct (ok_cell _ _ Hok _ _ _ _ G1) as (A1 & A2 & A3 & A4 & A5).
      destruct (ok_cell _ _ Hok _ _ _ _ G2) as (B1 & B2 & B3 & B4 & B5).
      subst c1 d1 t1 c2 d2 t2.
      destruct Hshare as [E|[E|E]].
      - rewrite E, Hday, Htime in G1. congruence.
      - rewrite E, Hday, Htime in A4. congruence.
      - rewrite E, Hday, Htime in A5. congruence. }
    subst b. apply (proj1 (NoDup_nth_error schedule) Hnd').
    + apply nth_error_Some. congruence.
    + congruence.
  - intros k Hk. apply in_app_iff in Hk. destruct Hk as [Hk|Hk].
    + pose proof (ok_conflicts _ _ Hok) as Hf. rewrite Forall_forall in Hf.
      rewrite (Hf k Hk). split; discriminate.
    + rewrite (frequency_scan_types _ _ _ Hk). split; discriminate.
Qed.

(** C2.  When the courses are uniquely identified by their (name, class)
    pair, the tally [course_sessions] of a run that returns holds, for
    each course, a count of at most the course's frequency; and when the
    count is below the frequency the returned conflicts contain the
    record of type 'Frequency Not Met', with 'N/A' for the day and the
    time, whose description names the course and the class and reports
    the count and the frequency in decimal. *)
Theorem fulfilled_sessions_bounded :
  forall fuel ts rs cls cs g self rng schedule cfs course,
    __init__ fuel ts rs cls cs g = Some self ->
    NoDup (map course_key cs) ->
    generate_schedule self rng = Ok (schedule, cfs) ->
    In course cs ->
    exists n,
      fulfilled_sessions self rng course = Some n /\
      (n <= c_frequency course)%nat /\
      ((n < c_frequency course)%nat ->
       In (mkConflict "Frequency Not Met" "N/A" "N/A"
             ("Course " ++ c_name course ++ " (Class: " ++ c_class course
              ++ ") was scheduled for "
              ++ NilZero.string_of_uint (Nat.to_uint n) ++ "/"
              ++ NilZero.string_of_uint (Nat.to_uint (c_frequency course))
              ++ " required sessions")%string) cfs).
Proof.
  intros fuel ts rs cls cs g self rng schedule cfs course Hinit Hnd Hrun Hin.
  apply init_inv in Hinit. destruct Hinit as [Hself _].
  assert (Hcs : courses self = cs) by (rewrite Hself; reflexivity).
  apply generate_schedule_inv in Hrun.
  destruct Hrun as (st & Hfp & Hok & _ & ->).
  rewrite <- Hcs in Hnd, Hin.
  destruct (run_first_pass_tally self rng st course Hnd Hin Hfp) as (n & Hn & Hle).
  exists n. unfold fulfilled_sessions. rewrite Hfp.
  split; [assumption|]. split; [assumption|].
  intros Hlt. apply in_app_iff. right.
  unfold frequency_scan. apply in_flat_map.
  exists (course_key course, n). split; [apply get_In_items; assumption|].
  cbn [fst snd]. rewrite (required_frequency_unique _ _ Hnd Hin).
  destruct (Nat.ltb_spec n (c_frequency course)); [|lia].
  left. reflexivity.
Qed.

(** C3.  When the class of every course is in the classes list, every
    assignment [generate_schedule] returns names a class of the classes
    list and a room of the rooms list whose capacity is at least the size
    of that class, the size being the one [_get_class_size] finds. *)
Theorem assigned_room_fits_class :
  forall fuel ts rs cls cs g self rng schedule cfs a,
    __init__ fuel ts rs cls cs g = Some self ->
    (forall course, In course cs -> In (c_class course) (map cl_name cls)) ->
    generate_schedule self rng = Ok (schedule, cfs) ->
    In a schedule ->
    exists room cl,
      In room rs /\ r_name room = a_room a /\
      In cl cls /\ cl_name cl = a_class a /\
      _get_class_size self (a_class a) = cl_size cl /\
      cl_size cl <= r_capacity room.
Proof.
  intros fuel ts rs cls cs g self rng schedule cfs a Hinit _ Hrun Hin.
  apply init_inv in Hinit. destruct Hinit as [Hself _].
  assert (Hrs : rooms self = rs) by (rewrite Hself; reflexivity).
  assert (Hcls : classes self = cls) by (rewrite Hself; reflexivity).
  apply generate_schedule_inv in Hrun.
  destruct Hrun as (st & _ & Hok & Hcol & _).
  destruct (collect_schedule_In self st schedule a Hcol Hin)
    as (c & d & t & G).
  destruct (ok_cell _ _ Hok _ _ _ _ G) as (Hc & _).
  destruct (ok_room _ _ Hok _ _ _ _ G) as (room & Hr1 & Hr2 & Hr3).
  pose proof (ok_classes _ _ Hok c (ledger_get_key _ _ _ _ _ G)) as Hk.
  destruct (class_size_in_first _ _ Hk) as (cl & Hc1 & Hc2 & Hc3).
  exists room, cl. subst c. unfold _get_class_size in *.
  rewrite <- Hrs, <- Hcls. repeat split; auto. lia.
Qed.

Lemma init_total fuel ts rs cls cs g slots :
  _generate_time_slots fuel g = Some slots ->
  __init__ fuel ts rs cls cs g = Some (mkGenerator ts rs cls cs g weekdays slots).
Proof. unfold __init__. intros ->. reflexivity. Qed.

Lemma fmt02_digit_chars n :
  0 <= n < 100 ->
  fmt02 n = String (digit_char (n / 10)) (String (digit_char (n mod 10)) EmptyString).
Proof.
  intros Hn.
  assert (Hk : exists k, (k < 100)%nat /\ n = Z.of_nat k)
    by (exists (Z.to_nat n); lia).
  destruct Hk as (k & Hk & ->). clear Hn.
  do 100 (destruct k as [|k]; [vm_compute; reflexivity|]).
  lia.
Qed.

Lemma fmt_clock_text m : 0 <= m < 1440 -> fmt_clock m = hhmm_text m.
Proof.
  intros Hm. unfold fmt_clock, hhmm_text.
  rewrite (fmt02_digit_chars (m / 60))
    by (split; [apply Z.div_pos; lia | apply Z.div_lt_upper_bound; lia]).
  rewrite (fmt02_digit_chars (m mod 60))
    by (pose proof (Z.mod_pos_bound m 60); lia).
  reflexivity.
Qed.

Lemma label_of_text p :
  0 <= fst p < 1440 -> 0 <= snd p < 1440 -> label_of p = period_text p.
Proof.
  intros H1 H2. unfold label_of, slot_label, period_text.
  rewrite !fmt_clock_text by assumption. reflexivity.
Qed.

(** C6.  For a valid grid configuration the builder returns, within
    [grid_fuel] iterations, the labels of a sequence of periods given by
    their first and end minute; every period starts strictly before, and
    ends no later than, every later period starts (increasing start
    times, no overlap), and every period lasts the period length.  When
    the start and the end of the day are times of day, the label of a
    period is the text ["HH:MM-HH:MM"] of its two bounds. *)
Theorem time_grid_increasing_disjoint :
  forall g fuel,
    valid_grid g -> (grid_fuel g <= fuel)%nat ->
    exists bounds,
      slot_bounds fuel g = Some bounds /\
      _generate_time_slots fuel g = Some (map label_of bounds) /\
      StronglySorted (fun p q => fst p < fst q /\ snd p <= fst q) bounds /\
      Forall (fun p => snd p - fst p = period_length g) bounds /\
      (valid_time (start_time g) -> valid_time (end_time g) ->
       _generate_time_slots fuel g = Some (map period_text bounds)).
Proof.
  intros g fuel Hv Hf. apply valid_grid_steps in Hv.
  destruct (steps_positive_slots g fuel Hv Hf) as (bounds & Hb & Hg & Hfol).
  exists bounds. split; [assumption|]. split; [assumption|]. split; [|split].
  - eapply follows_grid_sorted; eassumption.
  - eapply Forall_impl; [|eapply follows_grid_Forall; eassumption].
    simpl; intros; lia.
  - intros Hs He. rewrite Hg. f_equal. apply map_ext_in. intros p Hp.
    pose proof (follows_grid_Forall g Hv _ _ _ Hfol) as Hall.
    rewrite Forall_forall in Hall. specialize (Hall p Hp). simpl in Hall.
    destruct (grid_in_range_minutes g) as (H0 & H1);
      [split; [exact Hs|split; [exact He|exact Hv]]|].
    destruct Hv as (HP & _).
    apply label_of_text; lia.
Qed.

Lemma time_grid_increasing_disjoint_witness :
  _generate_time_slots 300 morning
  = Some ["08:00-08:50"; "09:00-09:50"; "10:00-10:50"; "11:20-12:10"] /\
  exists bounds,
    slot_bounds 300 morning = Some bounds /\
    _generate_time_slots 300 morning = Some (map period_text bounds) /\
    StronglySorted (fun p q => fst p < fst q /\ snd p <= fst q) bounds /\
    Forall (fun p => snd p - fst p = 50) bounds.
Proof.
  split; [vm_compute; reflexivity|].
  destruct (time_grid_increasing_disjoint morning 300)
    as (bounds & Hb & _ & Hs & Hd & Ht).
  - unfold valid_grid, steps_positive, lunch_enabled; simpl.
    repeat split; try lia; vm_compute; congruence.
  - vm_compute. lia.
  - exists bounds. split; [exact Hb|]. split; [|split; [exact Hs|exact Hd]].
    apply Ht; unfold valid_time; simpl; lia.
Defined.






(** ** The search for one session *)

(** When the slot loop schedules the session, it has committed exactly
    once, into three cells that its checks found free; otherwise the set
    of used days is unchanged. *)
Lemma try_time_slots_commit self course size day : forall slots ad st r st',
  try_time_slots self course size day ad slots st = Ok (r, st') ->
  (fst r = false /\ snd r = ad) \/
  (fst r = true /\ snd r = days_add day ad /\
   exists t name st1 st2,
     In t slots /\
     ledger_get (class_schedule st1) (c_class course) day t = Ok None /\
     ledger_get (teacher_schedule st1) (c_teacher course) day t = Ok None /\
     ledger_get (room_schedule st1) name day t = Ok None /\
     _assign_time_slot course (c_class course) (c_teacher course) name day t
       st1 = Ok (tt, st2) /\
     count_session course st2 = Ok (tt, st')).
Proof.
  induction slots as [|t slots IH]; intros ad st r st' H.
  - injection H as <- <-. left. auto.
  - cbn [try_time_slots] in H. inv_bind H.
    assert (Hrec : forall st1,
      try_time_slots self course size day ad slots st1 = Ok (r, st') ->
      (fst r = false /\ snd r = ad) \/
      (fst r = true /\ snd r = days_add day ad /\
       exists t0 name st1 st2,
         In t0 (t :: slots) /\
         ledger_get (class_schedule st1) (c_class course) day t0 = Ok None /\
         ledger_get (teacher_schedule st1) (c_teacher course) day t0 = Ok None /\
         ledger_get (room_schedule st1) name day t0 = Ok None /\
         _assign_time_slot course (c_class course) (c_teacher course) name
           day t0 st1 = Ok (tt, st2) /\
         count_session course st2 = Ok (tt, st'))).
    { intros st1 H1. destruct (IH _ _ _ _ H1) as [?|(? & ? & t0 & n0 & s1 & s2 & ? & ?)];
        [left; assumption|].
      right. split; [assumption|]. split; [assumption|].
      exists t0, n0, s1, s2. split; [right; assumption | assumption]. }
    destruct o as [name|].
    + destruct (str_truthy name).
      * inv_bind H. apply is_slot_available_inv in E0.
        destruct E0 as [-> Hfree]. destruct b.
        -- destruct (Hfree eq_refl) as (Hc & Ht & Hr).
           inv_bind H. destruct u. inv_bind H. destruct u.
           injection H as <- <-. right. split; [reflexivity|].
           split; [reflexivity|].
           exists t, name, s. eexists. split; [left; reflexivity|].
           repeat split; eassumption.
        -- eapply Hrec; eassumption.
      * unfold bind, ret in H. eapply Hrec; eassumption.
    + unfold bind, ret in H. eapply Hrec; eassumption.
Qed.

Lemma days_add_length day ad :
  (List.length ad <= List.length (days_add day ad))%nat.
Proof.
  unfold days_add. destruct (existsb _ ad); [lia|].
  rewrite length_app. simpl. lia.
Qed.

Lemma try_days_monotone self course size : forall candidates ad st r st',
  try_days self course size ad candidates st = Ok (r, st') ->
  (List.length ad <= List.length (snd r))%nat.
Proof.
  induction candidates as [|day rest IH]; intros ad st r st' H.
  - injection H as <- <-. simpl. lia.
  - cbn [try_days] in H. destruct (skip_day self day ad); [eauto|].
    inv_bind H. inv_bind H.
    apply try_time_slots_commit in E0.
    destruct (fst p) eqn:Ep.
    + injection H as <- <-.
      destruct E0 as [[? _]|(_ & -> & _)]; [congruence|].
      apply days_add_length.
    + destruct E0 as [[_ E']|[? _]]; [|congruence].
      rewrite E' in H. eauto.
Qed.

(** The rule at work: a course of six sessions a week uses the five days
    with its first five sessions; the sixth is then placed on a day the
    course already uses, and no session is left unscheduled. *)
Example sixth_session_reuses_a_day :
  exists schedule,
    generate_schedule six_school draws = Ok (schedule, []) /\
    map a_day schedule
    = ["Monday"; "Tuesday"; "Tuesday"; "Wednesday"; "Thursday"; "Friday"].
Proof. eexists. split; vm_compute; reflexivity. Qed.

(** ** The commit *)

Lemma assign_time_slot_defined course c tn rn d t st v1 v2 v3 :
  ledger_get (class_schedule st) c d t = Ok v1 ->
  ledger_get (teacher_schedule st) tn d t = Ok v2 ->
  ledger_get (room_schedule st) rn d t = Ok v3 ->
  exists st',
    _assign_time_slot course c tn rn d t st = Ok (tt, st') /\
    ledger_get (class_schedule st') c d t
    = Ok (Some (mkAssignment (c_name course) tn rn c d t)) /\
    ledger_get (teacher_schedule st') tn d t
    = Ok (Some (mkAssignment (c_name course) tn rn c d t)) /\
    ledger_get (room_schedule st') rn d t
    = Ok (Some (mkAssignment (c_name course) tn rn c d t)).
Proof.
  intros H1 H2 H3.
  set (a := mkAssignment (c_name course) tn rn c d t).
  destruct (ledger_set_defined _ _ _ _ _ a H1) as [cs Ec].
  destruct (ledger_set_defined _ _ _ _ _ a H2) as [ts Et].
  destruct (ledger_set_defined _ _ _ _ _ a H3) as [rs Er].
  unfold _assign_time_slot. fold a. rewrite Ec, Et, Er.
  eexists. split; [reflexivity|]. simpl.
  repeat split; eapply ledger_set_get_eq; eassumption.
Qed.

(** When the slot loop schedules no session it has only advanced the
    random generator; when it schedules one, the three cells it commits
    into were free in the ledgers it was entered with, and these are the
    ledgers the commit writes to. *)
Lemma try_time_slots_entry self course size day : forall slots ad st r st',
  try_time_slots self course size day ad slots st = Ok (r, st') ->
  (fst r = false /\ exists rng, st' = set_random rng st) \/
  (fst r = true /\
   exists t name rng st2,
     In t slots /\
     ledger_get (class_schedule st) (c_class course) day t = Ok None /\
     ledger_get (teacher_schedule st) (c_teacher course) day t = Ok None /\
     ledger_get (room_schedule st) name day t = Ok None /\
     _assign_time_slot course (c_class course) (c_teacher course) name day t
       (set_random rng st) = Ok (tt, st2) /\
     count_session course st2 = Ok (tt, st')).
Proof.
  induction slots as [|t slots IH]; intros ad st r st' H.
  - injection H as <- <-. left. split; [reflexivity|].
    exists (random st). destruct st. reflexivity.
  - cbn [try_time_slots] in H. inv_bind H.
    apply find_available_room_inv in E. destruct E as ((rng & ->) & _).
    assert (Hrec :
      try_time_slots self course size day ad slots (set_random rng st)
      = Ok (r, st') ->
      (fst r = false /\ exists rng, st' = set_random rng st) \/
      (fst r = true /\
       exists t0 name rng st2,
         In t0 (t :: slots) /\
         ledger_get (class_schedule st) (c_class course) day t0 = Ok None /\
         ledger_get (teacher_schedule st) (c_teacher course) day t0 = Ok None /\
         ledger_get (room_schedule st) name day t0 = Ok None /\
         _assign_time_slot course (c_class course) (c_teacher course) name
           day t0 (set_random rng st) = Ok (tt, st2) /\
         count_session course st2 = Ok (tt, st'))).
    { intros H1. destruct (IH _ _ _ _ H1) as
        [(F1 & rng1 & ->)|(F1 & t0 & n0 & rng1 & s2 & Hin & G1 & G2 & G3 & G4 & G5)].
      - left. split; [exact F1|]. exists rng1. reflexivity.
      - right. split; [exact F1|]. exists t0, n0, rng1, s2.
        split; [right; exact Hin|].
        split; [exact G1|]. split; [exact G2|]. split; [exact G3|].
        split; [exact G4|exact G5]. }
    destruct o as [name|].
    + destruct (str_truthy name).
      * inv_bind H. apply is_slot_available_inv in E.
        destruct E as [-> Hfree]. destruct b.
        -- destruct (Hfree eq_refl) as (Hc & Ht & Hr).
           inv_bind H. destruct u. inv_bind H. destruct u.
           injection H as <- <-. right. split; [reflexivity|].
           exists t, name, rng, s. split; [left; reflexivity|].
           split; [exact Hc|]. split; [exact Ht|]. split; [exact Hr|].
           split; assumption.
        -- apply Hrec. exact H.
      * unfold bind, ret in H. apply Hrec. exact H.
    + unfold bind, ret in H. apply Hrec. exact H.
Qed.

(** C9, as the code has it.  [_assign_time_slot] checks nothing: whatever
    the three cells it targets hold, it returns normally and leaves the
    new assignment in each of them.  The free-cell discipline is the
    caller's: when the slot loop of [generate_schedule] schedules a
    session, the three cells it commits into were free in the ledgers the
    loop was entered with, which are the ledgers the commit writes to;
    when it schedules none, it has changed no ledger. *)
Theorem commit_overwrites_and_caller_checks :
  (forall course c tn rn d t st v1 v2 v3,
     ledger_get (class_schedule st) c d t = Ok v1 ->
     ledger_get (teacher_schedule st) tn d t = Ok v2 ->
     ledger_get (room_schedule st) rn d t = Ok v3 ->
     exists st',
       _assign_time_slot course c tn rn d t st = Ok (tt, st') /\
       ledger_get (class_schedule st') c d t
       = Ok (Some (mkAssignment (c_name course) tn rn c d t)) /\
       ledger_get (teacher_schedule st') tn d t
       = Ok (Some (mkAssignment (c_name course) tn rn c d t)) /\
       ledger_get (room_schedule st') rn d t
       = Ok (Some (mkAssignment (c_name course) tn rn c d t))) /\
  (forall self course size day ad slots st r st',
     try_time_slots self course size day ad slots st = Ok (r, st') ->
     (fst r = false -> exists rng, st' = set_random rng st) /\
     (fst r = true ->
      exists t name rng st2,
        In t slots /\
        ledger_get (class_schedule st) (c_class course) day t = Ok None /\
        ledger_get (teacher_schedule st) (c_teacher course) day t = Ok None /\
        ledger_get (room_schedule st) name day t = Ok None /\
        _assign_time_slot course (c_class course) (c_teacher course) name day
          t (set_random rng st) = Ok (tt, st2) /\
        count_session course st2 = Ok (tt, st'))).
Proof.
  split.
  - intros course c tn rn d t st v1 v2 v3.
    apply assign_time_slot_defined.
  - intros self course size day ad slots st r st' H.
    apply try_time_slots_entry in H.
    destruct H as [(F & H)|(F & H)]; split; intros E;
      try congruence; exact H.
Qed.

Lemma commit_overwrites_and_caller_checks_witness :
  (exists st',
     commit_monday math (initial_state morning_school []) = Ok (tt, st') /\
     ledger_get (class_schedule st') "Class 9A" "Monday" "08:00-08:50"
     = Ok (Some (mkAssignment "Math" "Ms. Wilson" "Room 101" "Class 9A"
                   "Monday" "08:00-08:50"))) /\
  (exists r st' t name,
     try_time_slots morning_school math 25 "Monday" [] ["08:00-08:50"]
       (initial_state morning_school draws) = Ok (r, st') /\
     fst r = true /\
     In t ["08:00-08:50"] /\
     ledger_get (class_schedule (initial_state morning_school draws))
       "Class 9A" "Monday" t = Ok None /\
     ledger_get (teacher_schedule (initial_state morning_school draws))
       "Ms. Wilson" "Monday" t = Ok None /\
     ledger_get (room_schedule (initial_state morning_school draws))
       name "Monday" t = Ok None).
Proof.
  destruct commit_overwrites_and_caller_checks as [H1 H2]. split.
  - destruct (H1 math "Class 9A" "Ms. Wilson" "Room 101" "Monday"
                "08:00-08:50" (initial_state morning_school []) None None None)
      as (st' & G1 & G2 & _);
      [vm_compute; reflexivity | vm_compute; reflexivity
      | vm_compute; reflexivity |].
    exists st'. split; [exact G1 | exact G2].
  - assert (Hrun : exists r st',
      try_time_slots morning_school math 25 "Monday" [] ["08:00-08:50"]
        (initial_state morning_school draws) = Ok (r, st') /\ fst r = true)
      by (eexists; eexists; split; vm_compute; reflexivity).
    destruct Hrun as (r & st' & Hrun & Htrue).
    destruct (H2 _ _ _ _ _ _ _ _ _ Hrun) as (_ & Hc).
    destruct (Hc Htrue) as (t & name & rng & st2 & Hin & G1 & G2 & G3 & _).
    exists r, st', t, name.
    split; [exact Hrun|]. split; [exact Htrue|]. split; [exact Hin|].
    split; [exact G1|]. split; [exact G2|exact G3].
Defined.

(** C9 fails as stated: committing into an occupied cell raises nothing
    and changes the ledgers.  Monday's first slot of the class holds Math;
    the commit of Art into the same cells returns, and the cell then holds
    Art. *)
Lemma commit_into_occupied_cell :
  exists st1 st2,
    commit_monday math (initial_state morning_school []) = Ok (tt, st1) /\
    ledger_get (class_schedule st1) "Class 9A" "Monday" "08:00-08:50"
    = Ok (Some (mkAssignment "Math" "Ms. Wilson" "Room 101" "Class 9A"
                  "Monday" "08:00-08:50")) /\
    commit_monday art st1 = Ok (tt, st2) /\
    ledger_get (class_schedule st2) "Class 9A" "Monday" "08:00-08:50"
    = Ok (Some (mkAssignment "Art" "Ms. Wilson" "Room 101" "Class 9A"
                  "Monday" "08:00-08:50")) /\
    class_schedule st2 <> class_schedule st1.
Proof.
  eexists. eexists. split; [vm_compute; reflexivity|].
  split; [vm_compute; reflexivity|].
  split; [vm_compute; reflexivity|].
  split; [vm_compute; reflexivity|].
  vm_compute. discriminate.
Qed.

(** ** A grid without slots *)

Lemma set_random_same st : set_random (random st) st = st.
Proof. destruct st. reflexivity. Qed.




Section NoSlots.
Variable self : ScheduleGenerator.
Hypothesis Hempty : time_slots self = [].





End NoSlots.





(** ** One course in one room *)

Lemma flat_mapR_total {A B} (f : A -> result (list B)) (l : list A) :
  (forall x, In x l -> exists ys, f x = Ok ys) ->
  exists r, flat_mapR f l = Ok r.
Proof.
  induction l as [|x l IH]; intros H; simpl; [eauto|].
  destruct (H x) as [ys ->]; [simpl; auto|].
  destruct IH as [zs ->]; [intros; apply H; simpl; auto|]. eauto.
Qed.

Lemma filterR_total {A} (f : A -> result bool) (l : list A) :
  (forall x, In x l -> exists b, f x = Ok b) ->
  exists r, filterR f l = Ok r.
Proof.
  induction l as [|x l IH]; intros H; simpl; [eauto|].
  destruct (H x) as [b ->]; [simpl; auto|].
  destruct IH as [zs ->]; [intros; apply H; simpl; auto|]. eauto.
Qed.

Lemma shuffle_m_singleton {A} (x : A) st : shuffle_m [x] st = Ok ([x], st).
Proof. unfold shuffle_m. simpl. rewrite set_random_same. reflexivity. Qed.

(** Every ledger cell after a commit: the three targeted cells hold the
    new assignment, every other cell is as before. *)
Lemma assign_time_slot_cells course c tn rn d t st st' :
  _assign_time_slot course c tn rn d t st = Ok (tt, st') ->
  let a := mkAssignment (c_name course) tn rn c d t in
  ledger_get (class_schedule st') c d t = Ok (Some a) /\
  ledger_get (teacher_schedule st') tn d t = Ok (Some a) /\
  ledger_get (room_schedule st') rn d t = Ok (Some a) /\
  (forall c' d' t', (c', d', t') <> (c, d, t) ->
     ledger_get (class_schedule st') c' d' t'
     = ledger_get (class_schedule st) c' d' t') /\
  (forall n' d' t', (n', d', t') <> (tn, d, t) ->
     ledger_get (teacher_schedule st') n' d' t'
     = ledger_get (teacher_schedule st) n' d' t') /\
  (forall n' d' t', (n', d', t') <> (rn, d, t) ->
     ledger_get (room_schedule st') n' d' t'
     = ledger_get (room_schedule st) n' d' t') /\
  Dict.keys (class_schedule st') = Dict.keys (class_schedule st).
Proof.
  unfold _assign_time_slot.
  set (a := mkAssignment (c_name course) tn rn c d t).
  destruct (ledger_set (class_schedule st) c d t a) as [cs|] eqn:Ec;
    [|discriminate].
  destruct (ledger_set (teacher_schedule st) tn d t a) as [ts|] eqn:Et;
    [|discriminate].
  destruct (ledger_set (room_schedule st) rn d t a) as [rs|] eqn:Er;
    [|discriminate].
  intros [= <-]. simpl.
  split; [eapply ledger_set_get_eq; eassumption|].
  split; [eapply ledger_set_get_eq; eassumption|].
  split; [eapply ledger_set_get_eq; eassumption|].
  split; [intros; eapply ledger_set_get_ne; eassumption|].
  split; [intros; eapply ledger_set_get_ne; eassumption|].
  split; [intros; eapply ledger_set_get_ne; eassumption|].
  eapply ledger_set_keys; eassumption.
Qed.

Lemma unused_day_exists (ad candidates : list string) :
  NoDup candidates -> (List.length ad < List.length candidates)%nat ->
  exists d, In d candidates /\ ~ In d ad.
Proof.
  intros Hnd Hlen.
  assert (Hdec : (exists d, In d candidates /\ ~ In d ad)
                 \/ incl candidates ad).
  { clear. induction candidates as [|d l IH].
    - right. intros x [].
    - destruct (in_dec string_dec d ad) as [Hin|Hout].
      + destruct IH as [(x & ? & ?)|Hincl].
        * left. exists x. simpl. auto.
        * right. intros x [<-|Hx]; auto.
      + left. exists d. simpl. auto. }
  destruct Hdec as [?|Hincl]; [assumption|].
  pose proof (NoDup_incl_length Hnd Hincl). lia.
Qed.

Lemma days_add_fresh day ad : ~ In day ad -> days_add day ad = ad ++ [day].
Proof.
  intros Hn. unfold days_add.
  destruct (existsb (String.eqb day) ad) eqn:E; [|reflexivity].
  apply existsb_eqb_In in E. contradiction.
Qed.

Lemma single_course_inv_random self course rn ad committed st rng :
  single_course_inv self course rn ad committed st ->
  single_course_inv self course rn ad committed (set_random rng st).
Proof.
  intros [H1 H2 H3 H4 H5 H6 H7 H8 H9 H10 H11].
  constructor; try assumption. apply set_random_ok. assumption.
Qed.

Lemma flat_mapR_Ok_inv {A B} (f : A -> result (list B)) : forall l r x,
  flat_mapR f l = Ok r -> In x l -> exists ys, f x = Ok ys /\ incl ys r.
Proof.
  intros l r x H Hin. destruct (f x) as [ys|e] eqn:E.
  - exists ys. split; [reflexivity|]. intros y Hy.
    apply (flat_mapR_In f l r H). eauto.
  - exfalso. revert r H. induction l as [|x0 l IH]; intros r H; [destruct Hin|].
    simpl in H. destruct Hin as [->|Hin].
    + rewrite E in H. discriminate.
    + destruct (f x0); [|discriminate].
      destruct (flat_mapR f l) as [zs|]; [|discriminate]. eauto.
Qed.

(** Every occupied cell of the class ledger is collected. *)
Lemma collect_schedule_complete self st schedule c d t a :
  collect_schedule self st = Ok schedule ->
  In c (Dict.keys (class_schedule st)) -> In d (days self) ->
  In t (time_slots self) ->
  ledger_get (class_schedule st) c d t = Ok (Some a) -> In a schedule.
Proof.
  intros H Hc Hd Ht Hg. unfold collect_schedule in H.
  destruct (flat_mapR_Ok_inv _ _ _ c H Hc) as (ys & H1 & I1).
  destruct (flat_mapR_Ok_inv _ _ _ d H1 Hd) as (zs & H2 & I2).
  destruct (flat_mapR_Ok_inv _ _ _ t H2 Ht) as (ws & H3 & I3).
  unfold cell_assignments in H3. rewrite Hg in H3. injection H3 as <-.
  apply I1, I2, I3. simpl. auto.
Qed.

Section SingleCourse.
Variables (self : ScheduleGenerator) (course : Course) (room : Room)
          (cl : SchoolClass).
Hypothesis Hrooms : rooms self = [room].
Hypothesis Hclasses : classes self = [cl].
Hypothesis Hclass : c_class course = cl_name cl.
Hypothesis Hfit : cl_size cl <= r_capacity room.
Hypothesis Hname : r_name room <> EmptyString.
Hypothesis Hdays : days self = weekdays.

Local Abbreviation size := (_get_class_size self (c_class course)).
Local Abbreviation inv := (single_course_inv self course (r_name room)).

Lemma single_course_size : size = cl_size cl.
Proof.
  unfold size, _get_class_size. rewrite Hclasses, Hclass. simpl.
  rewrite String.eqb_refl. reflexivity.
Qed.

Lemma find_only_room d t st :
  ledger_get (room_schedule st) (r_name room) d t = Ok None ->
  _find_available_room self size d t st = Ok (Some (r_name room), st).
Proof.
  intros Hfree. unfold _find_available_room, bind.
  rewrite Hrooms, single_course_size. simpl.
  destruct (Z.leb_spec (cl_size cl) (r_capacity room)); [|lia].
  rewrite shuffle_m_singleton. unfold lift. simpl. rewrite Hfree.
  reflexivity.
Qed.

Lemma commit_fresh_day ad committed st d t rest :
  inv ad committed st ->
  In d (days self) -> ~ In d ad -> In t (time_slots self) ->
  exists st',
    try_time_slots self course size d ad (t :: rest) st
    = Ok ((true, ad ++ [d]), st') /\
    inv (ad ++ [d])
      (committed ++ [mkAssignment (c_name course) (c_teacher course)
                       (r_name room) (c_class course) d t]) st'.
Proof.
  intros J Hd Hfresh Ht.
  destruct (sc_free _ _ _ _ _ _ J d t Hd Ht Hfresh) as (Fc & Ft & Fr).
  cbn [try_time_slots]. unfold bind at 1. rewrite (find_only_room d t st Fr).
  assert (Htruthy : str_truthy (r_name room) = true)
    by (destruct (r_name room); [contradiction | reflexivity]).
  rewrite Htruthy. unfold bind at 1.
  unfold _is_slot_available, lift. rewrite Fc, Ft, Fr.
  destruct (assign_time_slot_defined course
              (c_class course) (c_teacher course) (r_name room) d t st
              None None None Fc Ft Fr) as (st1 & Ha & _).
  unfold bind at 1. rewrite Ha.
  pose proof (assign_time_slot_cells _ _ _ _ _ _ _ _ Ha) as Hcells.
  cbv zeta in Hcells.
  set (a := mkAssignment (c_name course) (c_teacher course) (r_name room)
              (c_class course) d t) in *.
  destruct Hcells as (Nc & Nt & Nr & Oc & Ot & Or & Hk).
  assert (Hok1 : ledgers_ok self st1 /\
                 course_sessions st1 = course_sessions st /\
                 conflicts st1 = conflicts st).
  { eapply assign_time_slot_ok; try eassumption.
    - exact (sc_ok _ _ _ _ _ _ J).
    - exists room. rewrite Hrooms. split; [simpl; auto|].
      split; [reflexivity|]. fold size. rewrite single_course_size.
      assumption. }
  destruct Hok1 as (Hok1 & Hcs1 & Hcf1).
  unfold bind at 1. unfold count_session.
  rewrite Hcs1, (sc_tally _ _ _ _ _ _ J). cbn [Dict.get Dict.set].
  assert (Hkk : key_eqb (course_key course) (course_key course) = true)
    by apply key_eqb_refl.
  rewrite Hkk. unfold ret. rewrite (days_add_fresh d ad Hfresh).
  eexists. split; [reflexivity|].
  destruct J as [J1 [J2a J2b] J3 J4 J5 J6 J7 J8 J9 J10 J11].
  constructor; cbn [class_schedule teacher_schedule room_schedule
                      course_sessions conflicts].
  - destruct Hok1 as [K1 K2 K3 K4 K5]. constructor; assumption.
  - split.
    + apply NoDup_app; [assumption | repeat constructor; simpl; tauto|].
      intros x Hx [<-|[]]. contradiction.
    + intros x Hx. apply in_app_iff in Hx. destruct Hx as [Hx|[<-|[]]]; auto.
  - rewrite map_app, J3. reflexivity.
  - intros a' Ha'. apply in_app_iff in Ha'.
    destruct Ha' as [Ha'|[<-|[]]]; auto.
  - intros c' d' t' a' Hg. apply in_app_iff.
    destruct (String.eqb_spec c' (c_class course)) as [->|Hn1];
      [destruct (String.eqb_spec d' d) as [->|Hn2];
       [destruct (String.eqb_spec t' t) as [->|Hn3]|]|].
    + right. rewrite Nc in Hg. injection Hg as <-. simpl. auto.
    + left. rewrite Oc in Hg by congruence. eauto.
    + left. rewrite Oc in Hg by congruence. eauto.
    + left. rewrite Oc in Hg by congruence. eauto.
  - intros a' Ha'. apply in_app_iff in Ha'.
    destruct Ha' as [Ha'|[<-|[]]]; [|exact Nc].
    rewrite Oc; [auto|].
    intros [= E1 E2 E3]. apply Hfresh. rewrite <- E2, <- J3.
    apply in_map. assumption.
  - intros d' t' Hd' Ht'.
    destruct (J7 d' t' Hd' Ht') as ((v1 & G1) & (v2 & G2) & (v3 & G3)).
    destruct (String.eqb_spec d' d) as [->|Hn2];
      [destruct (String.eqb_spec t' t) as [->|Hn3]|].
    + rewrite Nc, Nt, Nr. repeat split; eexists; reflexivity.
    + rewrite Oc, Ot, Or by congruence. eauto.
    + rewrite Oc, Ot, Or by congruence. eauto.
  - intros d' t' Hd' Ht' Hfresh'.
    rewrite in_app_iff in Hfresh'. simpl in Hfresh'.
    assert (d' <> d) by (intros ->; tauto).
    rewrite Oc, Ot, Or by congruence. apply J8; tauto.
  - rewrite length_app. simpl. f_equal. f_equal. lia.
  - congruence.
  - congruence.
Qed.

Hypothesis Hslots : time_slots self <> [].

Lemma try_days_fresh : forall candidates ad committed st,
  inv ad committed st -> (List.length ad < 5)%nat ->
  incl candidates (days self) ->
  (exists d, In d candidates /\ ~ In d ad) ->
  exists d a st',
    try_days self course size ad candidates st
    = Ok ((true, ad ++ [d]), st') /\
    inv (ad ++ [d]) (committed ++ [a]) st'.
Proof.
  induction candidates as [|day rest IH];
    intros ad committed st J Hlen Hincl (d & Hd & Hfresh); [destruct Hd|].
  cbn [try_days]. unfold skip_day. rewrite Hdays.
  change (List.length weekdays) with 5%nat.
  destruct (in_dec string_dec day ad) as [Hused|Hunused].
  - rewrite (proj2 (existsb_eqb_In day ad) Hused).
    rewrite (proj2 (Nat.ltb_lt _ _) Hlen). cbn [andb].
    apply IH; try assumption.
    + intros x Hx. apply Hincl. simpl. auto.
    + exists d. split; [|assumption].
      destruct Hd as [<-|Hd]; [contradiction | assumption].
  - assert (Hex : existsb (String.eqb day) ad = false).
    { destruct (existsb (String.eqb day) ad) eqn:E; [|reflexivity].
      apply existsb_eqb_In in E. contradiction. }
    rewrite Hex. cbn [andb]. unfold bind at 1.
    destruct (shuffle_m (time_slots self) st) as [[slots st0]|] eqn:Es;
      [|unfold shuffle_m in Es;
        destruct (shuffle (time_slots self) (random st)); discriminate].
    apply shuffle_m_inv in Es. destruct Es as (Hp & rng & ->).
    destruct slots as [|t slots'];
      [apply Permutation_nil in Hp; contradiction|].
    destruct (commit_fresh_day ad committed (set_random rng st) day t slots')
      as (st' & Ht & J'); auto.
    + apply single_course_inv_random. assumption.
    + apply Hincl. simpl. auto.
    + apply (Permutation_in _ Hp). simpl. auto.
    + unfold bind at 1. rewrite Ht. cbn [fst]. unfold ret. eauto.
Qed.

Lemma schedule_sessions_fresh : forall n ad committed st,
  inv ad committed st -> (List.length ad + n <= 5)%nat ->
  exists ad' committed' st',
    schedule_sessions self course size ad n st = Ok (tt, st') /\
    inv ad' committed' st' /\
    List.length ad' = (List.length ad + n)%nat.
Proof.
  induction n as [|n IH]; intros ad committed st J Hlen.
  - exists ad, committed, st. split; [reflexivity|]. split; [assumption|lia].
  - cbn [schedule_sessions]. unfold bind at 1.
    destruct (shuffle_m (days self) st) as [[candidates st0]|] eqn:Es;
      [|unfold shuffle_m in Es;
        destruct (shuffle (days self) (random st)); discriminate].
    apply shuffle_m_inv in Es. destruct Es as (Hp & rng & ->).
    rewrite Hdays in Hp.
    destruct (try_days_fresh candidates ad committed (set_random rng st))
      as (d & a & st1 & Ht & J1).
    + apply single_course_inv_random. assumption.
    + lia.
    + rewrite Hdays. intros x Hx. apply (Permutation_in _ Hp). assumption.
    + apply unused_day_exists.
      * apply (Permutation_NoDup (Permutation_sym Hp)), weekdays_NoDup.
      * rewrite (Permutation_length Hp). change (List.length weekdays) with 5%nat.
        lia.
    + unfold bind at 1. rewrite Ht. cbn [fst snd]. unfold bind at 1. unfold ret.
      destruct (IH (ad ++ [d]) (committed ++ [a]) st1 J1)
        as (ad' & committed' & st' & Hrun & J' & Hlen').
      * rewrite length_app. simpl. lia.
      * exists ad', committed', st'. split; [assumption|].
        split; [assumption|]. rewrite Hlen', length_app. simpl. lia.
Qed.

Hypothesis Hteacher : In (c_teacher course) (map t_name (teachers self)).
Hypothesis Hcourses : courses self = [course].
Hypothesis Hfive : c_frequency course = 5%nat.
Hypothesis Hnodup : NoDup (time_slots self).

Lemma initial_single_course_inv rng : inv [] [] (initial_state self rng).
Proof.
  assert (Hcell : forall d t, In d (days self) -> In t (time_slots self) ->
    ledger_get (class_schedule (initial_state self rng)) (c_class course) d t
    = Ok None /\
    ledger_get (teacher_schedule (initial_state self rng)) (c_teacher course)
      d t = Ok None /\
    ledger_get (room_schedule (initial_state self rng)) (r_name room) d t
    = Ok None).
  { intros d t Hd Ht. cbn [initial_state class_schedule teacher_schedule
                             room_schedule].
    rewrite !new_ledger_get.
    rewrite (proj2 (existsb_eqb_In d (days self)) Hd).
    rewrite (proj2 (existsb_eqb_In t (time_slots self)) Ht).
    rewrite (proj2 (existsb_eqb_In _ _) Hteacher).
    rewrite Hclasses, Hrooms, Hclass. cbn [map existsb].
    rewrite !String.eqb_refl. auto. }
  constructor.
  - apply initial_state_ok.
  - split; [constructor | intros x []].
  - reflexivity.
  - intros a [].
  - intros c d t a. cbn [initial_state class_schedule].
    rewrite new_ledger_get. destruct (_ && _); discriminate.
  - intros a [].
  - intros d t Hd Ht. destruct (Hcell d t Hd Ht) as (-> & -> & ->).
    repeat split; eexists; reflexivity.
  - intros d t Hd Ht _. apply Hcell; assumption.
  - cbn [initial_state course_sessions]. rewrite Hcourses. reflexivity.
  - reflexivity.
  - cbn [initial_state class_schedule]. rewrite Hclasses, Hclass.
    reflexivity.
Qed.

Lemma single_course_first_pass rng :
  exists ad committed st,
    run_first_pass self rng = Ok st /\ inv ad committed st /\
    List.length ad = 5%nat.
Proof.
  destruct (schedule_sessions_fresh 5 [] [] (initial_state self rng)
              (initial_single_course_inv rng)) as (ad & committed & st & Hrun & J & Hlen);
    [simpl; lia|].
  exists ad, committed, st. split; [|split; assumption].
  unfold run_first_pass. rewrite Hcourses. cbn [sorted_courses fold_right
    insert_course first_pass]. unfold bind.
  rewrite Hfive. fold size. rewrite Hrun. reflexivity.
Qed.

Lemma single_course_audit ad committed st :
  inv ad committed st -> List.length ad = 5%nat ->
  exists schedule,
    audit self st = Ok (schedule, []) /\ Permutation schedule committed.
Proof.
  intros J Hlen.
  assert (Hcell : forall c d t, In c (Dict.keys (class_schedule st)) ->
    In d (days self) -> In t (time_slots self) ->
    exists v, ledger_get (class_schedule st) c d t = Ok v).
  { intros c d t Hc Hd Ht. rewrite (sc_keys _ _ _ _ _ _ J) in Hc.
    destruct Hc as [<-|[]]. apply (sc_defined _ _ _ _ _ _ J); assumption. }
  assert (Hcol : exists schedule, collect_schedule self st = Ok schedule).
  { apply flat_mapR_total. intros c Hc.
    apply flat_mapR_total. intros d Hd.
    apply flat_mapR_total. intros t Ht. unfold cell_assignments.
    destruct (Hcell c d t Hc Hd Ht) as [[a|] ->]; eauto. }
  assert (Hscan : forall names field report,
    exists r, conflict_scan self st names field report = Ok r).
  { intros names field report.
    apply flat_mapR_total. intros name _.
    apply flat_mapR_total. intros d Hd.
    apply flat_mapR_total. intros t Ht.
    assert (Hf : exists cs, classes_at_time st field name d t = Ok cs).
    { apply filterR_total. intros c Hc.
      destruct (Hcell c d t Hc Hd Ht) as [[a|] ->]; eauto. }
    destruct Hf as [cs ->]. eauto. }
  pose proof (sc_ok _ _ _ _ _ _ J) as Hok.
  destruct Hcol as [schedule Hcol]. exists schedule.
  assert (Haudit : exists cfs, audit self st = Ok (schedule, cfs)).
  { unfold audit. rewrite Hcol.
    destruct (Hscan (Dict.keys (teacher_schedule st)) a_teacher
                teacher_conflict) as [tcs ->].
    destruct (Hscan (Dict.keys (room_schedule st)) a_room room_conflict)
      as [rcs ->]. eauto. }
  destruct Haudit as [cfs Haudit]. rewrite Haudit.
  destruct (audit_inv self st Hok schedule cfs Haudit) as [_ ->].
  split.
  - do 2 f_equal. rewrite (sc_conflicts _ _ _ _ _ _ J). simpl.
    unfold frequency_scan, Dict.items. rewrite (sc_tally _ _ _ _ _ _ J).
    cbn [flat_map fst snd]. rewrite Hcourses. cbn [required_frequency].
    unfold course_key. cbn [fst snd]. rewrite !String.eqb_refl. cbn [andb].
    rewrite Hlen, Hfive. reflexivity.
  - apply NoDup_Permutation.
    + eapply NoDup_map_inv.
      apply (collect_schedule_NoDup self st Hok schedule); auto.
      rewrite Hdays. apply weekdays_NoDup.
    + eapply NoDup_map_inv. rewrite (sc_committed_days _ _ _ _ _ _ J).
      apply (sc_days _ _ _ _ _ _ J).
    + intros a. split.
      * intros Hin.
        destruct (collect_schedule_In self st schedule a Hcol Hin)
          as (c & d & t & G).
        eapply (sc_sound _ _ _ _ _ _ J); eassumption.
      * intros Hin.
        pose proof (sc_complete _ _ _ _ _ _ J a Hin) as G.
        eapply collect_schedule_complete; try eassumption.
        -- eapply ledger_get_key; eassumption.
        -- apply (sc_days _ _ _ _ _ _ J).
           rewrite <- (sc_committed_days _ _ _ _ _ _ J).
           apply in_map. assumption.
        -- apply (sc_committed_slots _ _ _ _ _ _ J). assumption.
Qed.

Lemma single_course_schedule rng :
  exists schedule,
    generate_schedule self rng = Ok (schedule, []) /\
    fulfilled_sessions self rng course = Some 5%nat /\
    List.length schedule = 5%nat /\
    NoDup (map a_day schedule) /\
    incl (map a_day schedule) weekdays.
Proof.
  destruct (single_course_first_pass rng) as (ad & committed & st & Hrun & J & Hlen).
  destruct (single_course_audit ad committed st J Hlen) as (schedule & Ha & Hp).
  exists schedule. unfold generate_schedule, fulfilled_sessions.
  rewrite Hrun. split; [assumption|].
  pose proof (Permutation_map a_day Hp) as Hpd.
  rewrite (sc_committed_days _ _ _ _ _ _ J) in Hpd.
  split; [|split; [|split]].
  - rewrite (sc_tally _ _ _ _ _ _ J). cbn [Dict.get].
    assert (Hkk : key_eqb (course_key course) (course_key course) = true)
      by apply key_eqb_refl.
    rewrite Hkk, Hlen. reflexivity.
  - rewrite <- (length_map a_day), (Permutation_length Hpd). assumption.
  - apply (Permutation_NoDup (Permutation_sym Hpd)), (sc_days _ _ _ _ _ _ J).
  - intros d Hd. rewrite <- Hdays. apply (sc_days _ _ _ _ _ _ J).
    apply (Permutation_in _ Hpd). assumption.
Qed.
End SingleCourse.

(** C4.  One teacher, one room of capacity 30, one class of size 25 and
    one course of frequency 5 taught by that teacher to that class, the
    room having a non-empty name, on the five weekdays with at least five
    slots a day: whatever the random generator draws, [generate_schedule]
    returns, the tally of the course is 5, there is no conflict record,
    and the schedule holds exactly 5 assignments, on 5 distinct
    weekdays. *)
Theorem single_course_fills_the_week :
  forall fuel teacher room cl course g self rng,
    grid_in_range g ->
    __init__ fuel [teacher] [room] [cl] [course] g = Some self ->
    (5 <= List.length (time_slots self))%nat ->
    r_capacity room = 30 -> cl_size cl = 25 ->
    c_frequency course = 5%nat ->
    c_class course = cl_name cl -> c_teacher course = t_name teacher ->
    r_name room <> EmptyString ->
    exists schedule,
      generate_schedule self rng = Ok (schedule, []) /\
      fulfilled_sessions self rng course = Some 5%nat /\
      List.length schedule = 5%nat /\
      NoDup (map a_day schedule) /\
      incl (map a_day schedule) weekdays.
Proof.
  intros fuel teacher room cl course g self rng Hv Hinit Hlen Hcap Hsize
    Hfreq Hclass Hteacher Hname.
  destruct (init_NoDup _ _ _ _ _ _ _ Hv Hinit) as [_ Hnd].
  apply init_inv in Hinit. destruct Hinit as [Hself _].
  apply (single_course_schedule self course room cl);
    try (rewrite Hself; reflexivity); try assumption.
  - lia.
  - intros E. rewrite E in Hlen. simpl in Hlen. lia.
  - rewrite Hself. simpl. auto.
Qed.

Lemma single_course_fills_the_week_witness :
  exists schedule,
    generate_schedule full_school draws = Ok (schedule, []) /\
    fulfilled_sessions full_school draws math = Some 5%nat /\
    List.length schedule = 5%nat /\
    NoDup (map a_day schedule) /\
    incl (map a_day schedule) weekdays.
Proof.
  apply (single_course_fills_the_week 300 (mkTeacher "Ms. Wilson")
           (mkRoom "Room 101" 30) (mkClass "Class 9A" 25) math school_day
           full_school draws).
  - unfold grid_in_range, steps_positive, valid_time, lunch_enabled; simpl.
    repeat split; try lia; vm_compute; congruence.
  - vm_compute. reflexivity.
  - vm_compute. lia.
  - reflexivity.
  - reflexivity.
  - reflexivity.
  - reflexivity.
  - reflexivity.
  - discriminate.
Defined.

Example sample_generators :
  one_course morning 300 = Some morning_school /\
  one_course school_day 300 = Some full_school /\
  __init__ 300 [mkTeacher "Ms. Wilson"] [mkRoom "Room 101" 30]
    [mkClass "Class 9A" 25] [math_six] school_day = Some six_school.
Proof. repeat split; vm_compute; reflexivity. Qed.

Lemma morning_in_range : grid_in_range morning.
Proof.
  unfold grid_in_range, steps_positive, valid_time, lunch_enabled; simpl.
  repeat split; try lia; vm_compute; congruence.
Defined.

Lemma small_school_init :
  __init__ 300 small_teachers small_rooms small_classes small_courses morning
  = Some small_school.
Proof. vm_compute. reflexivity. Defined.

Lemma generate_schedule_no_double_booking_witness :
  exists schedule cfs,
    generate_schedule small_school draws = Ok (schedule, cfs) /\
    (forall i j a b,
       nth_error schedule i = Some a -> nth_error schedule j = Some b ->
       a_day a = a_day b -> a_time a = a_time b ->
       a_class a = a_class b \/ a_teacher a = a_teacher b \/
       a_room a = a_room b ->
       i = j) /\
    (forall k, In k cfs ->
       k_type k <> "Teacher Conflict" /\ k_type k <> "Room Conflict").
Proof.
  eexists. eexists. split; [vm_compute; reflexivity|].
  apply (generate_schedule_no_double_booking 300 small_teachers small_rooms
           small_classes small_courses morning small_school draws).
  - exact morning_in_range.
  - exact small_school_init.
  - vm_compute. reflexivity.
Defined.

Lemma fulfilled_sessions_bounded_witness :
  exists schedule cfs,
    generate_schedule crowded_school draws = Ok (schedule, cfs) /\
    fulfilled_sessions crowded_school draws math = Some 5%nat /\
    fulfilled_sessions crowded_school draws art = Some 0%nat /\
    In (mkConflict "Frequency Not Met" "N/A" "N/A"
          "Course Art (Class: Class 9A) was scheduled for 0/2 required sessions")
       cfs.
Proof.
  assert (Hrun : exists schedule cfs,
            generate_schedule crowded_school draws = Ok (schedule, cfs))
    by (eexists; eexists; vm_compute; reflexivity).
  destruct Hrun as (schedule & cfs & Hrun).
  destruct (fulfilled_sessions_bounded 300 [mkTeacher "Ms. Wilson"]
              [mkRoom "Room 101" 30] [mkClass "Class 9A" 25] [math; art]
              one_slot crowded_school draws schedule cfs art)
    as (n & Hn & _ & Hshort).
  - vm_compute. reflexivity.
  - vm_compute. repeat constructor; simpl; intuition discriminate.
  - exact Hrun.
  - simpl. auto.
  - assert (E : fulfilled_sessions crowded_school draws art = Some 0%nat)
      by (vm_compute; reflexivity).
    rewrite E in Hn. injection Hn as <-.
    exists schedule, cfs. split; [exact Hrun|].
    split; [vm_compute; reflexivity|]. split; [exact E|].
    apply Hshort. simpl. lia.
Defined.

Lemma assigned_room_fits_class_witness :
  exists schedule cfs,
    generate_schedule small_school draws = Ok (schedule, cfs) /\
    forall a, In a schedule ->
      exists room cl,
        In room small_rooms /\ r_name room = a_room a /\
        In cl small_classes /\ cl_name cl = a_class a /\
        _get_class_size small_school (a_class a) = cl_size cl /\
        cl_size cl <= r_capacity room.
Proof.
  assert (Hrun : exists schedule cfs,
            generate_schedule small_school draws = Ok (schedule, cfs))
    by (eexists; eexists; vm_compute; reflexivity).
  destruct Hrun as (schedule & cfs & Hrun).
  exists schedule, cfs. split; [exact Hrun|]. intros a Hin.
  apply (assigned_room_fits_class 300 small_teachers small_rooms
           small_classes small_courses morning small_school draws schedule
           cfs a).
  - exact small_school_init.
  - intros course [<-|[<-|[<-|[]]]]; simpl; auto.
  - exact Hrun.
  - exact Hin.
Defined.

(** ** The run raises nothing when every reference resolves *)

Lemma ledger_set_keeps_cells l n d t a l' n' d' t' v :
  ledger_set l n d t a = Ok l' -> ledger_get l n' d' t' = Ok v ->
  exists v', ledger_get l' n' d' t' = Ok v'.
Proof.
  intros Hs Hg.
  destruct (String.eqb_spec n' n) as [->|Hn1];
    [destruct (String.eqb_spec d' d) as [->|Hn2];
     [destruct (String.eqb_spec t' t) as [->|Hn3]|]|].
  - rewrite (ledger_set_get_eq _ _ _ _ _ _ Hs). eauto.
  - rewrite (ledger_set_get_ne _ _ _ _ _ _ _ _ _ Hs) by congruence. eauto.
  - rewrite (ledger_set_get_ne _ _ _ _ _ _ _ _ _ Hs) by congruence. eauto.
  - rewrite (ledger_set_get_ne _ _ _ _ _ _ _ _ _ Hs) by congruence. eauto.
Qed.

Lemma ledgers_defined_random self rng st :
  ledgers_defined self st -> ledgers_defined self (set_random rng st).
Proof. intros [H1 H2 H3 H4]. constructor; assumption. Qed.

Lemma assign_time_slot_keeps_defined self course c tn rn d t st st' :
  ledgers_defined self st ->
  _assign_time_slot course c tn rn d t st = Ok (tt, st') ->
  ledgers_defined self st'.
Proof.
  intros [H1 H2 H3 H4]. unfold _assign_time_slot.
  set (a := mkAssignment (c_name course) tn rn c d t).
  destruct (ledger_set (class_schedule st) c d t a) as [cs|] eqn:Ec;
    [|discriminate].
  destruct (ledger_set (teacher_schedule st) tn d t a) as [ts|] eqn:Et;
    [|discriminate].
  destruct (ledger_set (room_schedule st) rn d t a) as [rs|] eqn:Er;
    [|discriminate].
  intros [= <-]. constructor; simpl.
  - intros n d' t' Hn Hd Ht. destruct (H1 n d' t' Hn Hd Ht) as [v Hv].
    eapply ledger_set_keeps_cells; eassumption.
  - intros n d' t' Hn Hd Ht. destruct (H2 n d' t' Hn Hd Ht) as [v Hv].
    eapply ledger_set_keeps_cells; eassumption.
  - intros n d' t' Hn Hd Ht. destruct (H3 n d' t' Hn Hd Ht) as [v Hv].
    eapply ledger_set_keeps_cells; eassumption.
  - assumption.
Qed.

Lemma count_session_total self course st :
  ledgers_defined self st -> In course (courses self) ->
  exists st', count_session course st = Ok (tt, st') /\
              ledgers_defined self st'.
Proof.
  intros [H1 H2 H3 H4] Hin. unfold count_session.
  destruct (H4 course Hin) as [n ->]. eexists. split; [reflexivity|].
  constructor; simpl; try assumption.
  intros c Hc. destruct (H4 c Hc) as [m Hm].
  destruct (key_eqb (course_key course) (course_key c)) eqn:E.
  - apply key_eqb_eq in E. rewrite <- E, get_set_eq. eauto.
  - rewrite get_set_ne; [eauto|]. intros E'. apply key_eqb_eq in E'.
    congruence.
Qed.

Lemma first_free_room_total l d t rs :
  (forall room, In room rs -> exists v, ledger_get l (r_name room) d t = Ok v) ->
  exists o, first_free_room l d t rs = Ok o.
Proof.
  induction rs as [|room rs IH]; intros H; simpl; [eauto|].
  destruct (H room) as [[a|] ->]; [simpl; auto| |eauto].
  apply IH. intros r Hr. apply H. simpl. auto.
Qed.

Lemma find_available_room_total self size d t st :
  ledgers_defined self st -> In d (days self) -> In t (time_slots self) ->
  exists o rng,
    _find_available_room self size d t st = Ok (o, set_random rng st).
Proof.
  intros Hdef Hd Ht. unfold _find_available_room, bind, shuffle_m.
  pose proof (shuffle_perm
                (filter (fun room => size <=? r_capacity room) (rooms self))
                (random st)) as Hp.
  destruct (shuffle _ (random st)) as [rs rng]. simpl in Hp. unfold lift.
  destruct (first_free_room_total (room_schedule (set_random rng st)) d t rs)
    as [o Ho].
  - intros room Hr. apply (Permutation_in _ Hp), filter_In in Hr.
    apply (def_room _ _ Hdef); [apply in_map; tauto | assumption | assumption].
  - rewrite Ho. eauto.
Qed.

Lemma is_slot_available_total c tn rn d t st v1 v2 v3 :
  ledger_get (class_schedule st) c d t = Ok v1 ->
  ledger_get (teacher_schedule st) tn d t = Ok v2 ->
  ledger_get (room_schedule st) rn d t = Ok v3 ->
  exists b, _is_slot_available c tn rn d t st = Ok (b, st).
Proof.
  intros H1 H2 H3. unfold _is_slot_available, lift. rewrite H1, H2, H3.
  destruct v1; [eauto|]. destruct v2; [eauto|]. destruct v3; eauto.
Qed.

Section Total.
Variable self : ScheduleGenerator.
Variable course : Course.
Hypothesis Hcourse : In course (courses self).
Hypothesis Hclass : In (c_class course) (map cl_name (classes self)).
Hypothesis Hteacher : In (c_teacher course) (map t_name (teachers self)).

Local Abbreviation size := (_get_class_size self (c_class course)).

Lemma try_time_slots_total day : forall slots ad st,
  ledgers_ok self st -> ledgers_defined self st ->
  In day (days self) -> incl slots (time_slots self) ->
  exists r st',
    try_time_slots self course size day ad slots st = Ok (r, st') /\
    ledgers_defined self st'.
Proof.
  induction slots as [|t slots IH]; intros ad st Hok Hdef Hd Hincl.
  - exists (false, ad), st. split; [reflexivity | assumption].
  - assert (Ht : In t (time_slots self)) by (apply Hincl; simpl; auto).
    assert (Hincl' : incl slots (time_slots self))
      by (intros x Hx; apply Hincl; simpl; auto).
    cbn [try_time_slots].
    destruct (find_available_room_total self size day t st Hdef Hd Ht)
      as (o & rng & Hfind).
    unfold bind at 1. rewrite Hfind.
    pose proof (set_random_ok self rng st Hok) as Hok1.
    pose proof (ledgers_defined_random self rng st Hdef) as Hdef1.
    destruct (IH ad (set_random rng st) Hok1 Hdef1 Hd Hincl')
      as (r & st' & Hrec & Hdef').
    destruct o as [name|];
      [|unfold bind at 1, ret; exists r, st'; split; assumption].
    destruct (str_truthy name);
      [|unfold bind at 1, ret; exists r, st'; split; assumption].
    destruct (proj2 (find_available_room_inv _ _ _ _ _ _ _ Hfind) name eq_refl)
      as (room & Hroom & Hrn & Hcap & Hfree).
    destruct (def_class _ _ Hdef1 _ day t Hclass Hd Ht) as [v1 G1].
    destruct (def_teacher _ _ Hdef1 _ day t Hteacher Hd Ht) as [v2 G2].
    destruct (is_slot_available_total _ _ _ _ _ _ _ _ _ G1 G2 Hfree)
      as [b Hav].
    unfold bind at 1. rewrite Hav.
    destruct b; [|exists r, st'; split; assumption].
    destruct (proj2 (is_slot_available_inv _ _ _ _ _ _ _ _ Hav) eq_refl)
      as (F1 & F2 & F3).
    destruct (assign_time_slot_defined course (c_class course)
                (c_teacher course) name day t _ _ _ _ F1 F2 F3)
      as (st2 & Ha & _).
    unfold bind at 1. rewrite Ha.
    pose proof (assign_time_slot_keeps_defined self _ _ _ _ _ _ _ _ Hdef1 Ha)
      as Hdef2.
    destruct (count_session_total self course st2 Hdef2 Hcourse)
      as (st3 & Hc & Hdef3).
    unfold bind at 1. rewrite Hc. unfold ret. eauto.
Qed.

Lemma try_days_total : forall candidates ad st,
  ledgers_ok self st -> ledgers_defined self st ->
  incl candidates (days self) ->
  exists r st',
    try_days self course size ad candidates st = Ok (r, st') /\
    ledgers_ok self st' /\ ledgers_defined self st'.
Proof.
  induction candidates as [|day rest IH]; intros ad st Hok Hdef Hincl.
  - exists (false, ad), st. split; [reflexivity|]. split; assumption.
  - assert (Hincl' : incl rest (days self))
      by (intros x Hx; apply Hincl; simpl; auto).
    cbn [try_days]. destruct (skip_day self day ad); [apply IH; assumption|].
    unfold bind at 1.
    destruct (shuffle_m (time_slots self) st) as [[slots st0]|] eqn:Es;
      [|unfold shuffle_m in Es;
        destruct (shuffle (time_slots self) (random st)); discriminate].
    apply shuffle_m_inv in Es. destruct Es as (Hp & rng & ->).
    pose proof (set_random_ok self rng st Hok) as Hok1.
    pose proof (ledgers_defined_random self rng st Hdef) as Hdef1.
    destruct (try_time_slots_total day slots ad (set_random rng st) Hok1 Hdef1)
      as (r & st1 & Hrun & Hdef2).
    + apply Hincl. simpl. auto.
    + intros x Hx. apply (Permutation_in _ Hp). assumption.
    + unfold bind at 1. rewrite Hrun.
      destruct (try_time_slots_ok self course day _ _ _ _ _ Hok1 Hrun)
        as [Hok2 _].
      destruct (fst r); [unfold ret; eauto|]. apply IH; assumption.
Qed.

Lemma schedule_sessions_total : forall n ad st,
  ledgers_ok self st -> ledgers_defined self st ->
  exists st',
    schedule_sessions self course size ad n st = Ok (tt, st') /\
    ledgers_ok self st' /\ ledgers_defined self st'.
Proof.
  induction n as [|n IH]; intros ad st Hok Hdef.
  - exists st. split; [reflexivity|]. split; assumption.
  - cbn [schedule_sessions]. unfold bind at 1.
    destruct (shuffle_m (days self) st) as [[candidates st0]|] eqn:Es;
      [|unfold shuffle_m in Es;
        destruct (shuffle (days self) (random st)); discriminate].
    apply shuffle_m_inv in Es. destruct Es as (Hp & rng & ->).
    destruct (try_days_total candidates ad (set_random rng st))
      as (r & st1 & Hrun & Hok1 & Hdef1).
    + apply set_random_ok. assumption.
    + apply ledgers_defined_random. assumption.
    + intros x Hx. apply (Permutation_in _ Hp). assumption.
    + unfold bind at 1. rewrite Hrun. unfold bind at 1.
      destruct (fst r).
      * unfold ret. apply IH; assumption.
      * unfold append_conflict. apply IH.
        -- destruct Hok1 as [K1 K2 K3 K4 K5]. constructor; simpl; try assumption.
           apply Forall_app. split; [assumption | repeat constructor].
        -- destruct Hdef1 as [D1 D2 D3 D4]. constructor; assumption.
Qed.
End Total.

Lemma first_pass_total self : forall cs st,
  references_ok self -> incl cs (courses self) ->
  ledgers_ok self st -> ledgers_defined self st ->
  exists st',
    first_pass self cs st = Ok (tt, st') /\
    ledgers_ok self st' /\ ledgers_defined self st'.
Proof.
  induction cs as [|c cs IH]; intros st Href Hincl Hok Hdef.
  - exists st. split; [reflexivity|]. split; assumption.
  - assert (Hc : In c (courses self)) by (apply Hincl; simpl; auto).
    destruct (Href c Hc) as [Hcl Hte].
    cbn [first_pass]. unfold bind at 1.
    destruct (schedule_sessions_total self c Hc Hcl Hte (c_frequency c) [] st
                Hok Hdef) as (st1 & -> & Hok1 & Hdef1).
    apply IH; try assumption. intros x Hx. apply Hincl. simpl. auto.
Qed.

Lemma initial_state_defined self rng :
  ledgers_defined self (initial_state self rng).
Proof.
  constructor; cbn [initial_state class_schedule teacher_schedule
                      room_schedule course_sessions].
  - intros n d t Hn Hd Ht. rewrite new_ledger_get.
    rewrite (proj2 (existsb_eqb_In _ _) Hn), (proj2 (existsb_eqb_In _ _) Hd),
      (proj2 (existsb_eqb_In _ _) Ht). simpl. eauto.
  - intros n d t Hn Hd Ht. rewrite new_ledger_get.
    rewrite (proj2 (existsb_eqb_In _ _) Hn), (proj2 (existsb_eqb_In _ _) Hd),
      (proj2 (existsb_eqb_In _ _) Ht). simpl. eauto.
  - intros n d t Hn Hd Ht. rewrite new_ledger_get.
    rewrite (proj2 (existsb_eqb_In _ _) Hn), (proj2 (existsb_eqb_In _ _) Hd),
      (proj2 (existsb_eqb_In _ _) Ht). simpl. eauto.
  - intros c Hc. rewrite (initial_tally _ _ Hc). eauto.
Qed.

Lemma audit_total self st :
  ledgers_ok self st -> ledgers_defined self st ->
  exists schedule cfs, audit self st = Ok (schedule, cfs).
Proof.
  intros Hok Hdef.
  assert (Hcell : forall c d t, In c (Dict.keys (class_schedule st)) ->
    In d (days self) -> In t (time_slots self) ->
    exists v, ledger_get (class_schedule st) c d t = Ok v).
  { intros c d t Hc Hd Ht. apply (def_class _ _ Hdef); try assumption.
    apply (ok_classes _ _ Hok). assumption. }
  assert (Hcol : exists schedule, collect_schedule self st = Ok schedule).
  { apply flat_mapR_total. intros c Hc.
    apply flat_mapR_total. intros d Hd.
    apply flat_mapR_total. intros t Ht. unfold cell_assignments.
    destruct (Hcell c d t Hc Hd Ht) as [[a|] ->]; eauto. }
  assert (Hscan : forall names field report,
    exists r, conflict_scan self st names field report = Ok r).
  { intros names field report.
    apply flat_mapR_total. intros name _.
    apply flat_mapR_total. intros d Hd.
    apply flat_mapR_total. intros t Ht.
    assert (Hf : exists cs, classes_at_time st field name d t = Ok cs).
    { apply filterR_total. intros c Hc.
      destruct (Hcell c d t Hc Hd Ht) as [[a|] ->]; eauto. }
    destruct Hf as [cs ->]. eauto. }
  destruct Hcol as [schedule Hcol]. unfold audit. rewrite Hcol.
  destruct (Hscan (Dict.keys (teacher_schedule st)) a_teacher teacher_conflict)
    as [tcs ->].
  destruct (Hscan (Dict.keys (room_schedule st)) a_room room_conflict)
    as [rcs ->]. eauto.
Qed.

(** Whatever the random generator draws, [generate_schedule] returns a
    schedule and a conflict list, raising nothing, when every course
    names a listed class and a listed teacher. *)
Lemma generate_schedule_returns self rng :
  references_ok self ->
  exists schedule cfs, generate_schedule self rng = Ok (schedule, cfs).
Proof.
  intros Href. unfold generate_schedule, run_first_pass.
  destruct (first_pass_total self (sorted_courses (courses self))
              (initial_state self rng) Href)
    as (st & -> & Hok & Hdef).
  - intros c Hc. apply (Permutation_in _ (sorted_courses_perm _)). assumption.
  - apply initial_state_ok.
  - apply initial_state_defined.
  - apply audit_total; assumption.
Qed.

(** ** Further properties of the time grid *)





Lemma lunch_shift_step g (j : nat) :
  lunch_shift g (S j) - lunch_shift g j
  = if is_lunch_period g (Z.of_nat j + 1)
    then lunch_duration g - break_length g else 0.
Proof.
  unfold lunch_shift, is_lunch_period.
  destruct (String.eqb_spec (lunch_period g) "After period 3") as [E3|N3];
    destruct (String.eqb_spec (lunch_period g) "After period 4") as [E4|N4];
    cbn [andb orb].
  - rewrite E3 in E4. discriminate E4.
  - destruct (Nat.leb_spec 3 (S j)), (Nat.leb_spec 3 j),
      (Z.eqb_spec (Z.of_nat j + 1) 3); cbn [andb orb]; lia.
  - destruct (Nat.leb_spec 4 (S j)), (Nat.leb_spec 4 j),
      (Z.eqb_spec (Z.of_nat j + 1) 4); cbn [andb orb]; lia.
  - lia.
Qed.

Lemma slot_start_next g (j : nat) :
  next_minutes g (slot_start g j) (Z.of_nat j + 1) = slot_start g (S j).
Proof.
  unfold next_minutes, slot_start.
  pose proof (lunch_shift_step g j) as H.
  rewrite Nat2Z.inj_succ.
  destruct (is_lunch_period g (Z.of_nat j + 1)); lia.
Qed.

Lemma follows_grid_closed_form g : forall l (j i : nat) p,
  follows_grid g (slot_start g j) (Z.of_nat j + 1) l ->
  nth_error l i = Some p ->
  fst p = slot_start g (j + i) /\ snd p = slot_start g (j + i) + period_length g.
Proof.
  induction l as [|q l IH]; intros j i p H Hi.
  - destruct i; discriminate Hi.
  - simpl in H. destruct H as (E1 & E2 & _ & H).
    destruct i as [|i]; simpl in Hi.
    + injection Hi as <-. rewrite Nat.add_0_r. split; lia.
    + rewrite slot_start_next in H.
      replace (Z.of_nat j + 1 + 1) with (Z.of_nat (S j) + 1) in H by lia.
      specialize (IH (S j) i p H Hi).
      replace (j + S i)%nat with (S j + i)%nat by lia. exact IH.
Qed.

Lemma slot_start_0 g : slot_start g 0 = start_minutes g.
Proof.
  unfold slot_start, lunch_shift. simpl.
  rewrite !andb_false_r. lia.
Qed.

(** X3. The slot of index [i] (counted from 0) starts
    [i * (period + break)] minutes after the start of the day, moved by
    [lunch - break] minutes from index 3 on when lunch is after period 3
    and from index 4 on when it is after period 4, and ends one period
    later; its label is formatted from these two minutes. *)
Theorem slot_times_closed_form :
  forall g fuel bounds slots i p,
    slot_bounds fuel g = Some bounds ->
    _generate_time_slots fuel g = Some slots ->
    nth_error bounds i = Some p ->
    p = (slot_start g i, slot_start g i + period_length g) /\
    nth_error slots i
    = Some (slot_label (slot_start g i) (slot_start g i + period_length g)).
Proof.
  intros g fuel bounds slots i p Hb Hs Hi.
  assert (Hf : follows_grid g (slot_start g 0) (Z.of_nat 0 + 1) bounds).
  { rewrite slot_start_0. simpl.
    apply slot_bounds_loop_follows with (fuel := fuel). exact Hb. }
  destruct (follows_grid_closed_form g bounds 0 i p Hf Hi) as (E1 & E2).
  simpl in E1, E2.
  assert (Ep : p = (slot_start g i, slot_start g i + period_length g)).
  { destruct p as [a b]. simpl in E1, E2. congruence. }
  split; [exact Ep|].
  rewrite generate_time_slots_labels, Hb in Hs. simpl in Hs.
  injection Hs as <-. rewrite nth_error_map, Hi. simpl.
  rewrite Ep. reflexivity.
Qed.

Lemma slot_times_closed_form_witness :
  (680, 730) = (slot_start morning 3, slot_start morning 3 + period_length morning)
  /\ nth_error ["08:00-08:50"; "09:00-09:50"; "10:00-10:50"; "11:20-12:10"] 3
     = Some (slot_label (slot_start morning 3)
               (slot_start morning 3 + period_length morning)).
Proof.
  apply (slot_times_closed_form morning 300
           [(480, 530); (540, 590); (600, 650); (680, 730)]
           ["08:00-08:50"; "09:00-09:50"; "10:00-10:50"; "11:20-12:10"]
           3%nat (680, 730)).
  - vm_compute. reflexivity.
  - vm_compute. reflexivity.
  - reflexivity.
Defined.

Lemma is_lunch_period_disabled g k :
  ~ lunch_enabled g -> is_lunch_period g k = false.
Proof.
  intros Hn. destruct (is_lunch_period g k) eqn:E; [|reflexivity].
  apply is_lunch_period_iff, lunch_after_enabled in E. contradiction.
Qed.

Lemma slot_bounds_loop_count g fuel :
  ~ lunch_enabled g -> 0 < period_length g -> 0 <= break_length g ->
  forall c k l,
    slot_bounds_loop fuel g c k = Some l ->
    List.length l
    = Z.to_nat ((end_minutes g - c + break_length g)
                / (period_length g + break_length g)).
Proof.
  intros Hn HP HB. induction fuel as [|fuel IH]; intros c k l H.
  - discriminate H.
  - simpl in H.
    destruct (Z.leb_spec (c + period_length g) (end_minutes g)) as [Hle|Hgt].
    + destruct (slot_bounds_loop fuel g _ _) as [rest|] eqn:E; [|discriminate H].
      injection H as <-. apply IH in E. simpl List.length. rewrite E.
      unfold next_minutes. rewrite is_lunch_period_disabled by exact Hn.
      replace (end_minutes g - c + break_length g)
        with (end_minutes g - (c + period_length g + break_length g)
              + break_length g + 1 * (period_length g + break_length g))
        by lia.
      rewrite Z.div_add by lia.
      rewrite Z2Nat.inj_add; [simpl; lia| |lia].
      apply Z.div_pos; lia.
    + injection H as <-. simpl.
      assert (Hq : (end_minutes g - c + break_length g)
                   / (period_length g + break_length g) <= 0).
      { apply Z.lt_succ_r. apply Z.div_lt_upper_bound; lia. }
      lia.
Qed.

(** X4. Without a lunch break the loop ends within [grid_fuel] iterations
    and returns [(end - start + break) / (period + break)] slots (none
    when the quotient is negative). *)
Theorem slot_count_without_lunch :
  forall g fuel,
    ~ lunch_enabled g -> 0 < period_length g -> 0 <= break_length g ->
    (grid_fuel g <= fuel)%nat ->
    exists slots,
      _generate_time_slots fuel g = Some slots /\
      List.length slots = slot_count g.
Proof.
  intros g fuel Hn HP HB Hfuel.
  assert (Hv : steps_positive g).
  { unfold steps_positive. split; [exact HP|]. split; [exact HB|].
    intros He. contradiction. }
  destruct (steps_positive_slots g fuel Hv Hfuel) as (bounds & Hb & Hs & _).
  exists (map label_of bounds). split; [exact Hs|].
  rewrite length_map.
  unfold slot_count. eapply slot_bounds_loop_count; eassumption.
Qed.

Lemma slot_count_without_lunch_witness :
  exists slots,
    _generate_time_slots 300 lunch_after_two = Some slots /\
    List.length slots = 4%nat.
Proof.
  apply (slot_count_without_lunch lunch_after_two 300).
  - unfold lunch_enabled. simpl. intros [H|H]; discriminate H.
  - simpl. lia.
  - simpl. lia.
  - vm_compute. lia.
Defined.

(** X5. For options in range the labels of the grid are pairwise
    distinct, so that the ledgers built by [__init__] have one cell for
    each slot of the day. *)
Theorem slot_labels_distinct :
  forall fuel ts rs cls cs g self,
    grid_in_range g ->
    __init__ fuel ts rs cls cs g = Some self ->
    NoDup (time_slots self) /\
    forall name, In name (map cl_name cls) ->
      forall d t, In d (days self) -> In t (time_slots self) ->
        ledger_get (class_schedule (initial_state self [])) name d t = Ok None.
Proof.
  intros fuel ts rs cls cs g self Hg Hi.
  destruct (init_NoDup _ _ _ _ _ _ _ Hg Hi) as (_ & Hnd).
  split; [exact Hnd|].
  intros name Hn d t Hd Ht.
  destruct (init_inv _ _ _ _ _ _ _ Hi) as (Hself & _).
  unfold initial_state. simpl class_schedule.
  rewrite new_ledger_get.
  assert (Hc : classes self = cls) by (rewrite Hself; reflexivity).
  rewrite Hc.
  rewrite (proj2 (existsb_eqb_In name _) Hn),
    (proj2 (existsb_eqb_In d _) Hd), (proj2 (existsb_eqb_In t _) Ht).
  reflexivity.
Qed.

Lemma slot_labels_distinct_witness :
  NoDup (time_slots small_school).
Proof.
  apply (slot_labels_distinct 300 small_teachers small_rooms small_classes
           small_courses morning small_school).
  - unfold grid_in_range, valid_time, steps_positive. simpl.
    repeat split; lia.
  - vm_compute. reflexivity.
Defined.

(** ** Further properties of the room search and of the commit *)

Lemma first_free_room_None l d t : forall rs,
  first_free_room l d t rs = Ok None ->
  forall room, In room rs ->
    exists a, ledger_get l (r_name room) d t = Ok (Some a).
Proof.
  induction rs as [|r rs IH]; intros H room Hin; [destruct Hin|].
  simpl in H.
  destruct (ledger_get l (r_name r) d t) as [[a|]|e] eqn:E; try discriminate H.
  destruct Hin as [<-|Hin].
  - exists a. exact E.
  - apply IH; assumption.
Qed.

Lemma find_available_room_None self size d t st st' :
  _find_available_room self size d t st = Ok (None, st') ->
  forall room, In room (rooms self) -> size <= r_capacity room ->
    exists a, ledger_get (room_schedule st) (r_name room) d t = Ok (Some a).
Proof.
  unfold _find_available_room. intros H room Hin Hcap. inv_bind H.
  apply shuffle_m_inv in E. destruct E as (Hperm & rng & ->).
  unfold lift in H. simpl room_schedule in H.
  destruct (first_free_room (room_schedule st) d t l) as [o|e] eqn:Ef;
    [|discriminate H].
  injection H as -> _.
  eapply first_free_room_None; [exact Ef|].
  eapply Permutation_in; [apply Permutation_sym; exact Hperm|].
  apply filter_In. split; [exact Hin|]. apply Z.leb_le. exact Hcap.
Qed.

(** X6. [_find_available_room] is sound and complete: it changes nothing
    but the random generator; a name it returns is the name of a listed
    room that is large enough and free at that day and slot; it returns
    [None] only when every listed room that is large enough is occupied
    at that day and slot. *)
Theorem find_available_room_sound_complete :
  forall self size d t st r st',
    _find_available_room self size d t st = Ok (r, st') ->
    (exists rng, st' = set_random rng st) /\
    match r with
    | Some name =>
        exists room, In room (rooms self) /\ r_name room = name /\
                     size <= r_capacity room /\
                     ledger_get (room_schedule st) name d t = Ok None
    | None =>
        forall room, In room (rooms self) -> size <= r_capacity room ->
          exists a, ledger_get (room_schedule st) (r_name room) d t
                    = Ok (Some a)
    end.
Proof.
  intros self size d t st r st' H.
  destruct (find_available_room_inv _ _ _ _ _ _ _ H) as (Hrng & Hsome).
  split; [exact Hrng|].
  destruct r as [name|].
  - destruct (Hsome name eq_refl) as (room & Hin & Hn & Hcap & Hfree).
    exists room. repeat split; try assumption.
    destruct Hrng as (rng & ->). exact Hfree.
  - eapply find_available_room_None. exact H.
Qed.

Lemma find_available_room_sound_complete_witness :
  exists room, In room (rooms small_school) /\ r_name room = "Room 101" /\
               25 <= r_capacity room /\
               ledger_get (room_schedule (initial_state small_school draws))
                 "Room 101" "Monday" "08:00-08:50" = Ok None.
Proof.
  apply (find_available_room_sound_complete small_school 25 "Monday"
           "08:00-08:50" (initial_state small_school draws)
           (Some "Room 101")
           (initial_state small_school draws)).
  vm_compute. reflexivity.
Defined.

(** X7. After [_assign_time_slot] has committed a session of a class with
    a teacher in a room at a day and slot, [_is_slot_available] never
    answers [True] for a request at that day and slot that shares the
    class, the teacher or the room. *)
Theorem committed_cell_is_unavailable :
  forall course c tn rn d t st st1 c' tn' rn' b st2,
    _assign_time_slot course c tn rn d t st = Ok (tt, st1) ->
    c' = c \/ tn' = tn \/ rn' = rn ->
    _is_slot_available c' tn' rn' d t st1 = Ok (b, st2) ->
    b = false.
Proof.
  intros course c tn rn d t st st1 c' tn' rn' b st2 Hc Hshare Ha.
  destruct b; [|reflexivity].
  apply is_slot_available_inv in Ha. destruct Ha as (_ & Hfree).
  destruct (Hfree eq_refl) as (F1 & F2 & F3).
  apply assign_time_slot_cells in Hc. cbv zeta in Hc.
  destruct Hc as (C1 & C2 & C3 & _).
  destruct Hshare as [->| [->| ->]]; congruence.
Qed.

Lemma committed_cell_is_unavailable_witness :
  exists st1,
    commit_monday math (initial_state morning_school []) = Ok (tt, st1) /\
    _is_slot_available "Class 9A" "Ms. Wilson" "Room 101" "Monday"
      "08:00-08:50" st1 = Ok (false, st1).
Proof.
  destruct (commit_monday math (initial_state morning_school []))
    as [[[] st1]|e] eqn:E; [|vm_compute in E; discriminate E].
  exists st1. split; [reflexivity|].
  destruct (_is_slot_available "Class 9A" "Ms. Wilson" "Room 101" "Monday"
              "08:00-08:50" st1) as [[b st2]|e] eqn:Ea.
  - pose proof (committed_cell_is_unavailable math "Class 9A" "Ms. Wilson"
                  "Room 101" "Monday" "08:00-08:50" _ st1 "Class 9A"
                  "Ms. Wilson" "Room 101" b st2 E (or_introl eq_refl) Ea)
      as Hb.
    apply is_slot_available_inv in Ea. destruct Ea as (-> & _).
    rewrite Hb. reflexivity.
  - exfalso. revert Ea. vm_compute in E. injection E as <-.
    vm_compute. discriminate.
Defined.

(** X1. [generate_schedule] raises no [KeyError] when every course names
    a class of the classes list and a teacher of the teachers list:
    whatever the draws of the random generator, it returns a schedule and
    a list of conflicts. *)
Theorem resolved_references_raise_nothing :
  forall fuel ts rs cls cs g self rng,
    __init__ fuel ts rs cls cs g = Some self ->
    (forall c, In c cs ->
       In (c_class c) (map cl_name cls) /\ In (c_teacher c) (map t_name ts)) ->
    exists schedule cfs, generate_schedule self rng = Ok (schedule, cfs).
Proof.
  intros fuel ts rs cls cs g self rng Hi Href.
  apply generate_schedule_returns.
  destruct (init_inv _ _ _ _ _ _ _ Hi) as (-> & _).
  intros c Hc. apply Href. exact Hc.
Qed.

Lemma resolved_references_raise_nothing_witness :
  exists schedule cfs, generate_schedule small_school draws = Ok (schedule, cfs).
Proof.
  apply (resolved_references_raise_nothing 300 small_teachers small_rooms
           small_classes small_courses morning small_school draws).
  - vm_compute. reflexivity.
  - intros c Hc. simpl in Hc.
    destruct Hc as [<-|[<-|[<-|[]]]]; simpl; tauto.
Defined.

(** ** The order in which the courses are processed *)

Lemma string_leb_trans : forall a b c,
  String.leb a b = true -> String.leb b c = true -> String.leb a c = true.
Proof.
  unfold String.leb.
  induction a as [|x a IH]; intros [|y b] [|z c]; simpl; try congruence; auto.
  unfold Ascii.compare.
  destruct (N.compare_spec (N_of_ascii x) (N_of_ascii y)) as [E1|L1|G1];
    destruct (N.compare_spec (N_of_ascii y) (N_of_ascii z)) as [E2|L2|G2];
    destruct (N.compare_spec (N_of_ascii x) (N_of_ascii z)) as [E3|L3|G3];
    try congruence; try lia; auto.
  apply IH.
Qed.

Lemma string_leb_refl a : String.leb a a = true.
Proof. destruct (String.leb_total a a); assumption. Qed.

Lemma course_key_le_trans c d e :
  course_key_le c d = true -> course_key_le d e = true ->
  course_key_le c e = true.
Proof.
  unfold course_key_le. intros H1 H2.
  apply orb_true_iff in H1. apply orb_true_iff in H2. apply orb_true_iff.
  rewrite !andb_true_iff, !Nat.ltb_lt, !Nat.eqb_eq in *.
  destruct H1 as [H1|[H1 L1]], H2 as [H2|[H2 L2]];
    try (left; lia).
  right. split; [lia|]. eapply string_leb_trans; eassumption.
Qed.

Lemma course_key_le_total c d :
  course_key_le c d = true \/ course_key_le d c = true.
Proof.
  unfold course_key_le.
  destruct (Nat.lt_trichotomy (c_frequency c) (c_frequency d)) as [H|[H|H]].
  - right. apply orb_true_iff. left. apply Nat.ltb_lt. exact H.
  - destruct (String.leb_total (c_name c) (c_name d)) as [L|L].
    + left. apply orb_true_iff. right. rewrite L, andb_true_r.
      apply Nat.eqb_eq. exact H.
    + right. apply orb_true_iff. right. rewrite L, andb_true_r.
      apply Nat.eqb_eq. symmetry. exact H.
  - left. apply orb_true_iff. left. apply Nat.ltb_lt. exact H.
Qed.

Lemma insert_course_sorted c l :
  StronglySorted (fun c d => course_key_le c d = true) l ->
  StronglySorted (fun c d => course_key_le c d = true) (insert_course c l).
Proof.
  induction 1 as [|d l Hs IH Hd]; simpl.
  - constructor; constructor.
  - destruct (course_key_le c d) eqn:E.
    + constructor; [constructor; assumption|].
      constructor; [exact E|].
      eapply Forall_impl; [|exact Hd]. simpl. intros e He.
      eapply course_key_le_trans; eassumption.
    + constructor; [exact IH|].
      eapply Permutation_Forall;
        [apply Permutation_sym, insert_course_perm|].
      constructor; [|exact Hd].
      destruct (course_key_le_total c d) as [H|H]; congruence.
Qed.

Lemma same_sort_key_le c d :
  same_sort_key c d = true -> course_key_le c d = true.
Proof.
  unfold same_sort_key, course_key_le. intros H.
  apply andb_true_iff in H. destruct H as (H1 & H2).
  apply String.eqb_eq in H2. rewrite H1, H2, string_leb_refl.
  apply orb_true_r.
Qed.

Lemma same_sort_key_join k c d :
  same_sort_key k c = true -> same_sort_key k d = true ->
  same_sort_key c d = true.
Proof.
  unfold same_sort_key. rewrite !andb_true_iff, !Nat.eqb_eq, !String.eqb_eq.
  intros (-> & ->) (-> & ->). split; reflexivity.
Qed.

Lemma insert_course_stable k c : forall l,
  filter (same_sort_key k) (insert_course c l)
  = filter (same_sort_key k) (c :: l).
Proof.
  induction l as [|d l IH]; [reflexivity|].
  simpl insert_course. destruct (course_key_le c d) eqn:E; [reflexivity|].
  simpl filter. simpl filter in IH. rewrite IH.
  destruct (same_sort_key k c) eqn:Ec, (same_sort_key k d) eqn:Ed;
    try reflexivity.
  pose proof (same_sort_key_le _ _ (same_sort_key_join _ _ _ Ec Ed)).
  congruence.
Qed.

(** X8. [generate_schedule] processes the courses in the order of a stable
    sort: the processed list is a rearrangement of the course list, a
    course of higher frequency comes before one of lower frequency, among
    courses of equal frequency the names are in non-decreasing order, and
    courses of equal frequency and name keep the order of the input. *)
Theorem courses_processed_by_frequency_then_name :
  forall cs,
    Permutation (sorted_courses cs) cs /\
    StronglySorted
      (fun c d => (c_frequency d < c_frequency c)%nat \/
                  (c_frequency c = c_frequency d /\
                   String.leb (c_name c) (c_name d) = true))
      (sorted_courses cs) /\
    forall k, filter (same_sort_key k) (sorted_courses cs)
              = filter (same_sort_key k) cs.
Proof.
  intros cs. split; [apply sorted_courses_perm|]. split.
  - assert (H : StronglySorted (fun c d => course_key_le c d = true)
                  (sorted_courses cs)).
    { induction cs as [|c cs IH]; simpl.
      - constructor.
      - apply insert_course_sorted. exact IH. }
    induction H as [|c l Hs IH Hc]; constructor; [exact IH|].
    eapply Forall_impl; [|exact Hc]. simpl. intros d Hd.
    unfold course_key_le in Hd. apply orb_true_iff in Hd.
    rewrite andb_true_iff, Nat.ltb_lt, Nat.eqb_eq in Hd. exact Hd.
  - intros k. induction cs as [|c cs IH]; [reflexivity|].
    simpl sorted_courses. rewrite insert_course_stable.
    simpl. rewrite IH. reflexivity.
Qed.

(** ** The search, one iteration at a time *)

Lemma is_slot_available_false c tn rn d t st st' :
  _is_slot_available c tn rn d t st = Ok (false, st') ->
  (exists a, ledger_get (class_schedule st) c d t = Ok (Some a)) \/
  (exists a, ledger_get (teacher_schedule st) tn d t = Ok (Some a)) \/
  (exists a, ledger_get (room_schedule st) rn d t = Ok (Some a)).
Proof.
  unfold _is_slot_available, lift. intros H.
  destruct (ledger_get (class_schedule st) c d t) as [[a|]|] eqn:E1;
    [left; eauto| |discriminate H].
  destruct (ledger_get (teacher_schedule st) tn d t) as [[a|]|] eqn:E2;
    [right; left; eauto| |discriminate H].
  destruct (ledger_get (room_schedule st) rn d t) as [[a|]|] eqn:E3;
    [right; right; eauto|discriminate H|discriminate H].
Qed.

Section Search.
Variable self : ScheduleGenerator.
Variable course : Course.

Local Abbreviation size := (_get_class_size self (c_class course)).

Lemma try_time_slots_step day : forall slots ad st r st',
  try_time_slots self course size day ad slots st = Ok (r, st') ->
  (fst r = false /\ snd r = ad /\ (exists rng, st' = set_random rng st) /\
   forall t, In t slots -> cell_blocked self course day t st) \/
  (fst r = true /\ snd r = days_add day ad /\
   exists t name, In t slots /\ commits self course day t name st st').
Proof.
  induction slots as [|t slots IH]; intros ad st r st' H.
  - injection H as <- <-. left. repeat split.
    + exists (random st). symmetry. apply set_random_same.
    + intros t [].
  - cbn [try_time_slots] in H. inv_bind H.
    assert (Hnone : o = None ->
      forall room, In room (rooms self) -> size <= r_capacity room ->
        exists a, ledger_get (room_schedule st) (r_name room) day t
                  = Ok (Some a)).
    { intros ->. eapply find_available_room_None. exact E. }
    apply find_available_room_inv in E. destruct E as ((rng & ->) & Hroom).
    assert (Hrec : cell_blocked self course day t st ->
      try_time_slots self course size day ad slots (set_random rng st)
      = Ok (r, st') ->
      (fst r = false /\ snd r = ad /\ (exists rng, st' = set_random rng st) /\
       forall t0, In t0 (t :: slots) -> cell_blocked self course day t0 st) \/
      (fst r = true /\ snd r = days_add day ad /\
       exists t0 name, In t0 (t :: slots) /\
                       commits self course day t0 name st st')).
    { intros Hb H1. destruct (IH _ _ _ _ H1) as
        [(F1 & F2 & (rng1 & ->) & F4)|(F1 & F2 & t0 & name & Hin & Hc)].
      - left. repeat split; try assumption.
        + exists rng1. reflexivity.
        + intros t0 [<-|Hin]; [exact Hb|]. exact (F4 _ Hin).
      - right. repeat split; try assumption.
        exists t0, name. split; [right; exact Hin|]. exact Hc. }
    destruct o as [name|].
    + destruct (Hroom name eq_refl) as (room & Hin & Hn & Hcap & Hfree).
      destruct (str_truthy name) eqn:Etruthy.
      * inv_bind H. pose proof E as Eavail.
        apply is_slot_available_inv in E. destruct E as [-> Hall].
        destruct b.
        -- destruct (Hall eq_refl) as (Hc & Ht & Hr).
           inv_bind H. destruct u. inv_bind H. destruct u.
           injection H as <- <-. right. repeat split.
           exists t, name. split; [left; reflexivity|].
           exists rng, s. repeat split; try assumption.
           exists room. repeat split; assumption.
        -- apply Hrec; [|exact H].
           apply is_slot_available_false in Eavail.
           destruct Eavail as [Hb|[Hb|(a & Hb)]].
           ++ left. exact Hb.
           ++ right. left. exact Hb.
           ++ simpl in Hb, Hfree. congruence.
      * unfold bind, ret in H. apply Hrec; [|exact H].
        right. right. right. exists room. split; [exact Hin|].
        destruct name; [exact Hn|discriminate Etruthy].
    + unfold bind, ret in H. apply Hrec; [|exact H].
      right. right. left. exact (Hnone eq_refl).
Qed.

Lemma try_days_step : forall candidates ad st r st',
  try_days self course size ad candidates st = Ok (r, st') ->
  (fst r = false /\ snd r = ad /\ (exists rng, st' = set_random rng st) /\
   forall d, In d candidates -> skip_day self d ad = false ->
     forall t, In t (time_slots self) -> cell_blocked self course d t st) \/
  (fst r = true /\
   exists d t name,
     In d candidates /\ skip_day self d ad = false /\
     In t (time_slots self) /\ snd r = days_add d ad /\
     commits self course d t name st st').
Proof.
  induction candidates as [|day rest IH]; intros ad st r st' H.
  - injection H as <- <-. left. repeat split.
    + exists (random st). symmetry. apply set_random_same.
    + intros d [].
  - cbn [try_days] in H. destruct (skip_day self day ad) eqn:Eskip.
    + destruct (IH _ _ _ _ H) as
        [(F1 & F2 & F3 & F4)|(F1 & d & t & name & G1 & G2 & G3 & G4 & G5)].
      * left. repeat split; try assumption.
        intros d [<-|Hin] Hs; [congruence|]. apply F4; assumption.
      * right. split; [assumption|]. exists d, t, name.
        repeat split; try assumption. right. exact G1.
    + inv_bind H. apply shuffle_m_inv in E. destruct E as (Hperm & rng & ->).
      inv_bind H. apply try_time_slots_step in E.
      destruct E as
        [(F1 & F2 & (rng1 & ->) & F4)|(F1 & F2 & t & name & Hin & Hc)].
      * destruct p as [b ad1]. simpl in F1, F2. subst b ad1. simpl in H.
        destruct (IH _ _ _ _ H) as
          [(G1 & G2 & (rng2 & ->) & G4)
          |(G1 & d & t & name & K1 & K2 & K3 & K4 & K5)].
        -- left. repeat split; try assumption.
           ++ exists rng2. reflexivity.
           ++ intros d [<-|Hin] Hs t Ht.
              ** apply (F4 t). eapply Permutation_in;
                   [apply Permutation_sym; exact Hperm|exact Ht].
              ** exact (G4 d Hin Hs t Ht).
        -- right. split; [assumption|]. exists d, t, name.
           repeat split; try assumption. right. exact K1.
      * destruct p as [b ad1]. simpl in F1, F2. subst b ad1. simpl in H.
        injection H as <- <-. right. split; [reflexivity|].
        exists day, t, name. repeat split; try assumption.
        -- left. reflexivity.
        -- eapply Permutation_in; [exact Hperm|exact Hin].
Qed.
End Search.

(** ** The committed assignments *)

Lemma cell_eq_dec (x y : string * string * string) : x = y \/ x <> y.
Proof.
  destruct x as [[a b] c], y as [[a' b'] c'].
  destruct (string_dec a a') as [->|Ha]; [|right; congruence].
  destruct (string_dec b b') as [->|Hb]; [|right; congruence].
  destruct (string_dec c c') as [->|Hc]; [|right; congruence].
  left. reflexivity.
Qed.

Lemma committed_inv_random self committed st rng :
  committed_inv self committed st ->
  committed_inv self committed (set_random rng st).
Proof.
  intros [H1 H2 H3 H4 H5 H6 H7 H8 H9 H10]. constructor; try assumption.
  apply set_random_ok. exact H1.
Qed.

Lemma sessions_of_app k l1 l2 :
  sessions_of k (l1 ++ l2) = sessions_of k l1 ++ sessions_of k l2.
Proof. apply filter_app. Qed.

Lemma assign_time_slot_teacher_keys course c tn rn d t st st' :
  _assign_time_slot course c tn rn d t st = Ok (tt, st') ->
  Dict.keys (teacher_schedule st') = Dict.keys (teacher_schedule st).
Proof.
  unfold _assign_time_slot.
  destruct (ledger_set (class_schedule st) c d t _) as [cs|]; [|discriminate].
  destruct (ledger_set (teacher_schedule st) tn d t _) as [ts|] eqn:Et;
    [|discriminate].
  destruct (ledger_set (room_schedule st) rn d t _) as [rs|]; [|discriminate].
  intros [= <-]. simpl. eapply ledger_set_keys. exact Et.
Qed.

Lemma commit_step self course day t name committed st st' :
  committed_inv self committed st ->
  In course (courses self) -> In day (days self) -> In t (time_slots self) ->
  commits self course day t name st st' ->
  committed_inv self (committed ++ [assignment_of course name day t]) st' /\
  conflicts st' = conflicts st.
Proof.
  intros Hinv Hcourse Hday Hslot (rng & st2 & Hroom & Hc & Ht & Hr & Ha & Hn).
  apply (committed_inv_random _ _ _ rng) in Hinv.
  destruct Hinv as [H1 H2 H3 H4 H5 H6 H7 H8 H9 H10].
  set (a := assignment_of course name day t).
  destruct (assign_time_slot_ok self course _ _ _ _ _ _ _ H1 Hc Ht Hr Hroom Ha)
    as (Hok2 & Htally2 & Hcf2).
  pose proof (assign_time_slot_cells _ _ _ _ _ _ _ _ Ha) as Hcells.
  cbv zeta in Hcells. fold (assignment_of course name day t) in Hcells.
  fold a in Hcells.
  destruct Hcells as (C1 & C2 & C3 & F1 & F2 & F3 & _).
  destruct (count_session_inv self _ _ _ Hn) as (Hok3 & _).
  unfold count_session in Hn.
  destruct (Dict.get (course_key course) (course_sessions st2)) as [n0|] eqn:En;
    [|discriminate Hn].
  injection Hn as <-. simpl. split; [|exact Hcf2].
  constructor; simpl.
  - apply Hok3. exact Hok2.
  - rewrite map_app. simpl. apply NoDup_app. repeat split.
    + exact H2.
    + repeat constructor. intros [].
    + intros x Hx [<-|[]]. apply in_map_iff in Hx.
      destruct Hx as (b & Eb & Hb). apply H4 in Hb.
      unfold booking in Eb. simpl in Eb. injection Eb as E1 E2 E3.
      rewrite E1, E2, E3 in Hb. simpl in Hb, Hc. congruence.
  - intros c d t' a' Hg. apply in_or_app.
    destruct (cell_eq_dec (c, d, t') (c_class course, day, t)) as [E|Hne].
    + injection E as -> -> ->. right. left. congruence.
    + left. rewrite F1 in Hg by exact Hne. eapply H3. exact Hg.
  - intros b Hb. apply in_app_or in Hb. destruct Hb as [Hb|[<-|[]]].
    + pose proof (H4 _ Hb) as Hcell. rewrite F1; [exact Hcell|].
      intros E. injection E as E1 E2 E3. rewrite E1, E2, E3 in Hcell.
      simpl in Hcell, Hc. congruence.
    + exact C1.
  - intros n d t' a' Hg.
    destruct (cell_eq_dec (n, d, t') (c_teacher course, day, t)) as [E|Hne].
    + injection E as -> -> ->. assert (a' = a) by congruence. subst a'.
      split; [apply in_or_app; right; left; reflexivity|].
      repeat split; reflexivity.
    + rewrite F2 in Hg by exact Hne. destruct (H5 _ _ _ _ Hg) as (K & ?).
      split; [apply in_or_app; left; exact K|assumption].
  - intros n d t' a' Hg.
    destruct (cell_eq_dec (n, d, t') (name, day, t)) as [E|Hne].
    + injection E as -> -> ->. assert (a' = a) by congruence. subst a'.
      split; [apply in_or_app; right; left; reflexivity|].
      repeat split; reflexivity.
    + rewrite F3 in Hg by exact Hne. destruct (H6 _ _ _ _ Hg) as (K & ?).
      split; [apply in_or_app; left; exact K|assumption].
  - intros b Hb. apply in_app_or in Hb. destruct Hb as [Hb|[<-|[]]].
    + apply H7. exact Hb.
    + simpl. repeat split; try assumption.
      exists course. repeat split; assumption.
  - intros k n Hk. rewrite sessions_of_app, length_app.
    destruct (cell_eq_dec (fst k, snd k, "") (c_name course, c_class course, ""))
      as [E|Hne].
    + assert (Ek : k = course_key course).
      { destruct k. simpl in E. injection E as -> ->. reflexivity. }
      subst k. rewrite get_set_eq in Hk. injection Hk as <-.
      rewrite Htally2 in En. simpl in En. rewrite (H8 _ _ En).
      unfold sessions_of. simpl.
      rewrite !String.eqb_refl. simpl. lia.
    + assert (Ek : course_key course <> k).
      { intros <-. apply Hne. reflexivity. }
      rewrite get_set_ne in Hk by exact Ek.
      rewrite Htally2 in Hk. simpl in Hk. rewrite (H8 _ _ Hk).
      unfold sessions_of at 1. simpl.
      replace (String.eqb (c_name course) (fst k)
               && String.eqb (c_class course) (snd k)) with false; [simpl; lia|].
      symmetry. apply andb_false_iff.
      destruct (String.eqb_spec (c_name course) (fst k)) as [E1|];
        [|left; reflexivity].
      destruct (String.eqb_spec (c_class course) (snd k)) as [E2|];
        [|right; reflexivity].
      exfalso. apply Ek. unfold course_key. destruct k. simpl in *. congruence.
  - apply keys_set_NoDup. rewrite Htally2. exact H9.
  - rewrite (assign_time_slot_teacher_keys _ _ _ _ _ _ _ _ Ha). exact H10.
Qed.

Lemma cell_taken_incl self course d t l l' :
  incl l l' -> cell_taken self course d t l -> cell_taken self course d t l'.
Proof.
  intros Hincl [(a & Ha & H)|H].
  - left. exists a. split; [apply Hincl; exact Ha|exact H].
  - right. intros room Hin Hcap. destruct (H room Hin Hcap) as (a & Ha & K).
    exists a. split; [apply Hincl; exact Ha|exact K].
Qed.

Lemma cell_blocked_taken self course d t committed st :
  committed_inv self committed st ->
  cell_blocked self course d t st ->
  cell_taken self course d t committed \/
  (exists room, In room (rooms self) /\ r_name room = EmptyString).
Proof.
  intros [H1 H2 H3 H4 H5 H6 H7 H8 H9 H10] [(a & Ha)|[(a & Ha)|[Hall|Hempty]]].
  - left. left. exists a. split; [eapply H3; exact Ha|].
    destruct (ok_cell _ _ H1 _ _ _ _ Ha) as (E1 & E2 & E3 & _). tauto.
  - left. left. exists a. destruct (H5 _ _ _ _ Ha) as (K & E1 & E2 & E3). tauto.
  - left. right. intros room Hin Hcap. destruct (Hall room Hin Hcap) as (a & Ha).
    exists a. destruct (H6 _ _ _ _ Ha) as (K & E1 & E2 & E3). tauto.
  - right. exact Hempty.
Qed.

Lemma committed_inv_unscheduled self course committed st st' :
  committed_inv self committed st ->
  append_conflict (unscheduled_conflict course) st = Ok (tt, st') ->
  committed_inv self committed st' /\
  conflicts st' = conflicts st ++ [unscheduled_conflict course].
Proof.
  intros [H1 H2 H3 H4 H5 H6 H7 H8 H9 H10] H.
  destruct (append_conflict_unscheduled_ok self course _ _ H1 H) as (Hok & _).
  injection H as <-. split; [|reflexivity].
  constructor; try assumption.
Qed.

Lemma skip_day_false self d ad :
  skip_day self d ad = false -> (List.length ad < List.length (days self))%nat ->
  ~ In d ad.
Proof.
  unfold skip_day. intros H Hlt Hin.
  apply existsb_eqb_In in Hin. rewrite Hin in H.
  apply Nat.ltb_lt in Hlt. rewrite Hlt in H. discriminate H.
Qed.

Lemma skip_day_true self d ad : skip_day self d ad = true -> In d ad.
Proof.
  unfold skip_day. intros H. apply andb_true_iff in H.
  apply existsb_eqb_In. tauto.
Qed.

Lemma days_add_In day ad d : In d (days_add day ad) -> In d ad \/ d = day.
Proof.
  unfold days_add. destruct (existsb (String.eqb day) ad); [tauto|].
  intros H. apply in_app_or in H. destruct H as [H|[<-|[]]]; tauto.
Qed.

Lemma days_add_incl day ad : incl ad (days_add day ad).
Proof.
  unfold days_add. destruct (existsb (String.eqb day) ad).
  - apply incl_refl.
  - apply incl_appl, incl_refl.
Qed.

Ltac splits :=
  match goal with
  | |- _ /\ _ => split; [|splits]
  | _ => idtac
  end.

Section Log.
Variable self : ScheduleGenerator.
Variable course : Course.
Hypothesis Hcourse : In course (courses self).

Local Abbreviation size := (_get_class_size self (c_class course)).

Lemma schedule_sessions_log : forall n ad committed st st',
  committed_inv self committed st ->
  (forall d, In d ad ->
     exists a, In a committed /\ assignment_key a = course_key course /\
               a_day a = d) ->
  schedule_sessions self course size ad n st = Ok (tt, st') ->
  exists new,
    committed_inv self (committed ++ new) st' /\
    Forall (fun a => assignment_key a = course_key course) new /\
    (List.length new <= n)%nat /\
    conflicts st'
    = conflicts st
      ++ repeat (unscheduled_conflict course) (n - List.length new) /\
    ((List.length ad + n <= List.length (days self))%nat ->
     NoDup (map a_day new) /\ forall a, In a new -> ~ In (a_day a) ad) /\
    ((List.length new < n)%nat ->
     forall d t, In d (days self) -> In t (time_slots self) ->
       (exists a, In a (committed ++ new) /\
                  assignment_key a = course_key course /\ a_day a = d) \/
       cell_taken self course d t (committed ++ new) \/
       (exists room, In room (rooms self) /\ r_name room = EmptyString)).
Proof.
  induction n as [|n IH]; intros ad committed st st' Hinv Hcov H.
  - injection H as <-. exists []. rewrite app_nil_r. simpl. splits.
    + exact Hinv.
    + constructor.
    + lia.
    + rewrite app_nil_r. reflexivity.
    + intros _. split; [constructor|]. intros a [].
    + lia.
  - cbn [schedule_sessions] in H.
    inv_bind H. apply shuffle_m_inv in E. destruct E as (Hperm & rng & ->).
    apply (committed_inv_random _ _ _ rng) in Hinv.
    inv_bind H. destruct p as [b ad1]. simpl in H. inv_bind H. destruct u.
    rename E0 into Emid. apply try_days_step in E.
    destruct E as
      [(F1 & F2 & (rng1 & ->) & F4)
      |(F1 & d & t & name & G1 & G2 & G3 & G4 & G5)];
      simpl in F1; subst b.
    + simpl in F2. subst ad1.
      apply (committed_inv_random _ _ _ rng1) in Hinv.
      destruct (committed_inv_unscheduled _ _ _ _ _ Hinv Emid)
        as (Hinv1 & Hcf1).
      destruct (IH _ _ _ _ Hinv1 Hcov H)
        as (new & K1 & K2 & K3 & K4 & K5 & K6).
      exists new. splits.
      * exact K1.
      * exact K2.
      * lia.
      * rewrite K4, Hcf1. simpl conflicts. rewrite <- app_assoc. f_equal.
        replace (S n - List.length new)%nat
          with (S (n - List.length new)) by lia.
        reflexivity.
      * intros Hlen. apply K5. lia.
      * intros _ d t Hd Ht.
        destruct (skip_day self d ad) eqn:Es.
        -- left. destruct (Hcov d (skip_day_true _ _ _ Es)) as (a & Ha & Hk).
           exists a. split; [apply in_or_app; left; exact Ha|exact Hk].
        -- assert (Hb : cell_blocked self course d t st).
           { apply (F4 d); try assumption.
             eapply Permutation_in; [apply Permutation_sym; exact Hperm|].
             exact Hd. }
           destruct (cell_blocked_taken _ _ _ _ _ _ Hinv Hb) as [Ht1|He].
           ++ right. left. eapply cell_taken_incl; [|exact Ht1].
              apply incl_appl, incl_refl.
           ++ right. right. exact He.
    + simpl in G4. subst ad1.
      assert (Hd : In d (days self))
        by (eapply Permutation_in; [exact Hperm|exact G1]).
      destruct (commit_step _ _ _ _ _ _ _ _ Hinv Hcourse Hd G3 G5)
        as (Hinv1 & Hcf1).
      injection Emid as <-.
      assert (Hcov1 : forall d0, In d0 (days_add d ad) ->
        exists a, In a (committed ++ [assignment_of course name d t]) /\
                  assignment_key a = course_key course /\ a_day a = d0).
      { intros d0 Hd0. destruct (days_add_In _ _ _ Hd0) as [Hin| ->].
        - destruct (Hcov d0 Hin) as (a & Ha & Hk). exists a.
          split; [apply in_or_app; left; exact Ha|exact Hk].
        - exists (assignment_of course name d t).
          split; [apply in_or_app; right; left; reflexivity|].
          split; reflexivity. }
      destruct (IH _ _ _ _ Hinv1 Hcov1 H)
        as (new & K1 & K2 & K3 & K4 & K5 & K6).
      exists (assignment_of course name d t :: new).
      replace (committed ++ assignment_of course name d t :: new)
        with ((committed ++ [assignment_of course name d t]) ++ new)
        by (rewrite <- app_assoc; reflexivity).
      simpl List.length. splits.
      * exact K1.
      * constructor; [reflexivity|exact K2].
      * lia.
      * rewrite K4, Hcf1. reflexivity.
      * intros Hlen.
        assert (Hn : ~ In d ad) by (apply (skip_day_false self); [exact G2|lia]).
        rewrite (days_add_fresh _ _ Hn) in K5.
        rewrite length_app in K5. simpl in K5.
        destruct K5 as (N1 & N2); [lia|]. split.
        -- simpl. constructor; [|exact N1].
           intros Hin. apply in_map_iff in Hin. destruct Hin as (a & Ea & Ha).
           apply (N2 a Ha). rewrite Ea. apply in_or_app. right. left.
           reflexivity.
        -- intros a [<-|Ha]; [exact Hn|].
           intros Hin. apply (N2 a Ha). apply in_or_app. left. exact Hin.
      * intros Hlt. apply K6. lia.
Qed.
End Log.

Lemma filter_all {A} (f : A -> bool) (l : list A) :
  Forall (fun a => f a = true) l -> filter f l = l.
Proof.
  induction 1 as [|a l Ha _ IH]; simpl; [reflexivity|].
  rewrite Ha, IH. reflexivity.
Qed.

Lemma filter_none {A} (f : A -> bool) (l : list A) :
  Forall (fun a => f a = false) l -> filter f l = [].
Proof.
  induction 1 as [|a l Ha _ IH]; simpl; [reflexivity|].
  rewrite Ha, IH. reflexivity.
Qed.

Lemma sessions_of_own k l :
  Forall (fun a => assignment_key a = k) l -> sessions_of k l = l.
Proof.
  intros H. apply filter_all. eapply Forall_impl; [|exact H].
  intros a Ha. cbv beta in Ha. rewrite Ha. apply key_eqb_refl.
Qed.

Lemma sessions_of_others k (ks : list (string * string)) l :
  Forall (fun a => In (assignment_key a) ks) l -> ~ In k ks ->
  sessions_of k l = [].
Proof.
  intros H Hk. apply filter_none. eapply Forall_impl; [|exact H].
  intros a Ha. cbv beta in Ha. apply key_eqb_neq. intros E. apply Hk.
  rewrite <- E. exact Ha.
Qed.

Lemma course_outcome_blocked_incl self c d t (l l' : list Assignment) :
  incl l l' ->
  (exists a, In a l /\ assignment_key a = course_key c /\ a_day a = d) \/
  cell_taken self c d t l \/
  (exists room, In room (rooms self) /\ r_name room = EmptyString) ->
  (exists a, In a l' /\ assignment_key a = course_key c /\ a_day a = d) \/
  cell_taken self c d t l' \/
  (exists room, In room (rooms self) /\ r_name room = EmptyString).
Proof.
  intros Hincl [(a & Ha & H)|[H|H]].
  - left. exists a. split; [apply Hincl; exact Ha|exact H].
  - right. left. eapply cell_taken_incl; eassumption.
  - right. right. exact H.
Qed.

Lemma first_pass_log self : forall cs committed st st',
  committed_inv self committed st -> incl cs (courses self) ->
  first_pass self cs st = Ok (tt, st') ->
  exists new,
    committed_inv self (committed ++ new) st' /\
    Forall (fun a => In (assignment_key a) (map course_key cs)) new /\
    (List.length new + List.length (conflicts st')
     = List.length (conflicts st) + total_frequency cs)%nat /\
    (NoDup (map course_key cs) ->
     (forall c, In c cs -> sessions_of (course_key c) committed = []) ->
     forall c, In c cs -> course_outcome self c (committed ++ new)).
Proof.
  induction cs as [|c cs IH]; intros committed st st' Hinv Hincl H.
  - injection H as <-. exists []. rewrite app_nil_r. splits.
    + exact Hinv.
    + constructor.
    + unfold total_frequency. simpl. lia.
    + intros _ _ c [].
  - cbn [first_pass] in H. inv_bind H. destruct u.
    assert (Hc : In c (courses self)) by (apply Hincl; left; reflexivity).
    destruct (schedule_sessions_log self c Hc _ _ _ _ _ Hinv
                (fun d (Hd : In d []) => match Hd with end) E)
      as (new1 & K1 & K2 & K3 & K4 & K5 & K6).
    assert (Hincl' : incl cs (courses self))
      by (intros x Hx; apply Hincl; right; exact Hx).
    destruct (IH _ _ _ K1 Hincl' H) as (new2 & L1 & L2 & L3 & L4).
    exists (new1 ++ new2). rewrite app_assoc. splits.
    + exact L1.
    + apply Forall_app. split.
      * eapply Forall_impl; [|exact K2]. simpl. intros a ->. left. reflexivity.
      * eapply Forall_impl; [|exact L2]. simpl. intros a Ha. right. exact Ha.
    + rewrite length_app. rewrite K4, length_app, repeat_length in L3.
      unfold total_frequency in *. simpl. lia.
    + intros Hnd Hfresh x Hx. simpl in Hnd. inversion Hnd as [|k ks N1 N2].
      subst k ks.
      assert (Hkeys1 : Forall (fun a => In (assignment_key a) [course_key c])
                         new1).
      { eapply Forall_impl; [|exact K2]. simpl. intros a ->. left. reflexivity. }
      destruct Hx as [<-|Hx].
      * assert (Es : sessions_of (course_key c) ((committed ++ new1) ++ new2)
                     = new1).
        { rewrite !sessions_of_app, (Hfresh c (or_introl eq_refl)).
          rewrite (sessions_of_own _ _ K2).
          rewrite (sessions_of_others _ _ _ L2 N1). simpl.
          apply app_nil_r. }
        unfold course_outcome. rewrite Es. split.
        -- intros Hle. apply K5. simpl. exact Hle.
        -- intros Hlt d t Hd Ht.
           eapply course_outcome_blocked_incl;
             [|exact (K6 Hlt d t Hd Ht)].
           apply incl_appl, incl_refl.
      * apply L4; [exact N2| |exact Hx].
        intros y Hy. rewrite sessions_of_app.
        rewrite (Hfresh y (or_intror Hy)). simpl.
        apply (sessions_of_others _ _ _ Hkeys1).
        intros [E0|[]]. apply N1. rewrite E0. apply in_map. exact Hy.
Qed.

(** ** The log of a whole run *)

Lemma new_ledger_no_assignment names ds slots n d t a :
  ledger_get (new_ledger names ds slots) n d t <> Ok (Some a).
Proof.
  rewrite new_ledger_get.
  destruct (existsb (String.eqb n) names && existsb (String.eqb d) ds
            && existsb (String.eqb t) slots); discriminate.
Qed.

Lemma initial_committed_inv self rng :
  committed_inv self [] (initial_state self rng).
Proof.
  constructor; simpl.
  - apply initial_state_ok.
  - constructor.
  - intros c d t a H. exact (new_ledger_no_assignment _ _ _ _ _ _ _ H).
  - intros a [].
  - intros n d t a H. destruct (new_ledger_no_assignment _ _ _ _ _ _ _ H).
  - intros n d t a H. destruct (new_ledger_no_assignment _ _ _ _ _ _ _ H).
  - intros a [].
  - intros k n H.
    rewrite <- (map_map course_key (fun k => (k, O))) in H.
    rewrite of_list_get in H.
    destruct (existsb (key_eqb k) (map course_key (courses self)));
      [|discriminate H].
    injection H as <-. reflexivity.
  - apply of_list_keys_NoDup.
  - intros n Hn. apply new_ledger_keys in Hn. exact Hn.
Qed.

Lemma total_frequency_perm cs cs' :
  Permutation cs cs' -> total_frequency cs = total_frequency cs'.
Proof.
  unfold total_frequency.
  induction 1; simpl; lia.
Qed.

Lemma run_first_pass_log self rng st :
  run_first_pass self rng = Ok st ->
  exists committed,
    committed_inv self committed st /\
    (List.length committed + List.length (conflicts st)
     = total_frequency (courses self))%nat /\
    (NoDup (map course_key (courses self)) ->
     forall c, In c (courses self) -> course_outcome self c committed).
Proof.
  unfold run_first_pass. intros H.
  destruct (first_pass self (sorted_courses (courses self))
              (initial_state self rng)) as [[[] st1]|e] eqn:E;
    [|discriminate H].
  injection H as ->.
  pose proof (sorted_courses_perm (courses self)) as Hperm.
  destruct (first_pass_log self _ _ _ _ (initial_committed_inv self rng)
              (fun x Hx => Permutation_in x Hperm Hx) E)
    as (new & K1 & K2 & K3 & K4).
  exists new. simpl in K1, K3, K4. splits.
  - exact K1.
  - rewrite K3. apply total_frequency_perm. exact Hperm.
  - intros Hnd c Hc. apply K4.
    + eapply Permutation_NoDup; [|exact Hnd].
      apply Permutation_map, Permutation_sym. exact Hperm.
    + reflexivity.
    + eapply Permutation_in; [apply Permutation_sym; exact Hperm|exact Hc].
Qed.

Lemma schedule_permutation self committed st schedule :
  committed_inv self committed st ->
  NoDup (days self) -> NoDup (time_slots self) ->
  collect_schedule self st = Ok schedule ->
  Permutation schedule committed.
Proof.
  intros Hinv Hd Ht Hc.
  pose proof (ci_ok _ _ _ Hinv) as Hok.
  apply NoDup_Permutation.
  - eapply NoDup_map_inv. eapply collect_schedule_NoDup; eassumption.
  - eapply NoDup_map_inv. exact (ci_nodup _ _ _ Hinv).
  - intros a. split.
    + intros Ha.
      destruct (collect_schedule_In self st _ _ Hc Ha) as (c & d & t & Hg).
      eapply ci_sound; eassumption.
    + intros Ha. pose proof (ci_complete _ _ _ Hinv a Ha) as Hg.
      destruct (ci_wf _ _ _ Hinv a Ha) as (W1 & W2 & _).
      eapply collect_schedule_complete; try eassumption.
      eapply ledger_get_key. exact Hg.
Qed.

Lemma Permutation_filter {A} (f : A -> bool) (l l' : list A) :
  Permutation l l' -> Permutation (filter f l) (filter f l').
Proof.
  induction 1 as [|x l l' _ IH|x y l|l1 l2 l3 _ IH1 _ IH2]; simpl.
  - constructor.
  - destruct (f x); [constructor|]; exact IH.
  - destruct (f x), (f y); try reflexivity. apply perm_swap.
  - eapply perm_trans; eassumption.
Qed.

Lemma generate_schedule_log self rng schedule cfs :
  generate_schedule self rng = Ok (schedule, cfs) ->
  exists st committed,
    run_first_pass self rng = Ok st /\
    committed_inv self committed st /\
    collect_schedule self st = Ok schedule /\
    cfs = conflicts st ++ frequency_scan self st /\
    (List.length committed + List.length (conflicts st)
     = total_frequency (courses self))%nat /\
    (NoDup (map course_key (courses self)) ->
     forall c, In c (courses self) -> course_outcome self c committed).
Proof.
  intros H.
  destruct (generate_schedule_inv _ _ _ _ H) as (st & Hrun & _ & Hcol & Hcfs).
  destruct (run_first_pass_log _ _ _ Hrun) as (committed & K1 & K2 & K3).
  exists st, committed. splits; assumption.
Qed.

(** ** What a returned schedule says about the run *)

Lemma unscheduled_split self st :
  ledgers_ok self st ->
  unscheduled (conflicts st ++ frequency_scan self st) = conflicts st.
Proof.
  intros Hok. unfold unscheduled. rewrite filter_app.
  rewrite filter_all, filter_none; [apply app_nil_r| |].
  - apply Forall_forall. intros k Hk.
    rewrite (frequency_scan_types _ _ _ Hk). reflexivity.
  - eapply Forall_impl; [|exact (ok_conflicts _ _ Hok)].
    intros k Hk. cbv beta in Hk. rewrite Hk. reflexivity.
Qed.

(** X9. Every assignment of a returned schedule records a course of the
    course list with its class and its teacher, on a weekday, in a slot of
    the grid, for a listed class, a listed teacher and a listed room. *)
Theorem returned_assignments_name_the_inputs :
  forall fuel ts rs cls cs g self rng schedule cfs a,
    __init__ fuel ts rs cls cs g = Some self ->
    generate_schedule self rng = Ok (schedule, cfs) ->
    In a schedule ->
    (exists course, In course cs /\ a_course a = c_name course /\
                    a_class a = c_class course /\
                    a_teacher a = c_teacher course) /\
    In (a_day a) weekdays /\ In (a_time a) (time_slots self) /\
    In (a_class a) (map cl_name cls) /\
    In (a_teacher a) (map t_name ts) /\
    In (a_room a) (map r_name rs).
Proof.
  intros fuel ts rs cls cs g self rng schedule cfs a Hi Hg Ha.
  destruct (init_inv _ _ _ _ _ _ _ Hi) as (Hself & _).
  destruct (generate_schedule_log _ _ _ _ Hg)
    as (st & committed & _ & Hinv & Hcol & _).
  pose proof (ci_ok _ _ _ Hinv) as Hok.
  destruct (collect_schedule_In self st _ _ Hcol Ha) as (c & d & t & Hcell).
  pose proof (ci_sound _ _ _ Hinv _ _ _ _ Hcell) as Hin.
  destruct (ci_wf _ _ _ Hinv a Hin) as (W1 & W2 & W3).
  destruct (ok_cell _ _ Hok _ _ _ _ Hcell) as (E1 & E2 & E3 & Ht & Hr).
  destruct (ok_room _ _ Hok _ _ _ _ Hcell) as (room & R1 & R2 & _).
  assert (Hc : In (a_class a) (map cl_name (classes self))).
  { apply (ok_classes _ _ Hok). rewrite E1.
    eapply ledger_get_key. exact Hcell. }
  assert (Hteacher : In (a_teacher a) (map t_name (teachers self))).
  { apply (ci_teachers _ _ _ Hinv). eapply ledger_get_key. exact Ht. }
  rewrite Hself in W1, W3, Hc, Hteacher, R1. simpl in W1, W3, Hc, Hteacher, R1.
  splits; try assumption.
  rewrite <- R2. apply in_map. exact R1.
Qed.

Lemma returned_assignments_name_the_inputs_witness :
  exists schedule cfs,
    generate_schedule small_school draws = Ok (schedule, cfs) /\
    forall a, In a schedule ->
      In (a_day a) weekdays /\ In (a_time a) (time_slots small_school).
Proof.
  destruct (generate_schedule small_school draws) as [[schedule cfs]|e] eqn:E;
    [|vm_compute in E; discriminate E].
  exists schedule, cfs. split; [reflexivity|]. intros a Ha.
  destruct (returned_assignments_name_the_inputs 300 small_teachers
              small_rooms small_classes small_courses morning small_school
              draws schedule cfs a) as (_ & H1 & H2 & _).
  - vm_compute. reflexivity.
  - exact E.
  - exact Ha.
  - split; assumption.
Defined.

(** X10. Every required session is accounted for: the number of
    assignments in the returned schedule plus the number of 'Unscheduled
    Session' records in the returned conflicts is the sum of the
    frequencies of the courses. *)
Theorem every_session_is_scheduled_or_reported :
  forall fuel ts rs cls cs g self rng schedule cfs,
    grid_in_range g ->
    __init__ fuel ts rs cls cs g = Some self ->
    generate_schedule self rng = Ok (schedule, cfs) ->
    (List.length schedule + List.length (unscheduled cfs)
     = total_frequency cs)%nat.
Proof.
  intros fuel ts rs cls cs g self rng schedule cfs Hgrid Hi Hg.
  destruct (init_NoDup _ _ _ _ _ _ _ Hgrid Hi) as (Hd & Ht).
  destruct (init_inv _ _ _ _ _ _ _ Hi) as (Hself & _).
  destruct (generate_schedule_log _ _ _ _ Hg)
    as (st & committed & _ & Hinv & Hcol & -> & Hlen & _).
  rewrite (unscheduled_split self st (ci_ok _ _ _ Hinv)).
  rewrite (Permutation_length (schedule_permutation _ _ _ _ Hinv Hd Ht Hcol)).
  rewrite Hlen, Hself. reflexivity.
Qed.

Lemma every_session_is_scheduled_or_reported_witness :
  exists schedule cfs,
    generate_schedule small_school draws = Ok (schedule, cfs) /\
    (List.length schedule + List.length (unscheduled cfs) = 12)%nat.
Proof.
  destruct (generate_schedule small_school draws) as [[schedule cfs]|e] eqn:E;
    [|vm_compute in E; discriminate E].
  exists schedule, cfs. split; [reflexivity|].
  apply (every_session_is_scheduled_or_reported 300 small_teachers
           small_rooms small_classes small_courses morning small_school
           draws schedule cfs).
  - unfold grid_in_range, valid_time, steps_positive. simpl.
    repeat split; lia.
  - vm_compute. reflexivity.
  - exact E.
Defined.

(** X11. The tally [course_sessions] of a course is the number of
    assignments of the returned schedule that carry the name and the
    class of the course. *)
Theorem tally_counts_the_scheduled_sessions :
  forall fuel ts rs cls cs g self rng schedule cfs course n,
    grid_in_range g ->
    __init__ fuel ts rs cls cs g = Some self ->
    generate_schedule self rng = Ok (schedule, cfs) ->
    fulfilled_sessions self rng course = Some n ->
    List.length (sessions_of (course_key course) schedule) = n.
Proof.
  intros fuel ts rs cls cs g self rng schedule cfs course n Hgrid Hi Hg Hn.
  destruct (init_NoDup _ _ _ _ _ _ _ Hgrid Hi) as (Hd & Ht).
  destruct (generate_schedule_log _ _ _ _ Hg)
    as (st & committed & Hrun & Hinv & Hcol & _).
  unfold fulfilled_sessions in Hn. rewrite Hrun in Hn.
  rewrite <- (ci_tally _ _ _ Hinv _ _ Hn).
  apply Permutation_length, Permutation_filter.
  eapply schedule_permutation; eassumption.
Qed.

Lemma tally_counts_the_scheduled_sessions_witness :
  exists schedule cfs n,
    generate_schedule small_school draws = Ok (schedule, cfs) /\
    fulfilled_sessions small_school draws english = Some n /\
    List.length (sessions_of (course_key english) schedule) = n.
Proof.
  destruct (generate_schedule small_school draws) as [[schedule cfs]|e] eqn:E;
    [|vm_compute in E; discriminate E].
  destruct (fulfilled_sessions small_school draws english) as [n|] eqn:En;
    [|vm_compute in En; discriminate En].
  exists schedule, cfs, n. split; [reflexivity|]. split; [reflexivity|].
  apply (tally_counts_the_scheduled_sessions 300 small_teachers
           small_rooms small_classes small_courses morning small_school
           draws schedule cfs english n).
  - unfold grid_in_range, valid_time, steps_positive. simpl.
    repeat split; lia.
  - vm_compute. reflexivity.
  - exact E.
  - exact En.
Defined.

Lemma list_sum_map_add {A} (f g : A -> nat) (l : list A) :
  list_sum (map (fun x => (f x + g x)%nat) l)
  = (list_sum (map f l) + list_sum (map g l))%nat.
Proof. induction l as [|x l IH]; simpl; lia. Qed.

Lemma list_sum_cons (x : nat) (l : list nat) :
  list_sum (x :: l) = (x + list_sum l)%nat.
Proof. reflexivity. Qed.

Lemma key_count_absent (k : string * string) (cs : list Course) :
  ~ In k (map course_key cs) ->
  list_sum (map (fun c => if key_eqb k (course_key c) then 1%nat else O) cs)
  = O.
Proof.
  induction cs as [|c cs IH]; intros Hk; [reflexivity|].
  cbn [map]. rewrite list_sum_cons. rewrite IH by (intros H; apply Hk; right; exact H).
  rewrite key_eqb_neq; [reflexivity|].
  intros E. apply Hk. left. symmetry. exact E.
Qed.

Lemma key_count_once (k : string * string) (cs : list Course) :
  NoDup (map course_key cs) -> In k (map course_key cs) ->
  list_sum (map (fun c => if key_eqb k (course_key c) then 1%nat else O) cs)
  = 1%nat.
Proof.
  induction cs as [|c cs IH]; intros Hnd Hk; [destruct Hk|].
  simpl in Hnd. inversion Hnd as [|x xs N1 N2]. subst x xs.
  cbn [map]. rewrite list_sum_cons. destruct Hk as [E|Hk].
  - subst k. rewrite key_eqb_refl. rewrite (key_count_absent _ _ N1).
    reflexivity.
  - rewrite IH by assumption. rewrite key_eqb_neq; [reflexivity|].
    intros E. apply N1. rewrite <- E. exact Hk.
Qed.

Lemma sessions_partition (cs : list Course) (l : list Assignment) :
  NoDup (map course_key cs) ->
  Forall (fun a => In (assignment_key a) (map course_key cs)) l ->
  List.length l
  = list_sum (map (fun c => List.length (sessions_of (course_key c) l)) cs).
Proof.
  intros Hnd. induction 1 as [|a l Ha _ IH].
  - simpl. induction cs as [|c cs IHc]; [reflexivity|].
    simpl. apply IHc. simpl in Hnd. inversion Hnd. assumption.
  - transitivity
      (list_sum (map (fun c => if key_eqb (assignment_key a) (course_key c)
                               then 1%nat else O) cs)
       + list_sum (map (fun c => List.length (sessions_of (course_key c) l))
                     cs))%nat.
    + rewrite (key_count_once _ _ Hnd Ha), <- IH. reflexivity.
    + rewrite <- list_sum_map_add. f_equal. apply map_ext. intros c.
      unfold sessions_of. cbn [filter].
      destruct (key_eqb (assignment_key a) (course_key c)); reflexivity.
Qed.

Lemma required_frequency_cases (cs : list Course) k :
  required_frequency cs k = O \/
  exists c, In c cs /\ course_key c = k /\
            required_frequency cs k = c_frequency c.
Proof.
  induction cs as [|c cs IH]; [left; reflexivity|]. simpl.
  destruct (String.eqb_spec (c_name c) (fst k)) as [E1|];
    [destruct (String.eqb_spec (c_class c) (snd k)) as [E2|]|]; simpl.
  - right. exists c. split; [left; reflexivity|]. split; [|reflexivity].
    destruct k. unfold course_key. simpl in *. congruence.
  - destruct IH as [IH|(x & Hx & K)]; [left; exact IH|].
    right. exists x. split; [right; exact Hx|exact K].
  - destruct IH as [IH|(x & Hx & K)]; [left; exact IH|].
    right. exists x. split; [right; exact Hx|exact K].
Qed.

Lemma flat_map_nil {A B} (f : A -> list B) (l : list A) :
  flat_map f l = [] <-> forall x, In x l -> f x = [].
Proof.
  induction l as [|x l IH]; simpl.
  - split; [intros _ x []|reflexivity].
  - split.
    + intros H. apply app_eq_nil in H. destruct H as (H1 & H2).
      intros y [<-|Hy]; [exact H1|]. apply IH; assumption.
    + intros H. rewrite (H x (or_introl eq_refl)). simpl.
      apply IH. intros y Hy. apply H. right. exact Hy.
Qed.

(** X12. With courses uniquely identified by (name, class), the returned
    conflict list is empty exactly when the schedule holds, for every
    course, as many assignments as its frequency asks for.  This is the
    condition under which the application announces a schedule without
    conflicts. *)
Theorem no_conflicts_iff_every_course_complete :
  forall fuel ts rs cls cs g self rng schedule cfs,
    grid_in_range g ->
    __init__ fuel ts rs cls cs g = Some self ->
    NoDup (map course_key cs) ->
    generate_schedule self rng = Ok (schedule, cfs) ->
    (cfs = [] <->
     forall c, In c cs ->
       List.length (sessions_of (course_key c) schedule) = c_frequency c).
Proof.
  intros fuel ts rs cls cs g self rng schedule cfs Hgrid Hi Hnd Hg.
  destruct (init_NoDup _ _ _ _ _ _ _ Hgrid Hi) as (Hd & Ht).
  destruct (init_inv _ _ _ _ _ _ _ Hi) as (Hself & _).
  assert (Hcs : courses self = cs) by (rewrite Hself; reflexivity).
  destruct (generate_schedule_log _ _ _ _ Hg)
    as (st & committed & Hrun & Hinv & Hcol & -> & Hlen & _).
  pose proof (schedule_permutation _ _ _ _ Hinv Hd Ht Hcol) as Hperm.
  assert (Hcount : forall k,
    List.length (sessions_of k schedule)
    = List.length (sessions_of k committed)).
  { intros k. apply Permutation_length, Permutation_filter. exact Hperm. }
  rewrite Hcs in Hlen. split.
  - intros Hnil. apply app_eq_nil in Hnil. destruct Hnil as (_ & Hscan).
    intros c Hc.
    assert (Hc' : In c (courses self)) by (rewrite Hcs; exact Hc).
    rewrite <- Hcs in Hnd.
    destruct (run_first_pass_tally _ _ _ _ Hnd Hc' Hrun) as (n & Hn & Hle).
    rewrite Hcount, (ci_tally _ _ _ Hinv _ _ Hn).
    unfold frequency_scan in Hscan.
    pose proof (proj1 (flat_map_nil _ _) Hscan _ (get_In_items _ _ _ Hn))
      as Hitem.
    simpl in Hitem.
    rewrite (required_frequency_unique _ _ Hnd Hc') in Hitem.
    destruct (Nat.ltb_spec n (c_frequency c)); [discriminate Hitem|lia].
  - intros Hall.
    assert (Hkeys : Forall (fun a => In (assignment_key a) (map course_key cs))
                      committed).
    { apply Forall_forall. intros a Ha.
      destruct (ci_wf _ _ _ Hinv a Ha) as (_ & _ & c & Hc & E1 & E2 & _).
      rewrite Hcs in Hc. unfold assignment_key. rewrite E1, E2.
      apply (in_map course_key). exact Hc. }
    assert (Hfull : List.length committed = total_frequency cs).
    { rewrite (sessions_partition cs committed Hnd Hkeys).
      unfold total_frequency. f_equal. apply map_ext_in. intros c Hc.
      rewrite <- Hcount. apply Hall. exact Hc. }
    assert (Hnone : conflicts st = []).
    { destruct (conflicts st); [reflexivity|]. simpl in Hlen. lia. }
    rewrite Hnone. simpl. unfold frequency_scan. apply flat_map_nil.
    intros [k n] Hitem. simpl.
    apply (In_items_get _ _ _ (ci_keys _ _ _ Hinv)) in Hitem.
    pose proof (ci_tally _ _ _ Hinv _ _ Hitem) as Hn.
    rewrite Hcs.
    destruct (required_frequency_cases cs k) as [->|(c & Hc & Ek & ->)].
    + reflexivity.
    + rewrite <- Ek, <- Hcount, (Hall c Hc) in Hn. rewrite <- Hn.
      rewrite Nat.ltb_irrefl. reflexivity.
Qed.

Lemma no_conflicts_iff_every_course_complete_witness :
  exists schedule,
    generate_schedule full_school draws = Ok (schedule, []) /\
    forall c, In c [math] ->
      List.length (sessions_of (course_key c) schedule) = c_frequency c.
Proof.
  destruct (generate_schedule full_school draws) as [[schedule cfs]|e] eqn:E;
    [|vm_compute in E; discriminate E].
  assert (Hcfs : cfs = []).
  { revert E. vm_compute. intros [= _ <-]. reflexivity. }
  subst cfs. exists schedule. split; [reflexivity|].
  apply (no_conflicts_iff_every_course_complete 300 [mkTeacher "Ms. Wilson"]
           [mkRoom "Room 101" 30] [mkClass "Class 9A" 25] [math] school_day
           full_school draws schedule []).
  - unfold grid_in_range, valid_time, steps_positive. simpl.
    repeat split; lia.
  - vm_compute. reflexivity.
  - repeat constructor. intros [].
  - exact E.
  - reflexivity.
Defined.

(** X13. With courses uniquely identified by (name, class), the sessions
    of a course that asks for at most five sessions a week fall on
    pairwise distinct days. *)
Theorem sessions_of_a_course_on_distinct_days :
  forall fuel ts rs cls cs g self rng schedule cfs c,
    grid_in_range g ->
    __init__ fuel ts rs cls cs g = Some self ->
    NoDup (map course_key cs) ->
    generate_schedule self rng = Ok (schedule, cfs) ->
    In c cs -> (c_frequency c <= 5)%nat ->
    NoDup (map a_day (sessions_of (course_key c) schedule)).
Proof.
  intros fuel ts rs cls cs g self rng schedule cfs c Hgrid Hi Hnd Hg Hc Hf.
  destruct (init_NoDup _ _ _ _ _ _ _ Hgrid Hi) as (Hd & Ht).
  destruct (init_inv _ _ _ _ _ _ _ Hi) as (Hself & _).
  assert (Hcs : courses self = cs) by (rewrite Hself; reflexivity).
  assert (Hdays : days self = weekdays) by (rewrite Hself; reflexivity).
  destruct (generate_schedule_log _ _ _ _ Hg)
    as (st & committed & _ & Hinv & Hcol & _ & _ & Hout).
  rewrite Hcs in Hout. destruct (Hout Hnd c Hc) as (Hdistinct & _).
  eapply Permutation_NoDup; [|apply Hdistinct; rewrite Hdays; exact Hf].
  apply Permutation_map, Permutation_filter, Permutation_sym.
  eapply schedule_permutation; eassumption.
Qed.

Lemma sessions_of_a_course_on_distinct_days_witness :
  exists schedule cfs,
    generate_schedule small_school draws = Ok (schedule, cfs) /\
    NoDup (map a_day (sessions_of (course_key english) schedule)).
Proof.
  destruct (generate_schedule small_school draws) as [[schedule cfs]|e] eqn:E;
    [|vm_compute in E; discriminate E].
  exists schedule, cfs. split; [reflexivity|].
  apply (sessions_of_a_course_on_distinct_days 300 small_teachers
           small_rooms small_classes small_courses morning small_school
           draws schedule cfs english).
  - unfold grid_in_range, valid_time, steps_positive. simpl.
    repeat split; lia.
  - vm_compute. reflexivity.
  - simpl. repeat constructor; simpl; intuition discriminate.
  - exact E.
  - simpl. tauto.
  - simpl. lia.
Defined.

(** X14. The search gives up only on a blocked week.  With courses
    uniquely identified by (name, class) and rooms with non-empty names,
    if the schedule holds fewer sessions of a course than its frequency,
    then on every weekday the course already has a session, or at every
    slot of that day its class or its teacher is taken, or every room
    large enough for the class is. *)
Theorem missing_session_means_blocked_week :
  forall fuel ts rs cls cs g self rng schedule cfs c d t,
    grid_in_range g ->
    __init__ fuel ts rs cls cs g = Some self ->
    NoDup (map course_key cs) ->
    (forall room, In room rs -> r_name room <> EmptyString) ->
    generate_schedule self rng = Ok (schedule, cfs) ->
    In c cs ->
    (List.length (sessions_of (course_key c) schedule) < c_frequency c)%nat ->
    In d weekdays -> In t (time_slots self) ->
    (exists a, In a schedule /\ assignment_key a = course_key c /\
               a_day a = d) \/
    cell_taken self c d t schedule.
Proof.
  intros fuel ts rs cls cs g self rng schedule cfs c d t Hgrid Hi Hnd Hnames
    Hg Hc Hlt Hd Ht.
  destruct (init_NoDup _ _ _ _ _ _ _ Hgrid Hi) as (Hdn & Htn).
  destruct (init_inv _ _ _ _ _ _ _ Hi) as (Hself & _).
  assert (Hcs : courses self = cs) by (rewrite Hself; reflexivity).
  assert (Hdays : days self = weekdays) by (rewrite Hself; reflexivity).
  assert (Hrooms : rooms self = rs) by (rewrite Hself; reflexivity).
  destruct (generate_schedule_log _ _ _ _ Hg)
    as (st & committed & _ & Hinv & Hcol & _ & _ & Hout).
  pose proof (schedule_permutation _ _ _ _ Hinv Hdn Htn Hcol) as Hperm.
  rewrite Hcs in Hout. destruct (Hout Hnd c Hc) as (_ & Hblocked).
  assert (Hcount : List.length (sessions_of (course_key c) schedule)
                   = List.length (sessions_of (course_key c) committed))
    by (apply Permutation_length, Permutation_filter; exact Hperm).
  rewrite Hcount in Hlt.
  rewrite <- Hdays in Hd.
  pose proof (Hblocked Hlt d t Hd Ht) as Hb.
  apply (course_outcome_blocked_incl self c d t committed schedule) in Hb.
  - destruct Hb as [Hb|[Hb|(room & Hin & Hempty)]]; [left; exact Hb| |].
    + right. exact Hb.
    + rewrite Hrooms in Hin. destruct (Hnames room Hin Hempty).
  - intros a Ha. eapply Permutation_in; [apply Permutation_sym|]; eassumption.
Qed.

Lemma missing_session_means_blocked_week_witness :
  exists schedule cfs,
    generate_schedule crowded_school draws = Ok (schedule, cfs) /\
    ((exists a, In a schedule /\ assignment_key a = course_key art /\
                a_day a = "Monday") \/
     cell_taken crowded_school art "Monday" "08:00-08:50" schedule).
Proof.
  destruct (generate_schedule crowded_school draws) as [[schedule cfs]|e] eqn:E;
    [|vm_compute in E; discriminate E].
  exists schedule, cfs. split; [reflexivity|].
  apply (missing_session_means_blocked_week 300 [mkTeacher "Ms. Wilson"]
           [mkRoom "Room 101" 30] [mkClass "Class 9A" 25] [math; art] one_slot
           crowded_school draws schedule cfs art "Monday" "08:00-08:50").
  - unfold grid_in_range, valid_time, steps_positive. simpl.
    repeat split; lia.
  - vm_compute. reflexivity.
  - simpl. repeat constructor; simpl; intuition discriminate.
  - intros room [<-|[]]. discriminate.
  - exact E.
  - simpl. tauto.
  - revert E. vm_compute. intros [= <- _]. lia.
  - simpl. tauto.
  - simpl. tauto.
Defined.

(** ** A course that names an unlisted class or teacher *)

Lemma existsb_eqb_not_In (x : string) (l : list string) :
  ~ In x l -> existsb (String.eqb x) l = false.
Proof.
  intros H. destruct (existsb (String.eqb x) l) eqn:E; [|reflexivity].
  apply existsb_eqb_In in E. contradiction.
Qed.

Lemma new_ledger_free names ds slots n d t :
  In n names -> In d ds -> In t slots ->
  ledger_get (new_ledger names ds slots) n d t = Ok None.
Proof.
  intros Hn Hd Ht. rewrite new_ledger_get.
  rewrite (proj2 (existsb_eqb_In n _) Hn), (proj2 (existsb_eqb_In d _) Hd),
    (proj2 (existsb_eqb_In t _) Ht).
  reflexivity.
Qed.

Lemma new_ledger_missing names ds slots n d t :
  ~ In n names -> ledger_get (new_ledger names ds slots) n d t = Raise KeyError.
Proof.
  intros Hn. rewrite new_ledger_get, (existsb_eqb_not_In _ _ Hn). reflexivity.
Qed.

Lemma shuffle_m_initial {A} (x : list A) self rng :
  exists x' rng',
    shuffle_m x (initial_state self rng) = Ok (x', initial_state self rng') /\
    Permutation x' x.
Proof.
  unfold shuffle_m. simpl random.
  pose proof (shuffle_perm x rng) as Hp.
  destruct (shuffle x rng) as [x' rng']. exists x', rng'.
  split; [reflexivity|exact Hp].
Qed.

Lemma Permutation_cons_exists {A} (x' x : list A) :
  Permutation x' x -> x <> [] -> exists a rest, x' = a :: rest /\ In a x.
Proof.
  intros Hp Hx. destruct x' as [|a rest].
  - apply Permutation_nil in Hp. contradiction.
  - exists a, rest. split; [reflexivity|].
    eapply Permutation_in; [exact Hp|left; reflexivity].
Qed.

Section Dangling.
Variable self : ScheduleGenerator.
Variable course : Course.
Hypothesis Hnames : forall room, In room (rooms self) -> r_name room <> EmptyString.
Hypothesis Hroom : exists room,
  In room (rooms self) /\
  _get_class_size self (c_class course) <= r_capacity room.
Hypothesis Hdangling :
  ~ (In (c_class course) (map cl_name (classes self)) /\
     In (c_teacher course) (map t_name (teachers self))).

Local Abbreviation size := (_get_class_size self (c_class course)).

Lemma find_room_initial d t rng :
  In d (days self) -> In t (time_slots self) ->
  exists room rng',
    In room (rooms self) /\
    _find_available_room self size d t (initial_state self rng)
    = Ok (Some (r_name room), initial_state self rng').
Proof.
  intros Hd Ht. unfold _find_available_room, bind.
  destruct (shuffle_m_initial
              (filter (fun room => size <=? r_capacity room) (rooms self))
              self rng) as (x' & rng' & -> & Hp).
  assert (Hne : filter (fun room => size <=? r_capacity room) (rooms self)
                <> []).
  { destruct Hroom as (room & Hin & Hcap). intros E.
    assert (Hf : In room (filter (fun room => size <=? r_capacity room)
                            (rooms self)))
      by (apply filter_In; split; [exact Hin|apply Z.leb_le; exact Hcap]).
    rewrite E in Hf. destruct Hf. }
  destruct (Permutation_cons_exists _ _ Hp Hne) as (room & rest & -> & Hin).
  apply filter_In in Hin. destruct Hin as (Hin & _).
  exists room, rng'. split; [exact Hin|].
  unfold lift. simpl.
  rewrite new_ledger_free; [reflexivity| |exact Hd|exact Ht].
  apply in_map. exact Hin.
Qed.

Lemma is_slot_available_dangling name d t rng :
  In d (days self) -> In t (time_slots self) ->
  _is_slot_available (c_class course) (c_teacher course) name d t
    (initial_state self rng) = Raise KeyError.
Proof.
  intros Hd Ht. unfold _is_slot_available, lift. simpl.
  destruct (in_dec string_dec (c_class course) (map cl_name (classes self)))
    as [Hc|Hc].
  - rewrite (new_ledger_free _ _ _ _ _ _ Hc Hd Ht).
    rewrite new_ledger_missing; [reflexivity|].
    intros Hteacher. apply Hdangling. split; assumption.
  - rewrite (new_ledger_missing _ _ _ _ _ _ Hc). reflexivity.
Qed.

Lemma try_time_slots_dangling d ad t slots rng :
  In d (days self) -> In t (time_slots self) ->
  try_time_slots self course size d ad (t :: slots) (initial_state self rng)
  = Raise KeyError.
Proof.
  intros Hd Ht. cbn [try_time_slots]. unfold bind at 1.
  destruct (find_room_initial d t rng Hd Ht) as (room & rng' & Hin & ->).
  unfold bind at 1.
  destruct (str_truthy (r_name room)) eqn:Etruthy.
  - rewrite (is_slot_available_dangling _ _ _ _ Hd Ht). reflexivity.
  - destruct (r_name room) eqn:En; [|discriminate Etruthy].
    destruct (Hnames room Hin En).
Qed.

Hypothesis Hdays : days self <> [].
Hypothesis Hslots : time_slots self <> [].

Lemma schedule_first_session_dangling n rng :
  schedule_sessions self course size [] (S n) (initial_state self rng)
  = Raise KeyError.
Proof.
  cbn [schedule_sessions]. unfold bind at 1.
  destruct (shuffle_m_initial (days self) self rng) as (ds & rng1 & -> & Hp).
  destruct (Permutation_cons_exists _ _ Hp Hdays) as (d & ds' & -> & Hd).
  unfold bind at 1. cbn [try_days].
  replace (skip_day self d []) with false by reflexivity.
  unfold bind at 1.
  destruct (shuffle_m_initial (time_slots self) self rng1)
    as (sl & rng2 & -> & Hp2).
  destruct (Permutation_cons_exists _ _ Hp2 Hslots) as (t & sl' & -> & Ht).
  unfold bind at 1.
  rewrite (try_time_slots_dangling d [] t sl' rng2 Hd Ht). reflexivity.
Qed.
End Dangling.

(** X15. A dangling reference makes the run fail.  When the course
    processed first asks for at least one session and names a class that
    is not in the classes list or a teacher that is not in the teachers
    list, the grid has a slot, the rooms have non-empty names and one of
    them is large enough, [generate_schedule] raises [KeyError] whatever
    the draws of the random generator. *)
Theorem dangling_reference_raises_KeyError :
  forall fuel ts rs cls cs g self rng c rest,
    __init__ fuel ts rs cls cs g = Some self ->
    sorted_courses cs = c :: rest ->
    (0 < c_frequency c)%nat ->
    time_slots self <> [] ->
    (forall room, In room rs -> r_name room <> EmptyString) ->
    (exists room, In room rs /\
                  _get_class_size self (c_class c) <= r_capacity room) ->
    ~ (In (c_class c) (map cl_name cls) /\ In (c_teacher c) (map t_name ts)) ->
    generate_schedule self rng = Raise KeyError.
Proof.
  intros fuel ts rs cls cs g self rng c rest Hi Hsorted Hf Hslots Hnames Hroom
    Hdangling.
  destruct (init_inv _ _ _ _ _ _ _ Hi) as (Hself & _).
  assert (Hrs : rooms self = rs) by (rewrite Hself; reflexivity).
  assert (Hcls : classes self = cls) by (rewrite Hself; reflexivity).
  assert (Hts : teachers self = ts) by (rewrite Hself; reflexivity).
  assert (Hcs : courses self = cs) by (rewrite Hself; reflexivity).
  assert (Hdays : days self <> []) by (rewrite Hself; discriminate).
  rewrite <- Hrs in Hnames, Hroom. rewrite <- Hcls, <- Hts in Hdangling.
  unfold generate_schedule, run_first_pass. rewrite Hcs, Hsorted.
  cbn [first_pass]. unfold bind at 1.
  destruct (c_frequency c) as [|n] eqn:En; [lia|].
  rewrite (schedule_first_session_dangling self c Hnames Hroom Hdangling
             Hdays Hslots n rng).
  reflexivity.
Qed.

Lemma dangling_reference_raises_KeyError_witness :
  generate_schedule
    (mkGenerator [mkTeacher "Dr. Brown"] [mkRoom "Room 101" 30]
       [mkClass "Class 9A" 25] [math]
       morning weekdays (time_slots morning_school)) draws
  = Raise KeyError.
Proof.
  apply (dangling_reference_raises_KeyError 300 [mkTeacher "Dr. Brown"]
           [mkRoom "Room 101" 30]
           [mkClass "Class 9A" 25] [math] morning _ draws math []).
  - vm_compute. reflexivity.
  - reflexivity.
  - simpl. lia.
  - discriminate.
  - intros room [<-|[]]. discriminate.
  - exists (mkRoom "Room 101" 30). split; [left; reflexivity|].
    vm_compute. discriminate.
  - simpl. intros (_ & [E|[]]). discriminate E.
Defined.

(** * The data manager and the pages *)

(** ** List objects *)

Lemma list_set_length {A} (v : A) : forall x i,
  List.length (list_set i v x) = List.length x.
Proof.
  induction x as [|a x IH]; intros i; [destruct i; reflexivity|].
  destruct i; simpl; [reflexivity|]. rewrite IH. reflexivity.
Qed.

Lemma nth_list_set_eq {A} (v d : A) : forall x i,
  (i < List.length x)%nat -> nth i (list_set i v x) d = v.
Proof.
  induction x as [|a x IH]; intros i Hi; simpl in Hi; [lia|].
  destruct i; simpl; [reflexivity|]. apply IH. lia.
Qed.

Lemma nth_list_set_ne {A} (v d : A) : forall x i j,
  i <> j -> nth j (list_set i v x) d = nth j x d.
Proof.
  induction x as [|a x IH]; intros i j Hne; [destruct i; reflexivity|].
  destruct i, j; simpl; try reflexivity; try congruence.
  apply IH. congruence.
Qed.

Section TableFacts.
Context {A : Type}.
Implicit Types (t : Table A) (x : A).

Lemma append_data_ok x t : table_ok t -> table_ok (append_data x t).
Proof.
  unfold table_ok, append_data. simpl. rewrite list_set_length. tauto.
Qed.

Lemma rebind_data_ok keep t : table_ok t -> table_ok (rebind_data keep t).
Proof.
  unfold table_ok, rebind_data. simpl. rewrite length_app. simpl. lia.
Qed.

Lemma clear_data_ok t : table_ok t -> table_ok (clear_data t).
Proof.
  unfold table_ok, clear_data. simpl. rewrite length_app. simpl. lia.
Qed.

Lemma refresh_view_ok t : table_ok t -> table_ok (refresh_view t).
Proof. unfold table_ok, refresh_view. simpl. tauto. Qed.

Lemma get_data_append x t :
  table_ok t -> get_data (append_data x t) = get_data t ++ [x].
Proof.
  intros (Hd & _). unfold get_data, deref, append_data. simpl.
  apply nth_list_set_eq. exact Hd.
Qed.

(** The list shown changes with an append exactly when the two
    attributes are bound to the same object. *)
Lemma get_view_append x t :
  table_ok t ->
  get_view (append_data x t)
  = if (view t =? data t)%nat then get_data t ++ [x] else get_view t.
Proof.
  intros (Hd & _). unfold get_view, get_data, deref, append_data. simpl.
  destruct (Nat.eqb_spec (view t) (data t)) as [->|Hne].
  - apply nth_list_set_eq. exact Hd.
  - apply nth_list_set_ne. congruence.
Qed.

Lemma get_data_rebind keep t :
  get_data (rebind_data keep t) = filter keep (get_data t).
Proof.
  unfold get_data at 1, deref, rebind_data. simpl.
  rewrite app_nth2 by lia. rewrite Nat.sub_diag. reflexivity.
Qed.

Lemma get_view_rebind keep t :
  table_ok t -> get_view (rebind_data keep t) = get_view t.
Proof.
  intros (_ & Hv). unfold get_view, deref, rebind_data. simpl.
  apply app_nth1. exact Hv.
Qed.

Lemma get_data_clear t : get_data (clear_data t) = [].
Proof.
  unfold get_data, deref, clear_data. simpl.
  rewrite app_nth2 by lia. rewrite Nat.sub_diag. reflexivity.
Qed.

Lemma get_view_clear t : table_ok t -> get_view (clear_data t) = get_view t.
Proof.
  intros (_ & Hv). unfold get_view, deref, clear_data. simpl.
  apply app_nth1. exact Hv.
Qed.

Lemma get_view_refresh t : get_view (refresh_view t) = get_data t.
Proof. reflexivity. Qed.

Lemma get_data_refresh t : get_data (refresh_view t) = get_data t.
Proof. reflexivity. Qed.
End TableFacts.

Lemma new_table_ok {A} : table_ok (@new_table A).
Proof. unfold table_ok, new_table. simpl. lia. Qed.

(** ** The invariant of the pages *)

Lemma truthy_nonempty s : str_truthy s = true -> s <> EmptyString.
Proof. intros H ->. discriminate H. Qed.

Lemma filter_incl_In {A} (f : A -> bool) (l : list A) x :
  In x (filter f l) -> In x l.
Proof. intros H. apply filter_In in H. tauto. Qed.

Ltac table_ok_tac :=
  repeat first
    [ assumption
    | apply refresh_view_ok
    | apply append_data_ok
    | apply rebind_data_ok
    | apply clear_data_ok
    | apply new_table_ok ].

Ltac tbl :=
  unfold DataManager.get_teachers, DataManager.get_rooms,
    DataManager.get_classes, DataManager.get_courses,
    DataManager.add_teacher, DataManager.add_room, DataManager.add_class,
    DataManager.add_course, DataManager.remove_teacher,
    DataManager.remove_room, DataManager.remove_class,
    DataManager.remove_course, DataManager.clear_all_data,
    with_teachers, with_rooms, with_classes, with_courses in *;
  cbn [ss_teachers ss_rooms ss_classes ss_courses ss_schedule ss_conflicts
       snd fst] in *;
  repeat first
    [ rewrite get_view_refresh
    | rewrite get_data_refresh
    | rewrite get_data_rebind
    | rewrite get_data_clear
    | rewrite get_data_append by table_ok_tac
    | rewrite get_view_rebind by table_ok_tac
    | rewrite get_view_clear by table_ok_tac ].

(** The loops of "Load Sample Data" append one row for each sample. *)
Lemma load_teachers_spec : forall rows ids s,
  table_ok (ss_teachers s) ->
  let s' := snd (App.load_teachers ids rows s) in
  map tr_name (get_data (ss_teachers s'))
  = map tr_name (get_data (ss_teachers s)) ++ map fst rows /\
  table_ok (ss_teachers s') /\ ss_rooms s' = ss_rooms s /\
  ss_classes s' = ss_classes s /\ ss_courses s' = ss_courses s.
Proof.
  induction rows as [|row rows IH]; intros ids s Hok; cbn zeta.
  - simpl. rewrite app_nil_r. auto.
  - cbn [App.load_teachers].
    specialize (IH (tl ids)
      (snd (DataManager.add_teacher (hd EmptyString ids) (fst row) (snd row) s))).
    cbn zeta in IH. destruct IH as (E & K & F1 & F2 & F3).
    + tbl. table_ok_tac.
    + splits.
      * rewrite E. tbl. rewrite map_app, <- app_assoc. reflexivity.
      * exact K.
      * rewrite F1. reflexivity.
      * rewrite F2. reflexivity.
      * rewrite F3. reflexivity.
Qed.

Lemma load_rooms_spec : forall rows ids s,
  table_ok (ss_rooms s) ->
  let s' := snd (App.load_rooms ids rows s) in
  map (fun r => (rr_name r, rr_capacity r)) (get_data (ss_rooms s'))
  = map (fun r => (rr_name r, rr_capacity r)) (get_data (ss_rooms s)) ++ rows /\
  table_ok (ss_rooms s') /\ ss_teachers s' = ss_teachers s /\
  ss_classes s' = ss_classes s /\ ss_courses s' = ss_courses s.
Proof.
  induction rows as [|row rows IH]; intros ids s Hok; cbn zeta.
  - simpl. rewrite app_nil_r. auto.
  - cbn [App.load_rooms].
    specialize (IH (tl ids)
      (snd (DataManager.add_room (hd EmptyString ids) (fst row) (snd row) s))).
    cbn zeta in IH. destruct IH as (E & K & F1 & F2 & F3).
    + tbl. table_ok_tac.
    + splits.
      * rewrite E. tbl. rewrite map_app, <- app_assoc. destruct row.
        reflexivity.
      * exact K.
      * rewrite F1. reflexivity.
      * rewrite F2. reflexivity.
      * rewrite F3. reflexivity.
Qed.

Lemma load_classes_spec : forall rows ids s,
  table_ok (ss_classes s) ->
  let s' := snd (App.load_classes ids rows s) in
  map (fun c => (cr_name c, cr_size c)) (get_data (ss_classes s'))
  = map (fun c => (cr_name c, cr_size c)) (get_data (ss_classes s)) ++ rows /\
  table_ok (ss_classes s') /\ ss_teachers s' = ss_teachers s /\
  ss_rooms s' = ss_rooms s /\ ss_courses s' = ss_courses s.
Proof.
  induction rows as [|row rows IH]; intros ids s Hok; cbn zeta.
  - simpl. rewrite app_nil_r. auto.
  - cbn [App.load_classes].
    specialize (IH (tl ids)
      (snd (DataManager.add_class (hd EmptyString ids) (fst row) (snd row) s))).
    cbn zeta in IH. destruct IH as (E & K & F1 & F2 & F3).
    + tbl. table_ok_tac.
    + splits.
      * rewrite E. tbl. rewrite map_app, <- app_assoc. destruct row.
        reflexivity.
      * exact K.
      * rewrite F1. reflexivity.
      * rewrite F2. reflexivity.
      * rewrite F3. reflexivity.
Qed.

Lemma load_courses_spec : forall rows ids s,
  table_ok (ss_courses s) ->
  let s' := snd (App.load_courses ids rows s) in
  map (fun c => (co_name c, co_teacher c, co_class c, co_duration c,
                 co_frequency c)) (get_data (ss_courses s'))
  = map (fun c => (co_name c, co_teacher c, co_class c, co_duration c,
                   co_frequency c)) (get_data (ss_courses s))
    ++ map sample_course_fields rows /\
  table_ok (ss_courses s') /\ ss_teachers s' = ss_teachers s /\
  ss_rooms s' = ss_rooms s /\ ss_classes s' = ss_classes s.
Proof.
  induction rows as [|row rows IH]; intros ids s Hok; cbn zeta.
  - simpl. rewrite app_nil_r. auto.
  - destruct row as [[[[name teacher] cls] duration] frequency].
    cbn [App.load_courses].
    specialize (IH (tl ids)
      (snd (DataManager.add_course (hd EmptyString ids) name (Some teacher)
              (Some cls) duration frequency s))).
    cbn zeta in IH. destruct IH as (E & K & F1 & F2 & F3).
    + tbl. table_ok_tac.
    + splits.
      * rewrite E. tbl. rewrite map_app, <- app_assoc. reflexivity.
      * exact K.
      * rewrite F1. reflexivity.
      * rewrite F2. reflexivity.
      * rewrite F3. reflexivity.
Qed.

Lemma load_sample_spec ids s :
  table_ok (ss_teachers s) -> table_ok (ss_rooms s) ->
  table_ok (ss_classes s) -> table_ok (ss_courses s) ->
  let s' := App.on_load_sample ids s in
  (table_ok (ss_teachers s') /\ table_ok (ss_rooms s') /\
   table_ok (ss_classes s') /\ table_ok (ss_courses s')) /\
  (get_view (ss_teachers s') = get_data (ss_teachers s') /\
   get_view (ss_rooms s') = get_data (ss_rooms s') /\
   get_view (ss_classes s') = get_data (ss_classes s') /\
   get_view (ss_courses s') = get_data (ss_courses s')) /\
  map tr_name (get_data (ss_teachers s')) = map fst sample_teachers /\
  map (fun r => (rr_name r, rr_capacity r)) (get_data (ss_rooms s'))
  = sample_rooms /\
  map (fun c => (cr_name c, cr_size c)) (get_data (ss_classes s'))
  = sample_classes /\
  map (fun c => (co_name c, co_teacher c, co_class c, co_duration c,
                 co_frequency c)) (get_data (ss_courses s'))
  = map sample_course_fields sample_courses.
Proof.
  intros T1 T2 T3 T4. cbn zeta. unfold App.on_load_sample.
  set (s0 := DataManager.clear_all_data s).
  assert (K0 : table_ok (ss_teachers s0) /\ table_ok (ss_rooms s0) /\
               table_ok (ss_classes s0) /\ table_ok (ss_courses s0) /\
               get_data (ss_teachers s0) = [] /\ get_data (ss_rooms s0) = [] /\
               get_data (ss_classes s0) = [] /\ get_data (ss_courses s0) = []).
  { subst s0. tbl. splits; try reflexivity; table_ok_tac. }
  clearbody s0. destruct K0 as (A1 & A2 & A3 & A4 & D1 & D2 & D3 & D4).
  pose proof (load_teachers_spec sample_teachers ids s0 A1) as L1.
  destruct (App.load_teachers ids sample_teachers s0) as [ids1 s1].
  cbn zeta in L1. cbn [snd] in L1. destruct L1 as (E1 & B1 & F12 & F13 & F14).
  rewrite <- F12 in A2, D2. rewrite <- F13 in A3, D3. rewrite <- F14 in A4, D4.
  pose proof (load_rooms_spec sample_rooms ids1 s1 A2) as L2.
  destruct (App.load_rooms ids1 sample_rooms s1) as [ids2 s2].
  cbn zeta in L2. cbn [snd] in L2. destruct L2 as (E2 & B2 & F21 & F23 & F24).
  rewrite <- F21 in B1, E1. rewrite <- F23 in A3, D3. rewrite <- F24 in A4, D4.
  pose proof (load_classes_spec sample_classes ids2 s2 A3) as L3.
  destruct (App.load_classes ids2 sample_classes s2) as [ids3 s3].
  cbn zeta in L3. cbn [snd] in L3. destruct L3 as (E3 & B3 & F31 & F32 & F34).
  rewrite <- F31 in B1, E1. rewrite <- F32 in B2, E2. rewrite <- F34 in A4, D4.
  pose proof (load_courses_spec sample_courses ids3 s3 A4) as L4.
  destruct (App.load_courses ids3 sample_courses s3) as [ids4 s4].
  cbn zeta in L4. cbn [snd] in L4. destruct L4 as (E4 & B4 & F41 & F42 & F43).
  rewrite <- F41 in B1, E1. rewrite <- F42 in B2, E2. rewrite <- F43 in B3, E3.
  rewrite D1 in E1. rewrite D2 in E2. rewrite D3 in E3. rewrite D4 in E4.
  tbl. splits; [splits; table_ok_tac|splits; reflexivity|assumption..].
Qed.

Lemma sample_courses_ok :
  Forall (fun r : string * string * string * Z * nat =>
            let '(name, teacher, cls, _, frequency) := r in
            name <> EmptyString /\ (1 <= frequency <= 5)%nat /\
            In cls (map fst sample_classes) /\
            In teacher (map fst sample_teachers)) sample_courses.
Proof.
  unfold sample_courses.
  repeat (constructor;
          [split; [discriminate|]; split; [lia|]; split; simpl; tauto|]).
  constructor.
Qed.

Lemma sample_teachers_ok :
  Forall (fun n => n <> EmptyString) (map fst sample_teachers).
Proof. simpl. repeat (constructor; [discriminate|]). constructor. Qed.

Lemma sample_rooms_ok :
  Forall (fun r : string * Z => fst r <> EmptyString /\ 1 <= snd r)
    sample_rooms.
Proof.
  unfold sample_rooms.
  repeat (constructor; [split; [discriminate|simpl; lia]|]). constructor.
Qed.

Lemma sample_classes_ok :
  Forall (fun r : string * Z => fst r <> EmptyString /\ 1 <= snd r)
    sample_classes.
Proof.
  unfold sample_classes.
  repeat (constructor; [split; [discriminate|simpl; lia]|]). constructor.
Qed.

Lemma page_inv_same_tables s s' :
  ss_teachers s' = ss_teachers s -> ss_rooms s' = ss_rooms s ->
  ss_classes s' = ss_classes s -> ss_courses s' = ss_courses s ->
  page_inv s -> page_inv s'.
Proof.
  destruct s, s'. simpl. intros -> -> -> -> [H1 H2 H3 H4 H5 H6 H7 H8 H9 H10].
  constructor; assumption.
Qed.

Lemma class_choice_listed s n :
  In (Some n) (App.class_choices s) ->
  In n (map cr_name (get_view (ss_classes s))).
Proof.
  unfold App.class_choices, App.class_options, App.selectbox.
  destruct (get_view (ss_classes s)) as [|c cs]; cbn [App.is_empty].
  - intros [H|[]]. discriminate H.
  - intros H. apply in_map_iff in H. destruct H as (x & [= ->] & Hx).
    exact Hx.
Qed.

Lemma teacher_choice_listed s n :
  In (Some n) (App.teacher_choices s) ->
  In n (map tr_name (get_view (ss_teachers s))).
Proof.
  unfold App.teacher_choices, App.teacher_options, App.selectbox.
  destruct (get_view (ss_teachers s)) as [|c cs]; cbn [App.is_empty].
  - intros [H|[]]. discriminate H.
  - intros H. apply in_map_iff in H. destruct H as (x & [= ->] & Hx).
    exact Hx.
Qed.

(** A stored sample course has the fields of a sample row. *)
Lemma sample_fields_In (c : CourseRow) :
  In (co_name c, co_teacher c, co_class c, co_duration c, co_frequency c)
    (map sample_course_fields sample_courses) ->
  exists teacher cls,
    co_teacher c = Some teacher /\ co_class c = Some cls /\
    co_name c <> EmptyString /\ (1 <= co_frequency c <= 5)%nat /\
    In cls (map fst sample_classes) /\
    In teacher (map fst sample_teachers).
Proof.
  intros H. apply in_map_iff in H. destruct H as (row & E & Hrow).
  pose proof (proj1 (Forall_forall _ _) sample_courses_ok _ Hrow) as Hok.
  destruct row as [[[[name teacher] cls] duration] frequency].
  cbv beta iota zeta in Hok. unfold sample_course_fields in E.
  injection E as E1 E2 E3 E4 E5.
  exists teacher, cls. rewrite <- E1, <- E2, <- E3, <- E5.
  destruct Hok as (K1 & K2 & K3 & K4). splits; auto.
Qed.

Lemma on_generate_tables fuel g rng s s' :
  App.on_generate fuel g rng s = Some (Done s') ->
  ss_teachers s' = ss_teachers s /\ ss_rooms s' = ss_rooms s /\
  ss_classes s' = ss_classes s /\ ss_courses s' = ss_courses s.
Proof.
  unfold App.on_generate.
  destruct (_ || _ || _ || _).
  - intros [= <-]. auto.
  - destruct (courses_of _) as [courses|]; [|discriminate].
    destruct (__init__ _ _ _ _ _ _) as [scheduler|]; [|discriminate].
    destruct (generate_schedule scheduler rng) as [[schedule cfs]|e];
      [|discriminate].
    intros [= <-]. simpl. auto.
Qed.

Lemma on_remove_course_cases label s s' :
  App.on_remove_course label s = Done s' ->
  s' = s \/
  exists course_name class_name,
    s' = with_courses refresh_view
           (DataManager.remove_course course_name class_name s).
Proof.
  unfold App.on_remove_course. destruct (str_truthy label).
  - destruct (str_split label "(") as [|a [|part rest]]; try discriminate.
    intros [= <-]. right. eauto.
  - intros [= <-]. left. reflexivity.
Qed.

Lemma page_inv_step e s s' :
  page_inv s -> offered e s -> handle e s = Some (Done s') -> page_inv s'.
Proof.
  intros Hinv Hoff H. pose proof Hinv as Hinv0.
  destruct Hinv as [(T1 & T2 & T3 & T4) V1 V2 V3 V4 R P1 P2 P3 P4].
  destruct e; simpl in H, Hoff.
  - (* AddTeacher *)
    injection H as <-. unfold App.on_add_teacher.
    destruct (str_truthy name) eqn:En; [|exact Hinv0].
    constructor; tbl; try assumption; try reflexivity.
    + splits; table_ok_tac.
    + intros t Ht. apply in_app_or in Ht. destruct Ht as [Ht|[<-|[]]].
      * apply P1. exact Ht.
      * simpl. apply truthy_nonempty. exact En.
  - (* RemoveTeacher *)
    injection H as <-. unfold App.on_remove_teacher.
    destruct (str_truthy name) eqn:En; [|exact Hinv0].
    constructor; tbl; try assumption; try reflexivity.
    + splits; table_ok_tac.
    + intros t Ht. apply P1. eapply filter_incl_In. exact Ht.
  - (* AddRoom *)
    injection H as <-. unfold App.on_add_room.
    destruct (str_truthy name) eqn:En; [|exact Hinv0].
    constructor; tbl; try assumption; try reflexivity.
    + splits; table_ok_tac.
    + intros r Hr. apply in_app_or in Hr. destruct Hr as [Hr|[<-|[]]].
      * apply P2. exact Hr.
      * simpl. split; [apply truthy_nonempty; exact En|exact Hoff].
  - (* RemoveRoom *)
    injection H as <-. unfold App.on_remove_room.
    destruct (str_truthy name) eqn:En; [|exact Hinv0].
    constructor; tbl; try assumption; try reflexivity.
    + splits; table_ok_tac.
    + intros r Hr. apply P2. eapply filter_incl_In. exact Hr.
  - (* AddClass *)
    injection H as <-. unfold App.on_add_class.
    destruct (str_truthy name) eqn:En; [|exact Hinv0].
    constructor; tbl; try assumption; try reflexivity.
    + splits; table_ok_tac.
    + intros c n Hc Hn. rewrite map_app. apply in_or_app. left.
      eapply R; eassumption.
    + intros c Hc. apply in_app_or in Hc. destruct Hc as [Hc|[<-|[]]].
      * apply P3. exact Hc.
      * simpl. split; [apply truthy_nonempty; exact En|exact Hoff].
  - (* RemoveClass *)
    injection H as <-. unfold App.on_remove_class.
    destruct (str_truthy name) eqn:En; [|exact Hinv0].
    constructor; tbl; try assumption; try reflexivity.
    + splits; table_ok_tac.
    + intros c Hc. apply V4. eapply filter_incl_In. exact Hc.
    + intros c n Hc Hn. apply filter_In in Hc. destruct Hc as (Hc & Hne).
      destruct (proj1 (in_map_iff _ _ _) (R c n Hc Hn)) as (x & Ex & Hx).
      apply in_map_iff. exists x. split; [exact Ex|].
      apply filter_In. split; [exact Hx|]. rewrite Ex.
      rewrite Hn in Hne. exact Hne.
    + intros c Hc. apply P3. eapply filter_incl_In. exact Hc.
  - (* AddCourse *)
    injection H as <-. unfold App.on_add_course.
    destruct (str_truthy name) eqn:En; [|exact Hinv0].
    destruct (py_eq teacher "No teachers available") eqn:Et;
      [exact Hinv0|].
    destruct (py_eq assigned_class "No classes available") eqn:Ec;
      [exact Hinv0|].
    cbn [andb negb]. destruct Hoff as (Ot & Oc & Od & Of).
    constructor; tbl; try assumption; try reflexivity.
    + splits; table_ok_tac.
    + apply incl_refl.
    + intros c n Hc Hn. apply in_app_or in Hc. destruct Hc as [Hc|[<-|[]]].
      * eapply R; eassumption.
      * simpl in Hn. subst assigned_class. rewrite <- V3.
        apply class_choice_listed. exact Oc.
    + intros c Hc. apply in_app_or in Hc. destruct Hc as [Hc|[<-|[]]].
      * apply P4, V4. exact Hc.
      * simpl. split; [apply truthy_nonempty; exact En|exact Of].
  - (* RemoveCourse *)
    injection H as H. apply on_remove_course_cases in H.
    destruct H as [->|(cn & cl & ->)]; [exact Hinv0|].
    constructor; tbl; try assumption; try reflexivity.
    + splits; table_ok_tac.
    + apply incl_refl.
    + intros c n Hc Hn. apply (R c n); [|exact Hn].
      eapply filter_incl_In. exact Hc.
    + intros c Hc. apply P4, V4. eapply filter_incl_In. exact Hc.
  - (* LoadSample *)
    injection H as <-.
    destruct (load_sample_spec ids s T1 T2 T3 T4)
      as (K & (W1 & W2 & W3 & W4) & E1 & E2 & E3 & E4).
    constructor; tbl; try assumption.
    + rewrite W4. apply incl_refl.
    + intros c n Hc Hn.
      apply (in_map (fun c => (co_name c, co_teacher c, co_class c,
                               co_duration c, co_frequency c))) in Hc.
      rewrite E4 in Hc.
      destruct (sample_fields_In c Hc) as (t0 & cls & _ & Ecls & _ & _ & Hcls & _).
      rewrite <- E3, map_map in Hcls.
      assert (En : cls = n) by congruence. subst n. exact Hcls.
    + intros t Ht. apply (in_map tr_name) in Ht. rewrite E1 in Ht.
      exact (proj1 (Forall_forall _ _) sample_teachers_ok _ Ht).
    + intros r Hr.
      apply (in_map (fun r => (rr_name r, rr_capacity r))) in Hr.
      rewrite E2 in Hr.
      exact (proj1 (Forall_forall _ _) sample_rooms_ok _ Hr).
    + intros c Hc.
      apply (in_map (fun c => (cr_name c, cr_size c))) in Hc.
      rewrite E3 in Hc.
      exact (proj1 (Forall_forall _ _) sample_classes_ok _ Hc).
    + intros c Hc. rewrite W4 in Hc.
      apply (in_map (fun c => (co_name c, co_teacher c, co_class c,
                               co_duration c, co_frequency c))) in Hc.
      rewrite E4 in Hc.
      destruct (sample_fields_In c Hc) as (t0 & cls & _ & _ & K1 & K2 & _).
      split; assumption.
  - (* Generate *)
    apply on_generate_tables in H. destruct H as (F1 & F2 & F3 & F4).
    eapply page_inv_same_tables; eassumption.
Qed.

Lemma initial_page_inv : page_inv App.initial_session.
Proof.
  constructor; unfold App.initial_session; tbl;
    try reflexivity; try (intros x n Hx; destruct Hx; fail);
    try (intros x Hx; destruct Hx; fail).
  splits; apply new_table_ok.
Qed.

Lemma reachable_page_inv allowed s : reachable allowed s -> page_inv s.
Proof.
  induction 1 as [|e s s' _ IH _ Hoff H].
  - apply initial_page_inv.
  - eapply page_inv_step; eassumption.
Qed.

Lemma references_inv_same_tables s s' :
  ss_teachers s' = ss_teachers s -> ss_rooms s' = ss_rooms s ->
  ss_classes s' = ss_classes s -> ss_courses s' = ss_courses s ->
  references_inv s -> references_inv s'.
Proof.
  destruct s, s'. simpl. intros -> -> -> -> [H1 H2 H3].
  constructor; [|assumption|assumption].
  eapply page_inv_same_tables; [..|exact H1]; reflexivity.
Qed.

Lemma references_inv_step e s s' :
  references_inv s -> keeps_references e -> offered e s ->
  handle e s = Some (Done s') -> references_inv s'.
Proof.
  intros Hinv Hkeep Hoff H. pose proof Hinv as Hinv0.
  destruct Hinv as [Hpage C Rf].
  pose proof (page_inv_step _ _ _ Hpage Hoff H) as Hpage'.
  destruct Hpage as [(T1 & T2 & T3 & T4) V1 V2 V3 V4 R P1 P2 P3 P4].
  destruct e; simpl in H, Hoff, Hkeep; try contradiction.
  - (* AddTeacher *)
    injection H as <-. unfold App.on_add_teacher in *.
    destruct (str_truthy name) eqn:En; [|exact Hinv0].
    constructor; [exact Hpage'| |]; tbl; try assumption.
    intros c Hc. destruct (Rf c Hc) as (R1 & R2). split; [exact R1|].
    intros n Hn. rewrite map_app. apply in_or_app. left. rewrite <- V1.
    exact (R2 n Hn).
  - (* AddRoom *)
    injection H as <-. unfold App.on_add_room in *.
    destruct (str_truthy name) eqn:En; [|exact Hinv0].
    constructor; [exact Hpage'| |]; tbl; assumption.
  - (* RemoveRoom *)
    injection H as <-. unfold App.on_remove_room in *.
    destruct (str_truthy name) eqn:En; [|exact Hinv0].
    constructor; [exact Hpage'| |]; tbl; assumption.
  - (* AddClass *)
    injection H as <-. unfold App.on_add_class in *.
    destruct (str_truthy name) eqn:En; [|exact Hinv0].
    constructor; [exact Hpage'| |]; tbl; try assumption.
    intros c Hc. destruct (Rf c Hc) as (R1 & R2). split; [|exact R2].
    intros n Hn. rewrite map_app. apply in_or_app. left. rewrite <- V3.
    exact (R1 n Hn).
  - (* AddCourse *)
    injection H as <-. unfold App.on_add_course in *.
    destruct (str_truthy name) eqn:En; [|exact Hinv0].
    destruct (py_eq teacher "No teachers available") eqn:Et;
      [exact Hinv0|].
    destruct (py_eq assigned_class "No classes available") eqn:Ec;
      [exact Hinv0|].
    cbn [andb negb] in *. destruct Hoff as (Ot & Oc & Od & Of).
    constructor; [exact Hpage'| |]; tbl; try reflexivity.
    intros c Hc. apply in_app_or in Hc. destruct Hc as [Hc|[<-|[]]].
    + apply Rf. rewrite C. exact Hc.
    + simpl. split.
      * intros n ->. apply class_choice_listed. exact Oc.
      * intros n ->. apply teacher_choice_listed. exact Ot.
  - (* RemoveCourse *)
    injection H as H. apply on_remove_course_cases in H.
    destruct H as [->|(cn & cl & ->)]; [exact Hinv0|].
    constructor; [exact Hpage'| |]; tbl; try reflexivity.
    intros c Hc. apply Rf. rewrite C. eapply filter_incl_In. exact Hc.
  - (* LoadSample *)
    injection H as <-.
    destruct (load_sample_spec ids s T1 T2 T3 T4)
      as (K & (W1 & W2 & W3 & W4) & E1 & E2 & E3 & E4).
    constructor; [exact Hpage'| |]; tbl; try assumption.
    intros c Hc. rewrite W4 in Hc.
    apply (in_map (fun c => (co_name c, co_teacher c, co_class c,
                             co_duration c, co_frequency c))) in Hc.
    rewrite E4 in Hc.
    destruct (sample_fields_In c Hc)
      as (t0 & cls & Et0 & Ecls & _ & _ & Hcls & Hteacher).
    rewrite W1, W3. rewrite <- E3, map_map in Hcls. rewrite <- E1 in Hteacher.
    split; intros n Hn.
    + assert (En : cls = n) by congruence. subst n. exact Hcls.
    + assert (En : t0 = n) by congruence. subst n. exact Hteacher.
  - (* Generate *)
    apply on_generate_tables in H. destruct H as (F1 & F2 & F3 & F4).
    eapply references_inv_same_tables; eassumption.
Qed.

Lemma initial_references_inv : references_inv App.initial_session.
Proof.
  constructor; [apply initial_page_inv|reflexivity|].
  intros c [].
Qed.

Lemma reachable_references_inv s :
  reachable keeps_references s -> references_inv s.
Proof.
  induction 1 as [|e s s' _ IH Hkeep Hoff H].
  - apply initial_references_inv.
  - eapply references_inv_step; eassumption.
Qed.

Lemma offered_grid_steps g :
  30 <= period_length g <= 120 -> 5 <= break_length g <= 30 ->
  20 <= lunch_duration g <= 60 -> steps_positive g.
Proof. unfold steps_positive. intros. splits; try lia. Qed.

(** X16. Every session a user can reach is consistent: the teachers,
    rooms and classes shown on the page are the lists the data manager
    stores, the stored courses are among the courses shown, the class of
    a stored course is a stored class whenever the course has a class,
    names are not empty, capacities and sizes are at least 1 and
    frequencies lie between 1 and 5. *)
Theorem reachable_sessions_are_consistent :
  forall s, reachable (fun _ => True) s -> page_inv s.
Proof. intros s H. eapply reachable_page_inv. exact H. Qed.

Lemma reachable_sessions_are_consistent_witness :
  page_inv (App.on_remove_class "Class 9A" sample_session).
Proof.
  apply reachable_sessions_are_consistent.
  apply (reach_event _ (RemoveClass "Class 9A") sample_session).
  - apply (reach_event _ (LoadSample []) App.initial_session).
    + apply reach_initial.
    + exact I.
    + exact I.
    + reflexivity.
  - exact I.
  - vm_compute. tauto.
  - reflexivity.
Defined.

(** A stored course need not have a class or a teacher.  On a fresh page
    both select boxes of the course form are disabled and return [None],
    which differs from the two placeholder texts: the form stores the
    course, and it is shown. *)
Example course_without_teacher_or_class :
  reachable keeps_references unassigned_session /\
  DataManager.get_courses unassigned_session = [latin_unassigned] /\
  get_view (ss_courses unassigned_session) = [latin_unassigned] /\
  co_teacher latin_unassigned = None /\ co_class latin_unassigned = None.
Proof.
  split; [|splits; reflexivity].
  apply (reach_event _ (AddCourse "" "Latin" None None 50 3)
           App.initial_session).
  - apply reach_initial.
  - exact I.
  - simpl. unfold App.teacher_choices, App.class_choices. simpl.
    splits; try tauto; lia.
  - reflexivity.
Qed.

(** Such a course is outside the engine model, whose ledgers are keyed
    by texts: after a teacher, a room and a class are added, the model
    has no run for the generation form. *)
Example course_without_class_is_not_modelled :
  reachable keeps_references unassigned_school /\
  forall fuel g rng, App.on_generate fuel g rng unassigned_school = None.
Proof.
  split; [|reflexivity].
  apply (reach_event _ (AddClass "" "Class 9A" 25)
           (App.on_add_room "" "Room 101" 30
              (App.on_add_teacher "" "Ms. Lee" ["Latin"] unassigned_session)));
    [|exact I|simpl; lia|reflexivity].
  apply (reach_event _ (AddRoom "" "Room 101" 30)
           (App.on_add_teacher "" "Ms. Lee" ["Latin"] unassigned_session));
    [|exact I|simpl; lia|reflexivity].
  apply (reach_event _ (AddTeacher "" "Ms. Lee" ["Latin"]) unassigned_session);
    [|exact I|exact I|reflexivity].
  apply course_without_teacher_or_class.
Qed.

Lemma courses_of_In : forall rows cs row,
  courses_of rows = Some cs -> In row rows ->
  exists c, course_of row = Some c /\ In c cs.
Proof.
  induction rows as [|r rows IH]; intros cs row H Hin; [destruct Hin|].
  cbn [courses_of] in H.
  destruct (course_of r) as [c0|] eqn:E0; [|discriminate H].
  destruct (courses_of rows) as [cs0|] eqn:E1; [|discriminate H].
  injection H as <-. destruct Hin as [<-|Hin].
  - exists c0. split; [exact E0|left; reflexivity].
  - destruct (IH cs0 row eq_refl Hin) as (c & Ec & Hc).
    exists c. split; [exact Ec|right; exact Hc].
Qed.

Lemma courses_of_rows : forall rows cs c,
  courses_of rows = Some cs -> In c cs ->
  exists row, In row rows /\ course_of row = Some c.
Proof.
  induction rows as [|r rows IH]; intros cs c H Hin.
  - injection H as <-. destruct Hin.
  - cbn [courses_of] in H.
    destruct (course_of r) as [c0|] eqn:E0; [|discriminate H].
    destruct (courses_of rows) as [cs0|] eqn:E1; [|discriminate H].
    injection H as <-. destruct Hin as [<-|Hin].
    + exists r. split; [left; reflexivity|exact E0].
    + destruct (IH cs0 c eq_refl Hin) as (row & Hrow & Ec).
      exists row. split; [right; exact Hrow|exact Ec].
Qed.

Lemma courses_of_total : forall rows,
  (forall row, In row rows -> co_teacher row <> None /\ co_class row <> None) ->
  exists cs, courses_of rows = Some cs.
Proof.
  induction rows as [|r rows IH]; intros H; [exists []; reflexivity|].
  destruct (IH (fun row Hrow => H row (or_intror Hrow))) as (cs & E).
  destruct (H r (or_introl eq_refl)) as (Ht & Hc).
  cbn [courses_of]. unfold course_of.
  destruct (co_teacher r) as [t|]; [|congruence].
  destruct (co_class r) as [c|]; [|congruence].
  rewrite E. eauto.
Qed.

Lemma course_of_fields row c :
  course_of row = Some c ->
  co_teacher row = Some (c_teacher c) /\ co_class row = Some (c_class c) /\
  c_name c = co_name row.
Proof.
  unfold course_of. destruct (co_teacher row) as [t|]; [|discriminate].
  destruct (co_class row) as [n|]; [|discriminate].
  intros [= <-]. simpl. auto.
Qed.

(** X17. As long as no teacher and no class has been removed, generating
    a schedule raises nothing when every course shown has a teacher and a
    class: in every such session reached with the other interactions
    (additions through the forms, removals of rooms and courses, the
    sample data), a submission of the generation form with values its
    widgets offer ends normally. *)
Theorem generating_without_removals_raises_nothing :
  forall s fuel g rng,
    reachable keeps_references s ->
    offered (Generate fuel g rng) s ->
    (grid_fuel g <= fuel)%nat ->
    (forall c, In c (get_view (ss_courses s)) ->
       co_teacher c <> None /\ co_class c <> None) ->
    exists s', handle (Generate fuel g rng) s = Some (Done s').
Proof.
  intros s fuel g rng Hreach Hoff Hfuel Hnamed.
  destruct (reachable_references_inv s Hreach) as [_ _ Rf].
  simpl in Hoff. destruct Hoff as (_ & _ & Hp & Hb & _ & Hl).
  pose proof (offered_grid_steps g Hp Hb Hl) as Hsteps.
  simpl. unfold App.on_generate.
  destruct (_ || _ || _ || _); [eauto|].
  destruct (courses_of_total _ Hnamed) as (cs & Ecs). rewrite Ecs.
  destruct (steps_positive_slots g fuel Hsteps Hfuel) as (bounds & _ & Hs & _).
  rewrite (init_total _ _ _ _ _ _ _ Hs).
  match goal with
  | |- context [generate_schedule ?self rng] =>
      destruct (generate_schedule_returns self rng) as (schedule & cfs & ->)
  end.
  - intros c Hc. simpl in Hc.
    destruct (courses_of_rows _ _ _ Ecs Hc) as (row & Hrow & Erow).
    destruct (course_of_fields _ _ Erow) as (Et & Ec & _).
    destruct (Rf row Hrow) as (R1 & R2).
    simpl. rewrite !map_map. simpl. split; [exact (R1 _ Ec)|exact (R2 _ Et)].
  - eauto.
Qed.

Lemma generating_without_removals_raises_nothing_witness :
  exists s',
    handle (Generate 500 school_day draws) sample_session = Some (Done s').
Proof.
  apply generating_without_removals_raises_nothing.
  - apply (reach_event _ (LoadSample []) App.initial_session).
    + apply reach_initial.
    + exact I.
    + exact I.
    + reflexivity.
  - simpl. unfold valid_time. simpl. repeat split; try lia. tauto.
  - vm_compute. lia.
  - intros c Hc. revert Hc. vm_compute.
    intuition (subst c; discriminate).
Defined.

(** ** Removals that leave courses behind *)

Lemma nonempty_truthy s : s <> EmptyString -> str_truthy s = true.
Proof. destruct s; [congruence|reflexivity]. Qed.

Lemma broken_class_reference fuel ts rs cls cs g self c :
  __init__ fuel ts rs cls cs g = Some self ->
  In c cs -> ~ In (c_class c) (map cl_name cls) -> ~ references_ok self.
Proof.
  intros Hi Hc Hn Href. destruct (init_inv _ _ _ _ _ _ _ Hi) as (Hself & _).
  rewrite Hself in Href. destruct (Href c Hc) as (H & _). simpl in H.
  contradiction.
Qed.

Lemma broken_teacher_reference fuel ts rs cls cs g self c :
  __init__ fuel ts rs cls cs g = Some self ->
  In c cs -> ~ In (c_teacher c) (map t_name ts) -> ~ references_ok self.
Proof.
  intros Hi Hc Hn Href. destruct (init_inv _ _ _ _ _ _ _ Hi) as (Hself & _).
  rewrite Hself in Href. destruct (Href c Hc) as (_ & H). simpl in H.
  contradiction.
Qed.

Lemma filter_names_out {A} (name : A -> string) (n : string) (l : list A) :
  ~ In n (map name (filter (fun x => negb (String.eqb (name x) n)) l)).
Proof.
  intros H. apply in_map_iff in H. destruct H as (x & Ex & Hx).
  apply filter_In in Hx. destruct Hx as (_ & Hne).
  rewrite Ex, String.eqb_refl in Hne. discriminate Hne.
Qed.

(** X18. Removing a class leaves its courses on the page.  After the
    button "Remove Class" the data manager has dropped the class and its
    courses, but the attribute [courses] that the pages read is not bound
    again: a course of the removed class that was shown is still shown,
    and a generator built from the page's lists has a course whose class
    is not in its classes list. *)
Theorem removed_class_stays_on_the_courses_page :
  forall s n c,
    reachable (fun _ => True) s ->
    offered (RemoveClass n) s ->
    In c (get_view (ss_courses s)) -> co_class c = Some n ->
    let s' := App.on_remove_class n s in
    ~ In c (DataManager.get_courses s') /\
    ~ In n (map cr_name (get_view (ss_classes s'))) /\
    In c (get_view (ss_courses s')) /\
    forall fuel g courses self,
      courses_of (get_view (ss_courses s')) = Some courses ->
      __init__ fuel (map teacher_of (get_view (ss_teachers s')))
        (map room_of (get_view (ss_rooms s')))
        (map class_of (get_view (ss_classes s'))) courses g = Some self ->
      ~ references_ok self.
Proof.
  intros s n c Hreach Hoff Hc Hn. cbn zeta.
  destruct (reachable_page_inv _ _ Hreach)
    as [(T1 & T2 & T3 & T4) V1 V2 V3 V4 R P1 P2 P3 P4].
  simpl in Hoff.
  assert (Htruthy : str_truthy n = true).
  { apply nonempty_truthy. apply in_map_iff in Hoff.
    destruct Hoff as (x & <- & Hx). rewrite V3 in Hx. apply (P3 x Hx). }
  unfold App.on_remove_class. rewrite Htruthy. tbl.
  assert (Hgone : ~ In n (map cr_name
                    (filter (fun c0 => negb (String.eqb (cr_name c0) n))
                       (get_data (ss_classes s)))))
    by apply filter_names_out.
  splits.
  - intros H. apply filter_In in H. destruct H as (_ & H).
    rewrite Hn in H. simpl in H. rewrite String.eqb_refl in H. discriminate H.
  - exact Hgone.
  - exact Hc.
  - intros fuel g courses self Ecs Hi.
    destruct (courses_of_In _ _ _ Ecs Hc) as (c' & Ec' & Hc').
    destruct (course_of_fields _ _ Ec') as (_ & Ecls & _).
    apply (broken_class_reference _ _ _ _ _ _ _ c' Hi).
    + exact Hc'.
    + rewrite map_map. simpl.
      assert (E : c_class c' = n) by congruence. rewrite E. exact Hgone.
Qed.

Lemma removed_class_stays_on_the_courses_page_witness :
  ~ In physics_9a
      (DataManager.get_courses (App.on_remove_class "Class 9A" sample_session))
  /\ ~ In "Class 9A"
         (map cr_name
            (get_view
               (ss_classes (App.on_remove_class "Class 9A" sample_session))))
  /\ In physics_9a
        (get_view (ss_courses (App.on_remove_class "Class 9A" sample_session))).
Proof.
  destruct (removed_class_stays_on_the_courses_page sample_session "Class 9A"
              physics_9a)
    as (H1 & H2 & H3 & _).
  - apply (reach_event _ (LoadSample []) App.initial_session).
    + apply reach_initial.
    + exact I.
    + exact I.
    + reflexivity.
  - vm_compute. tauto.
  - vm_compute. tauto.
  - reflexivity.
  - splits; assumption.
Defined.

(** X19. Removing a teacher removes none of their courses.  After the
    button "Remove Teacher" every course the teacher taught is still
    stored and still shown, with a teacher that is in no list, and a
    generator built from the page's lists has a course whose teacher is
    not in its teachers list. *)
Theorem removed_teacher_keeps_their_courses :
  forall s n c,
    reachable (fun _ => True) s ->
    offered (RemoveTeacher n) s ->
    In c (DataManager.get_courses s) -> co_teacher c = Some n ->
    let s' := App.on_remove_teacher n s in
    In c (DataManager.get_courses s') /\
    In c (get_view (ss_courses s')) /\
    ~ In n (map tr_name (get_view (ss_teachers s'))) /\
    forall fuel g courses self,
      courses_of (get_view (ss_courses s')) = Some courses ->
      __init__ fuel (map teacher_of (get_view (ss_teachers s')))
        (map room_of (get_view (ss_rooms s')))
        (map class_of (get_view (ss_classes s'))) courses g = Some self ->
      ~ references_ok self.
Proof.
  intros s n c Hreach Hoff Hc Hn. cbn zeta.
  destruct (reachable_page_inv _ _ Hreach)
    as [(T1 & T2 & T3 & T4) V1 V2 V3 V4 R P1 P2 P3 P4].
  simpl in Hoff.
  assert (Htruthy : str_truthy n = true).
  { apply nonempty_truthy. apply in_map_iff in Hoff.
    destruct Hoff as (x & <- & Hx). rewrite V1 in Hx. apply (P1 x Hx). }
  unfold App.on_remove_teacher. rewrite Htruthy. tbl.
  assert (Hgone : ~ In n (map tr_name
                    (filter (fun t => negb (String.eqb (tr_name t) n))
                       (get_data (ss_teachers s)))))
    by apply filter_names_out.
  splits.
  - exact Hc.
  - apply V4. exact Hc.
  - exact Hgone.
  - intros fuel g courses self Ecs Hi.
    destruct (courses_of_In _ _ _ Ecs (V4 c Hc)) as (c' & Ec' & Hc').
    destruct (course_of_fields _ _ Ec') as (Et & _ & _).
    apply (broken_teacher_reference _ _ _ _ _ _ _ c' Hi).
    + exact Hc'.
    + rewrite map_map. simpl.
      assert (E : c_teacher c' = n) by congruence. rewrite E. exact Hgone.
Qed.

Lemma removed_teacher_keeps_their_courses_witness :
  In physics_9a
    (DataManager.get_courses (App.on_remove_teacher "Dr. Smith" sample_session))
  /\ In physics_9a
        (get_view
           (ss_courses (App.on_remove_teacher "Dr. Smith" sample_session)))
  /\ ~ In "Dr. Smith"
         (map tr_name
            (get_view
               (ss_teachers (App.on_remove_teacher "Dr. Smith" sample_session)))).
Proof.
  destruct (removed_teacher_keeps_their_courses sample_session "Dr. Smith"
              physics_9a)
    as (H1 & H2 & H3 & _).
  - apply (reach_event _ (LoadSample []) App.initial_session).
    + apply reach_initial.
    + exact I.
    + exact I.
    + reflexivity.
  - vm_compute. tauto.
  - vm_compute. tauto.
  - reflexivity.
  - splits; assumption.
Defined.

(** ** The label of a course and its parsing *)

Lemma string_app_assoc (a b c : string) :
  ((a ++ b) ++ c)%string = (a ++ (b ++ c))%string.
Proof. induction a as [|x a IH]; simpl; [reflexivity|]. rewrite IH. reflexivity. Qed.

Lemma string_app_nil_r (a : string) : (a ++ "")%string = a.
Proof. induction a as [|x a IH]; simpl; [reflexivity|]. rewrite IH. reflexivity. Qed.

Lemma string_length_app (a b : string) :
  String.length (a ++ b) = (String.length a + String.length b)%nat.
Proof. induction a as [|x a IH]; simpl; [reflexivity|]. rewrite IH. reflexivity. Qed.

Lemma prefix_app (sep v : string) : String.prefix sep (sep ++ v) = true.
Proof.
  induction sep as [|a sep IH]; simpl.
  - destruct v; reflexivity.
  - destruct (ascii_dec a a) as [_|Hne]; [exact IH|congruence].
Qed.

Lemma prefix_char (c a : ascii) (s : string) :
  String.prefix (String c EmptyString) (String a s) = Ascii.eqb a c.
Proof.
  simpl. destruct (ascii_dec c a) as [->|Hne].
  - rewrite Ascii.eqb_refl. destruct s; reflexivity.
  - symmetry. apply Ascii.eqb_neq. congruence.
Qed.

Lemma prefix_cons (a b : ascii) (s1 s2 : string) :
  String.prefix (String a s1) (String b s2)
  = if Ascii.eqb a b then String.prefix s1 s2 else false.
Proof.
  change (String.prefix (String a s1) (String b s2))
    with (match ascii_dec a b with
          | left _ => String.prefix s1 s2
          | right _ => false
          end).
  destruct (ascii_dec a b) as [->|Hne].
  - rewrite Ascii.eqb_refl. reflexivity.
  - apply Ascii.eqb_neq in Hne. rewrite Hne. reflexivity.
Qed.

Lemma append_cons (x : ascii) (a b : string) :
  (String x a ++ b)%string = String x (a ++ b).
Proof. reflexivity. Qed.

Lemma split_scan_cons sep cur x s :
  split_scan sep O cur (String x s)
  = if String.prefix sep (String x s)
    then cur :: split_scan sep (String.length sep - 1) EmptyString s
    else split_scan sep O (cur ++ String x EmptyString)%string s.
Proof. reflexivity. Qed.

Lemma split_scan_nonempty sep : forall s skip cur,
  split_scan sep skip cur s <> [].
Proof.
  induction s as [|a s IH]; intros skip cur; cbn [split_scan];
    [discriminate|].
  destruct skip; [|apply IH].
  destruct (String.prefix sep (String a s)); [discriminate|apply IH].
Qed.

(** The first part ends no later than the first separator. *)
Lemma split_scan_head (sep : string) : sep <> EmptyString ->
  forall u cur v,
    exists w rest,
      split_scan sep O cur (u ++ sep ++ v) = (cur ++ w)%string :: rest /\
      (String.length w <= String.length u)%nat /\ rest <> [].
Proof.
  intros Hsep. induction u as [|x u IH]; intros cur v.
  - exists EmptyString. destruct sep as [|a sep]; [congruence|].
    cbn [append split_scan]. 
    change (String a (sep ++ v)%string) with ((String a sep) ++ v)%string.
    rewrite prefix_app. eexists. rewrite string_app_nil_r.
    split; [reflexivity|]. split; [simpl; lia|]. apply split_scan_nonempty.
  - cbn [append split_scan].
    destruct (String.prefix sep (String x (u ++ sep ++ v))).
    + exists EmptyString. eexists. rewrite string_app_nil_r.
      split; [reflexivity|]. split; [simpl; lia|]. apply split_scan_nonempty.
    + destruct (IH (cur ++ String x EmptyString)%string v)
        as (w & rest & E & Hlen & Hrest).
      exists (String x w), rest. rewrite E, string_app_assoc.
      split; [reflexivity|]. split; [simpl; lia|exact Hrest].
Qed.

(** A text without the character [c] is not cut at [c]. *)
Lemma split_scan_char_free (c : ascii) : forall a cur,
  has_char c a = false ->
  split_scan (String c EmptyString) O cur a = [(cur ++ a)%string].
Proof.
  induction a as [|x a IH]; intros cur H.
  - simpl. rewrite string_app_nil_r. reflexivity.
  - simpl in H. apply orb_false_iff in H. destruct H as (Hx & Ha).
    cbn [split_scan]. rewrite prefix_char, Hx.
    rewrite (IH _ Ha), string_app_assoc. reflexivity.
Qed.

Lemma split_scan_char_cut (c : ascii) : forall a cur rest,
  has_char c a = false ->
  split_scan (String c EmptyString) O cur (a ++ String c rest)
  = (cur ++ a)%string :: split_scan (String c EmptyString) O EmptyString rest.
Proof.
  induction a as [|x a IH]; intros cur rest H.
  - cbn [append split_scan]. rewrite prefix_char, Ascii.eqb_refl.
    rewrite string_app_nil_r. reflexivity.
  - simpl in H. apply orb_false_iff in H. destruct H as (Hx & Ha).
    cbn [append split_scan]. rewrite prefix_char, Hx.
    rewrite (IH _ _ Ha), string_app_assoc. reflexivity.
Qed.

(** A name without a parenthesis is the first part before [" ("]. *)
Lemma split_scan_name : forall a cur rest,
  has_char "(" a = false ->
  split_scan " (" O cur (a ++ " (" ++ rest)
  = (cur ++ a)%string :: split_scan " (" O EmptyString rest.
Proof.
  induction a as [|x a IH]; intros cur rest H.
  - cbn [append split_scan]. 
    change (String " " (String "(" rest)) with (" (" ++ rest)%string.
    rewrite prefix_app. rewrite string_app_nil_r. cbn [append].
    destruct rest; reflexivity.
  - simpl in H. apply orb_false_iff in H. destruct H as (Hx & Ha).
    rewrite append_cons, split_scan_cons.
    assert (Hp : String.prefix " (" (String x (a ++ " (" ++ rest)) = false).
    { rewrite prefix_cons. destruct (Ascii.eqb " " x); [|reflexivity].
      destruct a as [|y a]; cbn [append].
      - rewrite prefix_cons. reflexivity.
      - simpl in Ha. apply orb_false_iff in Ha. destruct Ha as (Hy & _).
        rewrite prefix_cons, Ascii.eqb_sym, Hy. reflexivity. }
    rewrite Hp, (IH _ _ Ha), string_app_assoc. reflexivity.
Qed.

Lemma replace_scan_strip (c : ascii) : forall a,
  has_char c a = false ->
  replace_scan (String c EmptyString) EmptyString O (a ++ String c EmptyString)
  = a.
Proof.
  induction a as [|x a IH]; intros H.
  - cbn [append replace_scan]. rewrite prefix_char, Ascii.eqb_refl. reflexivity.
  - simpl in H. apply orb_false_iff in H. destruct H as (Hx & Ha).
    cbn [append replace_scan]. rewrite prefix_char, Hx, (IH Ha). reflexivity.
Qed.

Lemma has_char_app c a b :
  has_char c (a ++ b) = has_char c a || has_char c b.
Proof.
  induction a as [|x a IH]; simpl; [reflexivity|].
  rewrite IH, orb_assoc. reflexivity.
Qed.

Lemma course_label_truthy c : str_truthy (App.course_label c) = true.
Proof.
  unfold App.course_label. destruct (co_name c); reflexivity.
Qed.

(** X20. The label of a course is read back correctly when the name has
    no opening parenthesis and the class has no parenthesis: the button
    "Remove Course" then calls [remove_course] with the name and the
    class of the selected course, which removes every stored course with
    that name and class and no other.  (The class is read as the label
    shows it: for a course without a class, the text ["None"].) *)
Theorem course_label_round_trip :
  forall c s,
    has_char "(" (co_name c) = false ->
    has_char "(" (py_str (co_class c)) = false ->
    has_char ")" (py_str (co_class c)) = false ->
    App.on_remove_course (App.course_label c) s
    = Done (with_courses refresh_view
              (DataManager.remove_course (co_name c) (py_str (co_class c)) s))
    /\
    forall s', App.on_remove_course (App.course_label c) s = Done s' ->
      DataManager.get_courses s'
      = filter (fun x => negb (String.eqb (co_name x) (co_name c)
                               && py_eq (co_class x) (py_str (co_class c))))
          (DataManager.get_courses s).
Proof.
  intros c s Hn Hc1 Hc2.
  assert (E : App.on_remove_course (App.course_label c) s
              = Done (with_courses refresh_view
                        (DataManager.remove_course (co_name c)
                           (py_str (co_class c)) s))).
  { assert (E1 : str_split (App.course_label c) " ("
                 = co_name c
                   :: split_scan " (" O EmptyString
                        (py_str (co_class c) ++ ")")).
    { unfold str_split, App.course_label.
      rewrite (split_scan_name _ EmptyString _ Hn). reflexivity. }
    assert (E2 : str_split (App.course_label c) "("
                 = [(co_name c ++ " ")%string;
                    (py_str (co_class c) ++ ")")%string]).
    { unfold str_split, App.course_label.
      transitivity
        (split_scan "(" O EmptyString
           ((co_name c ++ " ") ++ String "(" (py_str (co_class c) ++ ")"))).
      - f_equal. rewrite string_app_assoc. reflexivity.
      - rewrite split_scan_char_cut
          by (rewrite has_char_app, Hn; reflexivity).
        rewrite split_scan_char_free
          by (rewrite has_char_app, Hc1; reflexivity).
        reflexivity. }
    unfold App.on_remove_course.
    rewrite course_label_truthy, E1, E2. cbn [nth]. unfold str_replace.
    rewrite (replace_scan_strip _ _ Hc2). reflexivity. }
  split; [exact E|].
  intros s' H. rewrite E in H. injection H as <-. tbl. reflexivity.
Qed.

Lemma course_label_round_trip_witness :
  App.on_remove_course (App.course_label physics_9a) sample_session
  = Done (with_courses refresh_view
            (DataManager.remove_course "Physics" "Class 9A" sample_session)).
Proof.
  apply (course_label_round_trip physics_9a sample_session); reflexivity.
Defined.

(** X21. A course whose name contains [" ("] cannot be removed with the
    button "Remove Course": the run ends normally, but the name read back
    from the label is shorter than the name of the course, so the course
    is still stored afterwards. *)
Theorem course_with_parenthesis_cannot_be_removed :
  forall c s u v,
    co_name c = (u ++ " (" ++ v)%string ->
    In c (DataManager.get_courses s) ->
    exists s',
      App.on_remove_course (App.course_label c) s = Done s' /\
      In c (DataManager.get_courses s').
Proof.
  intros c s u v Hname Hin.
  assert (E1 : exists w rest,
            str_split (App.course_label c) " (" = w :: rest /\
            (String.length w <= String.length u)%nat).
  { destruct (split_scan_head " (" ltac:(discriminate) u EmptyString
                (v ++ " (" ++ py_str (co_class c) ++ ")")%string)
      as (w & rest & Ew & Hlen & _).
    exists w, rest. split; [|exact Hlen].
    transitivity ((EmptyString ++ w)%string :: rest); [|reflexivity].
    rewrite <- Ew. unfold str_split, App.course_label. rewrite Hname.
    rewrite !string_app_assoc. reflexivity. }
  assert (E2 : exists a part rest,
            str_split (App.course_label c) "(" = a :: part :: rest).
  { destruct (split_scan_head "(" ltac:(discriminate) (u ++ " ")%string
                EmptyString (v ++ " (" ++ py_str (co_class c) ++ ")")%string)
      as (w & rest & Ew & _ & Hrest).
    destruct rest as [|part rest]; [congruence|].
    exists w, part, rest.
    transitivity ((EmptyString ++ w)%string :: part :: rest); [|reflexivity].
    rewrite <- Ew. unfold str_split, App.course_label. rewrite Hname.
    rewrite !string_app_assoc. reflexivity. }
  destruct E1 as (w & rest & E1 & Hlen).
  destruct E2 as (a & part & rest2 & E2).
  unfold App.on_remove_course. rewrite course_label_truthy, E1, E2.
  eexists. split; [reflexivity|]. cbn [nth]. tbl.
  apply filter_In. split; [exact Hin|].
  assert (Hne : co_name c <> w).
  { intros E. rewrite Hname in E. rewrite <- E in Hlen.
    rewrite !string_length_app in Hlen. simpl in Hlen. lia. }
  apply String.eqb_neq in Hne. rewrite Hne. reflexivity.
Qed.

Lemma course_with_parenthesis_cannot_be_removed_witness :
  exists s',
    App.on_remove_course (App.course_label algebra_honors)
      (snd (DataManager.add_course "" "Algebra (honors)" (Some "Mr. Davis")
              (Some "Class 9A") 50 5 sample_session)) = Done s' /\
    In algebra_honors (DataManager.get_courses s').
Proof.
  apply (course_with_parenthesis_cannot_be_removed algebra_honors _
           "Algebra" "honors)").
  - reflexivity.
  - vm_compute. tauto.
Defined.

(** X22. [add_course] followed by [remove_course] with the same name and
    class leaves the stored courses without any course of that name and
    class: the course just added and every older course with the pair
    are gone (the data manager accepts such duplicates); when the pair
    was new, the stored courses are as before the addition. *)
Theorem add_then_remove_course :
  forall course_id name teacher cls duration frequency s,
    table_ok (ss_courses s) ->
    let s' := DataManager.remove_course name cls
                (snd (DataManager.add_course course_id name teacher (Some cls)
                        duration frequency s)) in
    DataManager.get_courses s'
    = filter (fun x => negb (String.eqb (co_name x) name
                             && py_eq (co_class x) cls))
        (DataManager.get_courses s) /\
    ((forall x, In x (DataManager.get_courses s) ->
        ~ (co_name x = name /\ co_class x = Some cls)) ->
     DataManager.get_courses s' = DataManager.get_courses s).
Proof.
  intros i n t c d f s Hok. cbn zeta.
  assert (E : DataManager.get_courses
                (DataManager.remove_course n c
                   (snd (DataManager.add_course i n t (Some c) d f s)))
              = filter (fun x => negb (String.eqb (co_name x) n
                                       && py_eq (co_class x) c))
                  (DataManager.get_courses s)).
  { tbl. rewrite filter_app. simpl. rewrite !String.eqb_refl. simpl.
    apply app_nil_r. }
  split; [exact E|].
  intros Hnew. rewrite E. apply filter_all. apply Forall_forall.
  intros x Hx. apply negb_true_iff, andb_false_iff.
  destruct (String.eqb_spec (co_name x) n) as [E1|]; [|left; reflexivity].
  right. destruct (co_class x) as [y|] eqn:Ey; [|reflexivity]. simpl.
  destruct (String.eqb_spec y c) as [E2|]; [|reflexivity].
  destruct (Hnew x Hx). split; congruence.
Qed.

Lemma add_then_remove_course_witness :
  DataManager.get_courses
    (DataManager.remove_course "Latin" "Class 9A"
       (snd (DataManager.add_course "" "Latin" (Some "Ms. Lee")
               (Some "Class 9A") 50 2 sample_session)))
  = DataManager.get_courses sample_session.
Proof.
  apply (add_then_remove_course "" "Latin" (Some "Ms. Lee") "Class 9A" 50
           2%nat sample_session).
  - vm_compute. lia.
  - intros x Hx (E1 & E2). revert Hx. vm_compute.
    intuition (subst x; discriminate).
Defined.

(** * The time parser of the visualizer *)

Lemma fmt02_digits n :
  0 <= n < 100 ->
  exists a b, fmt02 n = String a (String b EmptyString) /\
              is_digit a = true /\ is_digit b = true /\
              n = 10 * digit_value a + digit_value b.
Proof.
  intros Hn.
  assert (Hk : exists k, (k < 100)%nat /\ n = Z.of_nat k)
    by (exists (Z.to_nat n); lia).
  destruct Hk as (k & Hk & ->). clear Hn.
  do 100 (destruct k as [|k];
          [do 2 eexists; repeat split; vm_compute; reflexivity|]).
  lia.
Qed.

Lemma digit_is_not (c a : ascii) :
  is_digit c = false -> is_digit a = true -> Ascii.eqb a c = false.
Proof.
  intros Hc Ha. destruct (Ascii.eqb_spec a c) as [->|]; [|reflexivity].
  congruence.
Qed.

(** A clock text ["HH:MM"] of two pairs of digits. *)
Lemma fmt_clock_digits m :
  0 <= m < 6000 ->
  exists a b c d,
    fmt_clock m = String a (String b (String ":" (String c (String d "")))) /\
    is_digit a = true /\ is_digit b = true /\
    is_digit c = true /\ is_digit d = true /\
    m = (10 * digit_value a + digit_value b) * 60
        + (10 * digit_value c + digit_value d).
Proof.
  intros Hm. unfold fmt_clock.
  destruct (fmt02_digits (m / 60)) as (a & b & -> & Ha & Hb & Eh);
    [split; [apply Z.div_pos; lia | apply Z.div_lt_upper_bound; lia]|].
  destruct (fmt02_digits (m mod 60)) as (c & d & -> & Hc & Hd & Em);
    [pose proof (Z.mod_pos_bound m 60); lia|].
  exists a, b, c, d. splits; try assumption; try reflexivity.
  rewrite <- Eh, <- Em. rewrite (Z.div_mod m 60) at 1 by lia. lia.
Qed.

Lemma int_pair_clock int a b c d :
  int_reads_two_digits int ->
  is_digit a = true -> is_digit b = true ->
  is_digit c = true -> is_digit d = true ->
  int_pair int (String a (String b (String ":" (String c (String d "")))))
  = Parsed (10 * digit_value a + digit_value b,
            10 * digit_value c + digit_value d).
Proof.
  intros Hint Ha Hb Hc Hd. unfold int_pair, str_split.
  change (String a (String b (String ":" (String c (String d "")))))
    with ((String a (String b "")) ++ String ":" (String c (String d "")))%string.
  rewrite split_scan_char_cut.
  - rewrite split_scan_char_free.
    + cbn [append]. rewrite (Hint a b Ha Hb), (Hint c d Hc Hd). reflexivity.
    + simpl. rewrite (digit_is_not ":" c), (digit_is_not ":" d);
        try assumption; reflexivity.
  - simpl. rewrite (digit_is_not ":" a), (digit_is_not ":" b);
      try assumption; reflexivity.
Qed.

Lemma parse_slot_label int base_date s e :
  int_reads_two_digits int ->
  0 <= s < 6000 -> 0 <= e < 6000 ->
  _parse_time_slot int base_date (slot_label s e)
  = Parsed (base_date + s, base_date + e).
Proof.
  intros Hint Hs He. unfold _parse_time_slot, slot_label, str_split.
  destruct (fmt_clock_digits s Hs)
    as (a & b & c & d & -> & Ha & Hb & Hc & Hd & Es).
  destruct (fmt_clock_digits e He)
    as (a' & b' & c' & d' & -> & Ha' & Hb' & Hc' & Hd' & Ee).
  change ((String a (String b (String ":" (String c (String d "")))))
          ++ "-"
          ++ String a' (String b' (String ":" (String c' (String d' "")))))%string
    with ((String a (String b (String ":" (String c (String d "")))))
          ++ String "-"
               (String a' (String b' (String ":" (String c' (String d' ""))))))%string.
  rewrite split_scan_char_cut.
  - rewrite split_scan_char_free.
    + cbn [append]. rewrite !int_pair_clock by assumption.
      rewrite <- Es, <- Ee. reflexivity.
    + simpl. rewrite (digit_is_not "-" a'), (digit_is_not "-" b'),
        (digit_is_not "-" c'), (digit_is_not "-" d'); try assumption;
        reflexivity.
  - simpl. rewrite (digit_is_not "-" a), (digit_is_not "-" b),
      (digit_is_not "-" c), (digit_is_not "-" d); try assumption;
      reflexivity.
Qed.

(** X23. The visualizer reads back what the scheduler wrote: for options
    in range, [_parse_time_slot] applied to a label of the grid returns,
    without [ValueError], the first minute and the end minute of the slot
    that label was formatted from, counted from today's midnight.  The
    builtin [int] enters through what it does on a text of two decimal
    digits. *)
Theorem slot_labels_parse_back :
  forall int base_date g fuel slots time_slot,
    int_reads_two_digits int ->
    grid_in_range g ->
    _generate_time_slots fuel g = Some slots ->
    In time_slot slots ->
    exists bounds p,
      slot_bounds fuel g = Some bounds /\ In p bounds /\
      time_slot = label_of p /\
      _parse_time_slot int base_date time_slot
      = Parsed (base_date + fst p, base_date + snd p).
Proof.
  intros int base_date g fuel slots t Hint Hg Hs Ht.
  rewrite generate_time_slots_labels in Hs.
  destruct (slot_bounds fuel g) as [bounds|] eqn:Hb; [|discriminate Hs].
  simpl in Hs. injection Hs as <-. apply in_map_iff in Ht.
  destruct Ht as (p & <- & Hp). exists bounds, p.
  splits; try reflexivity; try assumption.
  pose proof (grid_in_range_steps g Hg) as Hsteps.
  destruct (grid_in_range_minutes g Hg) as (Hlo & Hhi).
  assert (Hf : follows_grid g (start_minutes g) 1 bounds)
    by (apply slot_bounds_loop_follows with (fuel := fuel); exact Hb).
  pose proof (proj1 (Forall_forall _ _)
                (follows_grid_Forall g Hsteps _ _ _ Hf) p Hp)
    as (H1 & H2 & H3).
  pose proof (steps_positive_period g Hsteps) as HP.
  unfold label_of. apply parse_slot_label; [exact Hint|lia|lia].
Qed.

Lemma int_of_digits_reads_two_digits : int_reads_two_digits int_of_digits.
Proof.
  intros a b Ha Hb. unfold int_of_digits. cbn [digits_value].
  rewrite Ha, Hb. f_equal; lia.
Qed.

Lemma slot_labels_parse_back_witness :
  exists bounds p,
    slot_bounds 300 morning = Some bounds /\ In p bounds /\
    "11:20-12:10" = label_of p /\
    _parse_time_slot int_of_digits 0 "11:20-12:10"
    = Parsed (0 + fst p, 0 + snd p).
Proof.
  apply (slot_labels_parse_back int_of_digits 0 morning 300
           ["08:00-08:50"; "09:00-09:50"; "10:00-10:50"; "11:20-12:10"]).
  - exact int_of_digits_reads_two_digits.
  - unfold grid_in_range, valid_time, steps_positive. simpl.
    repeat split; lia.
  - vm_compute. reflexivity.
  - simpl. tauto.
Defined.

(** * The summary of the generation page *)

Lemma existsb_key_eqb_iff {K} `{EqKeyOk K} (k : K) (l : list K) :
  existsb (key_eqb k) l = true <-> In k l.
Proof.
  split; [|apply existsb_key_eqb_In].
  intros Hx. apply existsb_exists in Hx. destruct Hx as (y & Hy & E).
  apply key_eqb_eq in E. subst y. exact Hy.
Qed.

Lemma distinct_In {K} `{EqKeyOk K} (l : list K) x :
  In x (distinct l) <-> In x l.
Proof.
  induction l as [|y l IH]; simpl; [tauto|].
  destruct (existsb (key_eqb y) l) eqn:E.
  - rewrite IH. split; [tauto|]. intros [<-|Hx]; [|exact Hx].
    apply existsb_key_eqb_iff. exact E.
  - simpl. rewrite IH. tauto.
Qed.

Lemma distinct_NoDup {K} `{EqKeyOk K} (l : list K) : NoDup (distinct l).
Proof.
  induction l as [|y l IH]; simpl; [constructor|].
  destruct (existsb (key_eqb y) l) eqn:E; [exact IH|].
  constructor; [|exact IH]. rewrite distinct_In. intros Hy.
  apply existsb_key_eqb_iff in Hy. congruence.
Qed.

Lemma distinct_length {K} `{EqKeyOk K} (l : list K) :
  (List.length (distinct l) <= List.length l)%nat.
Proof.
  induction l as [|y l IH]; simpl; [lia|].
  destruct (existsb (key_eqb y) l); simpl; lia.
Qed.

Lemma distinct_within {K} `{EqKeyOk K} (l l' : list K) :
  incl l l' -> (List.length (distinct l) <= List.length l')%nat.
Proof.
  intros Hincl. apply NoDup_incl_length; [apply distinct_NoDup|].
  intros x Hx. apply Hincl. apply (proj1 (distinct_In _ _)). exact Hx.
Qed.

(** X24. The summary of a generated schedule is bounded by the inputs:
    the number of classes scheduled is at most the number of courses
    assigned, which is at most the number of time slots filled; the slots
    filled are at most the sessions asked for, the courses assigned at
    most the courses entered, and the classes scheduled at most the
    classes entered. *)
Theorem schedule_summary_bounds :
  forall fuel ts rs cls cs g self rng schedule cfs,
    grid_in_range g ->
    __init__ fuel ts rs cls cs g = Some self ->
    generate_schedule self rng = Ok (schedule, cfs) ->
    (n_classes schedule <= n_courses schedule <= n_slots schedule)%nat /\
    (n_slots schedule <= total_frequency cs)%nat /\
    (n_courses schedule <= List.length cs)%nat /\
    (n_classes schedule <= List.length cls)%nat.
Proof.
  intros fuel ts rs cls cs g self rng schedule cfs Hgrid Hi Hg.
  destruct (init_NoDup _ _ _ _ _ _ _ Hgrid Hi) as (Hd & Ht).
  destruct (init_inv _ _ _ _ _ _ _ Hi) as (Hself & _).
  assert (Hcs : courses self = cs) by (rewrite Hself; reflexivity).
  assert (Hcls : classes self = cls) by (rewrite Hself; reflexivity).
  destruct (generate_schedule_log _ _ _ _ Hg)
    as (st & committed & _ & Hinv & Hcol & _ & Hlen & _).
  pose proof (ci_ok _ _ _ Hinv) as Hok.
  pose proof (schedule_permutation _ _ _ _ Hinv Hd Ht Hcol) as Hperm.
  assert (Hfacts : forall a, In a schedule ->
            In (a_class a, a_course a)
              (map (fun c => (c_class c, c_name c)) cs) /\
            In (a_class a) (map cl_name cls)).
  { intros a Ha.
    destruct (collect_schedule_In self st _ _ Hcol Ha) as (c & d & t & Hcell).
    pose proof (ci_sound _ _ _ Hinv _ _ _ _ Hcell) as Hin.
    destruct (ci_wf _ _ _ Hinv a Hin) as (_ & _ & course & Hc & E1 & E2 & _).
    destruct (ok_cell _ _ Hok _ _ _ _ Hcell) as (Ec & _).
    split.
    - rewrite E1, E2, <- Hcs.
      apply (in_map (fun c => (c_class c, c_name c))). exact Hc.
    - rewrite <- Hcls. apply (ok_classes _ _ Hok). rewrite Ec.
      eapply ledger_get_key. exact Hcell. }
  unfold n_classes, n_courses, n_slots. splits.
  - split.
    + rewrite <- (length_map fst (distinct _)).
      apply NoDup_incl_length; [apply distinct_NoDup|].
      intros x Hx. apply (proj1 (distinct_In _ _)) in Hx.
      apply in_map_iff in Hx. destruct Hx as (a & <- & Ha).
      apply (in_map fst _ (a_class a, a_course a)).
      apply (proj2 (distinct_In _ _)).
      apply (in_map (fun item => (a_class item, a_course item))). exact Ha.
    + rewrite <- (length_map (fun item => (a_class item, a_course item))
                    schedule).
      apply distinct_length.
  - rewrite (Permutation_length Hperm), <- Hcs. lia.
  - rewrite <- (length_map (fun c => (c_class c, c_name c)) cs).
    apply distinct_within. intros x Hx. apply in_map_iff in Hx.
    destruct Hx as (a & <- & Ha). apply (Hfacts a Ha).
  - rewrite <- (length_map cl_name cls).
    apply distinct_within. intros x Hx. apply in_map_iff in Hx.
    destruct Hx as (a & <- & Ha). apply (Hfacts a Ha).
Qed.

Lemma schedule_summary_bounds_witness :
  exists schedule cfs,
    generate_schedule small_school draws = Ok (schedule, cfs) /\
    (n_classes schedule <= n_courses schedule <= n_slots schedule)%nat /\
    (n_slots schedule <= 12)%nat.
Proof.
  destruct (generate_schedule small_school draws) as [[schedule cfs]|e] eqn:E;
    [|vm_compute in E; discriminate E].
  exists schedule, cfs. split; [reflexivity|].
  destruct (schedule_summary_bounds 300 small_teachers small_rooms
              small_classes small_courses morning small_school draws
              schedule cfs) as (H1 & H2 & _).
  - unfold grid_in_range, valid_time, steps_positive. simpl.
    repeat split; lia.
  - vm_compute. reflexivity.
  - exact E.
  - split; [exact H1|exact H2].
Defined.

(** ** Weekday avoidance on the returned schedule *)




Section Days.
Variable self : ScheduleGenerator.
Variable course : Course.
Hypothesis Hcourse : In course (courses self).

Local Abbreviation size := (_get_class_size self (c_class course)).

End Days.






(** ** A course without a class *)



